(** * HedgeSync: hedge ratio, backtest and stress test over binary64 floats

    A shallow embedding of the quantitative core of HedgeSync
    (data_processor.py, hedge_ratio_calculator.py, backtest_engine.py,
    stress_test.py).

    Numbers are IEEE 754 binary64 values, as Python's [float] and numpy's
    [float64] are: the kernel's primitive [float] with its NaN, its
    infinities and its rounding.  A pandas column is a list; a frame is a
    list of rows, each row carrying its index label.  An exception is a
    value of [exn], and a function that can raise returns a [result].

    Library reductions ([sum], [mean], [var], [std], [np.cov]) are folded
    from left to right; numpy and pandas may associate the additions
    differently (pairwise summation, bottleneck), which changes the last
    bits of a sum and nothing else here. *)

From Stdlib Require Import String.
From Stdlib Require Import Floats ZArith List Bool Lia Sorted.
From Stdlib Require Uint63.
Import ListNotations.

Set Implicit Arguments.
Set Warnings "-inexact-float".
Set Warnings "-notation-overridden".

(** ** Exceptions and results *)

(** The messages of the [ValueError]s the program raises or receives. *)
Inductive value_error : Set :=
| EmptyData          (* "data is empty", raised by every entry point *)
| InsufficientData   (* fewer than two difference rows *)
| NoOverlap          (* align_data: no common date *)
| InvalidBacktest    (* run_stress_test: no record set *)
| NoDataInPeriod     (* a date range that selects no row *)
| NaTStrftime        (* pandas: NaTType does not support strftime *)
| NaNToInteger       (* round(nan): cannot convert float NaN to integer *)
| EmptySequence      (* min() of an empty sequence *)
| BacktestNotRun     (* a query before any backtest was run *)
| NegativeSamples.   (* np.linspace: the number of samples is negative *)

Inductive exn : Set :=
| ValueError (msg : value_error)
| ZeroDivisionError
| OverflowError
| NameError (name : string)
| KeyError (key : string)
| TypeError
| IndexError.

Inductive result (A : Type) : Type :=
| Ok (a : A)
| Raise (e : exn).

Arguments Ok {A} a.
Arguments Raise {A} e.

Definition bind {A B : Type} (r : result A) (k : A -> result B) : result B :=
  match r with
  | Ok a => k a
  | Raise e => Raise e
  end.

Declare Scope result_scope.
Delimit Scope result_scope with result.
Notation "x <- r ;; k" := (bind r (fun x => k))
  (at level 61, r at next level, right associativity) : result_scope.
Notation "' p <- r ;; k" := (bind r (fun p => k))
  (at level 61, p pattern, r at next level, right associativity) : result_scope.

Fixpoint mapM {A B : Type} (f : A -> result B) (l : list A) : result (list B) :=
  match l with
  | [] => Ok []
  | a :: l' =>
      match f a with
      | Raise e => Raise e
      | Ok b =>
          match mapM f l' with
          | Raise e => Raise e
          | Ok bs => Ok (b :: bs)
          end
      end
  end.

(** ** Python scalars *)

Module Py.

Open Scope float_scope.

(** [int -> float] for the integers the program converts: exact below 2^63;
    above, exact for an integer that is itself a binary64 value (the only
    large integers the program has come from [round] of a float). *)
Definition float_of_Z (z : Z) : float :=
  let a := Z.abs z in
  let f :=
    if (a <? 2 ^ 63)%Z then of_uint63 (Uint63.of_Z a)
    else
      let k := (Z.log2 a - 62)%Z in
      Z.ldexp (of_uint63 (Uint63.of_Z (Z.shiftr a k))) k in
  if (z <? 0)%Z then - f else f.

Definition float_of_nat (n : nat) : float := float_of_Z (Z.of_nat n).

(** [a / b] on Python floats: a zero divisor raises, whatever [a] is. *)
Definition div (a b : float) : result float :=
  if b =? 0 then Raise ZeroDivisionError else Ok (a / b).

(** [round(x)] with one argument: the nearest integer, ties to even;
    [ValueError] on NaN and [OverflowError] on an infinity. *)
Definition round_half_even (m : Z) (e : Z) : Z :=
  if (0 <=? e)%Z then Z.shiftl m e
  else
    let d := (2 ^ (- e))%Z in
    let q := (m / d)%Z in
    let r := (m mod d)%Z in
    match (2 * r ?= d)%Z with
    | Lt => q
    | Gt => (q + 1)%Z
    | Eq => if Z.even q then q else (q + 1)%Z
    end.

Definition round (x : float) : result Z :=
  match Prim2SF x with
  | S754_nan => Raise (ValueError NaNToInteger)
  | S754_infinity _ => Raise OverflowError
  | S754_zero _ => Ok 0%Z
  | S754_finite s m e =>
      let n := round_half_even (Z.pos m) e in
      Ok (if s then (- n)%Z else n)
  end.

(** The builtin [min] of a sequence of floats: the running minimum under
    [<], so a NaN is kept when it comes first and passed over otherwise. *)
Definition min (xs : list float) : result float :=
  match xs with
  | [] => Raise (ValueError EmptySequence)
  | x :: tl =>
      Ok (fold_left (fun smallest item =>
                       if item <? smallest then item else smallest) tl x)
  end.

End Py.

(** ** pandas and numpy on a column *)

Module Pd.

Open Scope float_scope.

(** Missing values: pandas drops them before a reduction ([skipna=True]). *)
Definition notna (xs : list float) : list float :=
  filter (fun x => negb (is_nan x)) xs.

Definition fillna0 (x : float) : float := if is_nan x then 0 else x.

(** [Series.diff()]: the first row has no predecessor and is NaN. *)
Fixpoint diff_from (prev : float) (xs : list float) : list float :=
  match xs with
  | [] => []
  | x :: tl => (x - prev) :: diff_from x tl
  end.

Definition diff (xs : list float) : list float :=
  match xs with
  | [] => []
  | x :: tl => nan :: diff_from x tl
  end.

(** [Series.ffill()]: a missing value takes the last value before it; the
    missing values at the head of the column stay. *)
Fixpoint ffill_from (last : float) (xs : list float) : list float :=
  match xs with
  | [] => []
  | x :: tl =>
      let v := if is_nan x then last else x in
      v :: ffill_from v tl
  end.

Definition ffill (xs : list float) : list float := ffill_from nan xs.

(** [Series.pct_change()] with its defaults ([periods=1],
    [fill_method='pad'], as pandas has them before 3.0): the column is
    forward-filled, then [x / x.shift(1) - 1]. *)
Fixpoint pct_change_from (prev : float) (xs : list float) : list float :=
  match xs with
  | [] => []
  | x :: tl => (x / prev - 1) :: pct_change_from x tl
  end.

Definition pct_change (xs : list float) : list float :=
  match ffill xs with
  | [] => []
  | x :: tl => nan :: pct_change_from x tl
  end.

(** [np.cumsum]: the first element is copied, each later one is added to the
    running total. *)
Fixpoint np_cumsum_from (acc : float) (xs : list float) : list float :=
  match xs with
  | [] => []
  | x :: tl => (acc + x) :: np_cumsum_from (acc + x) tl
  end.

Definition np_cumsum (xs : list float) : list float :=
  match xs with
  | [] => []
  | x :: tl => x :: np_cumsum_from x tl
  end.

(** [Series.cumsum()]: pandas puts 0.0 in place of the missing values, runs
    [np.cumsum], and writes NaN back where the value was missing. *)
Fixpoint remask (xs cs : list float) : list float :=
  match xs, cs with
  | x :: xs', c :: cs' => (if is_nan x then nan else c) :: remask xs' cs'
  | _, _ => []
  end.

Definition cumsum (xs : list float) : list float :=
  remask xs (np_cumsum (map fillna0 xs)).

(** Reductions, missing values skipped. *)
Definition sum (xs : list float) : float :=
  fold_left PrimFloat.add (notna xs) 0.

Definition count (xs : list float) : nat := length (notna xs).

Definition mean (xs : list float) : float :=
  match count xs with
  | O => nan
  | n => sum xs / Py.float_of_nat n
  end.

(** [Series.var()], [ddof = 1]: NaN unless two values are present. *)
Definition var (xs : list float) : float :=
  let n := count xs in
  if (n <=? 1)%nat then nan
  else
    let avg := sum xs / Py.float_of_nat n in
    sum (map (fun x => (avg - x) * (avg - x)) (notna xs))
    / Py.float_of_nat (n - 1).

Definition std (xs : list float) : float := PrimFloat.sqrt (var xs).

Definition fmin (a b : float) : float := if b <? a then b else a.
Definition fmax (a b : float) : float := if a <? b then b else a.

Definition min (xs : list float) : float :=
  match notna xs with
  | [] => nan
  | x :: tl => fold_left fmin tl x
  end.

Definition max (xs : list float) : float :=
  match notna xs with
  | [] => nan
  | x :: tl => fold_left fmax tl x
  end.

(** [(column > 0).sum()]: how many values are positive. *)
Definition count_positive (xs : list float) : nat :=
  length (filter (fun x => 0 <? x) xs).

(** [Series.expanding().max()]: the largest value seen so far. *)
Fixpoint expanding_max_from (peak : float) (xs : list float) : list float :=
  match xs with
  | [] => []
  | x :: tl =>
      let peak' := if is_nan peak then x
                   else if is_nan x then peak else fmax peak x in
      peak' :: expanding_max_from peak' tl
  end.

Definition expanding_max (xs : list float) : list float :=
  expanding_max_from nan xs.

Fixpoint sub_columns (xs ys : list float) : list float :=
  match xs, ys with
  | x :: xs', y :: ys' => (x - y) :: sub_columns xs' ys'
  | _, _ => []
  end.

End Pd.

Module Np.

Open Scope float_scope.

(** [np.mean] of a list of numbers. *)
Definition mean (xs : list float) : float :=
  fold_left PrimFloat.add xs 0 / Py.float_of_nat (length xs).

Fixpoint insert_sorted (x : float) (l : list float) : list float :=
  match l with
  | [] => [x]
  | y :: tl => if x <=? y then x :: l else y :: insert_sorted x tl
  end.

Definition sort (l : list float) : list float :=
  fold_right insert_sorted [] l.

(** The integer part of a non-negative float. *)
Definition floor_nat (x : float) : nat :=
  match Prim2SF x with
  | S754_finite false m e =>
      Z.to_nat (if (0 <=? e)%Z then Z.shiftl (Z.pos m) e
                else Z.shiftr (Z.pos m) (- e))
  | _ => O
  end.

(** numpy's linear interpolation between two neighbours. *)
Definition lerp (a b t : float) : float :=
  let diff_b_a := b - a in
  if 0.5 <=? t then b - diff_b_a * (1 - t) else a + diff_b_a * t.

(** [np.percentile(a, q)], linear method.  On an empty array numpy reads
    [arr[-1]] and raises [IndexError]; a NaN in the data gives NaN. *)
Definition percentile (a : list float) (q : float) : result float :=
  match a with
  | [] => Raise IndexError
  | _ =>
      if existsb is_nan a then Ok nan
      else
        let n := length a in
        let arr := sort a in
        let virtual_index := Py.float_of_nat (n - 1) * (q / 100) in
        let previous := Nat.min (floor_nat virtual_index) (n - 1) in
        let next := Nat.min (S (floor_nat virtual_index)) (n - 1) in
        let gamma := virtual_index - Py.float_of_nat (floor_nat virtual_index) in
        Ok (lerp (nth previous arr nan) (nth next arr nan) gamma)
  end.

Fixpoint dot (xs ys : list float) : float :=
  match xs, ys with
  | x :: xs', y :: ys' => x * y + dot xs' ys'
  | _, _ => 0
  end.

(** One entry of [np.cov(x, y)] ([ddof = 1]): the rows are centred on their
    means, multiplied, and the product is scaled by [1 / (n - 1)]. *)
Definition centre (xs : list float) : list float :=
  let avg := fold_left PrimFloat.add xs 0 / Py.float_of_nat (length xs) in
  map (fun x => x - avg) xs.

Definition cov (xs ys : list float) : float :=
  fold_left PrimFloat.add (map (fun p => fst p * snd p) (combine (centre xs) (centre ys))) 0
  * (1 / Py.float_of_nat (length xs - 1)).

Definition clip (x lo hi : float) : float :=
  if x <? lo then lo else if hi <? x then hi else x.

(** [np.corrcoef(x, y)[0, 1]]: the covariance divided by both standard
    deviations in turn, clipped to [-1, 1]. *)
Definition corrcoef (xs ys : list float) : float :=
  let c := cov xs ys in
  let sx := PrimFloat.sqrt (cov xs xs) in
  let sy := PrimFloat.sqrt (cov ys ys) in
  clip (c / sx / sy) (-1) 1.

End Np.

(** ** Frames *)

(** A row of the aligned frame: its index label, its date (a day number) and
    the two prices. *)
Record PricePoint : Set := {
  index : Z;
  date : Z;
  spot_price : float;
  future_price : float
}.

Definition AlignedSeries := list PricePoint.

(** [column.min()] and [column.max()] of a date column: [None] is NaT. *)
Definition date_min (ds : list Z) : option Z :=
  match ds with
  | [] => None
  | d :: tl => Some (fold_left Z.min tl d)
  end.

Definition date_max (ds : list Z) : option Z :=
  match ds with
  | [] => None
  | d :: tl => Some (fold_left Z.max tl d)
  end.

(** [Timestamp.strftime]: NaT has none.  The day number stands for the
    formatted text. *)
Definition strftime (d : option Z) : result Z :=
  match d with
  | Some d => Ok d
  | None => Raise (ValueError NaTStrftime)
  end.

(** Python's [l[start:stop]], as [DataFrame.iloc] applies it to positions. *)
Definition slice_bound (len i : Z) : Z :=
  if (i <? 0)%Z then Z.max 0 (i + len) else Z.min i len.

Definition iloc_slice {A : Type} (l : list A) (start stop : Z) : list A :=
  let n := Z.of_nat (length l) in
  let a := slice_bound n start in
  let b := slice_bound n stop in
  firstn (Z.to_nat (b - a)) (skipn (Z.to_nat a) l).

(** ** backtest_engine.py *)

Module BacktestEngine.

Open Scope float_scope.

Inductive HedgeDirection : Set :=
| LONG_HEDGE    (* short spot, long futures *)
| SHORT_HEDGE.  (* long spot, short futures *)

(** A row of the backtest frame: the aligned row and the columns
    [run_backtest] adds. *)
Record BacktestRecord : Set := {
  point : PricePoint;
  spot_price_change : float;
  future_price_change : float;
  spot_pnl : float;
  future_pnl : float;
  total_pnl : float;
  unhedged_pnl : float;
  total_pnl_cumulative : float;
  unhedged_pnl_cumulative : float;
  spot_pnl_cumulative : float;
  future_pnl_cumulative : float
}.

Record PerformanceMetrics : Set := {
  total_days : nat;
  total_hedged_pnl : float;
  total_unhedged_pnl : float;
  total_spot_pnl : float;
  total_future_pnl : float;
  avg_daily_hedged_pnl : float;
  avg_daily_unhedged_pnl : float;
  profitable_days_hedged : nat;
  profitable_days_unhedged : nat;
  profitable_days_ratio_hedged : float;
  profitable_days_ratio_unhedged : float;
  hedged_volatility : float;
  unhedged_volatility : float;
  max_drawdown_hedged : float;
  max_drawdown_unhedged : float;
  sharpe_ratio_hedged : float;
  sharpe_ratio_unhedged : float;
  variance_reduction_rate : float;
  volatility_reduction_rate : float;
  hedging_effectiveness : float;
  estimated_hedge_cost : float;
  max_daily_gain_hedged : float;
  max_daily_loss_hedged : float;
  max_daily_gain_unhedged : float;
  max_daily_loss_unhedged : float;
  var_95_hedged : float;
  var_95_unhedged : float;
  start_date : Z;
  end_date : Z
}.

Record HedgeParameters : Set := {
  hedge_ratio : float;
  spot_quantity : float;
  future_quantity : float;
  hedge_direction : HedgeDirection;
  future_contract_size : float
}.

Record BacktestResult : Set := {
  data : list BacktestRecord;
  performance_metrics : PerformanceMetrics;
  hedge_parameters : HedgeParameters
}.

Fixpoint add_columns (xs ys : list float) : list float :=
  match xs, ys with
  | x :: xs', y :: ys' => (x + y) :: add_columns xs' ys'
  | _, _ => []
  end.

(** [DataFrame.dropna()]: a row with a missing value in any column goes. *)
Definition row_has_nan (r : BacktestRecord) : bool :=
  is_nan (spot_price (point r)) || is_nan (future_price (point r))
  || is_nan (spot_price_change r) || is_nan (future_price_change r)
  || is_nan (spot_pnl r) || is_nan (future_pnl r)
  || is_nan (total_pnl r) || is_nan (unhedged_pnl r)
  || is_nan (total_pnl_cumulative r) || is_nan (unhedged_pnl_cumulative r)
  || is_nan (spot_pnl_cumulative r) || is_nan (future_pnl_cumulative r).

Definition dropna (rows : list BacktestRecord) : list BacktestRecord :=
  filter (fun r => negb (row_has_nan r)) rows.

(** Lines 48 to 84 of [run_backtest]: the frame with every added column,
    before the rows with a missing value are dropped. *)
Definition backtest_columns (aligned_data : AlignedSeries)
    (hedge_ratio spot_quantity : float) (hedge_direction : HedgeDirection)
  : list BacktestRecord :=
  let future_quantity := spot_quantity * hedge_ratio in
  let spot_price_change := Pd.diff (map spot_price aligned_data) in
  let future_price_change := Pd.diff (map future_price aligned_data) in
  let spot_pnl :=
    match hedge_direction with
    | SHORT_HEDGE => map (fun d => spot_quantity * d) spot_price_change
    | LONG_HEDGE => map (fun d => - spot_quantity * d) spot_price_change
    end in
  let future_pnl :=
    match hedge_direction with
    | SHORT_HEDGE => map (fun d => - future_quantity * d) future_price_change
    | LONG_HEDGE => map (fun d => future_quantity * d) future_price_change
    end in
  let total_pnl := add_columns spot_pnl future_pnl in
  let unhedged_pnl :=
    match hedge_direction with
    | SHORT_HEDGE => map (fun d => spot_quantity * d) spot_price_change
    | LONG_HEDGE => map (fun d => - spot_quantity * d) spot_price_change
    end in
  let total_pnl_cumulative := Pd.cumsum total_pnl in
  let unhedged_pnl_cumulative := Pd.cumsum unhedged_pnl in
  let spot_pnl_cumulative := Pd.cumsum spot_pnl in
  let future_pnl_cumulative := Pd.cumsum future_pnl in
  map (fun ip : nat * PricePoint =>
         let i := fst ip in
         {| point := snd ip;
            spot_price_change := nth i spot_price_change nan;
            future_price_change := nth i future_price_change nan;
            spot_pnl := nth i spot_pnl nan;
            future_pnl := nth i future_pnl nan;
            total_pnl := nth i total_pnl nan;
            unhedged_pnl := nth i unhedged_pnl nan;
            total_pnl_cumulative := nth i total_pnl_cumulative nan;
            unhedged_pnl_cumulative := nth i unhedged_pnl_cumulative nan;
            spot_pnl_cumulative := nth i spot_pnl_cumulative nan;
            future_pnl_cumulative := nth i future_pnl_cumulative nan |})
      (combine (seq 0 (length aligned_data)) aligned_data).

(** The engine's [_calculate_max_drawdown]: the lowest point of the
    cumulative series below its running peak. *)
Definition _calculate_max_drawdown (cumulative_series : list float) : float :=
  let peak := Pd.expanding_max cumulative_series in
  let drawdown := Pd.sub_columns cumulative_series peak in
  Pd.min drawdown.

Definition sharpe_ratio (avg volatility : float) : float :=
  if 0 <? volatility then avg / volatility else 0.

Definition _calculate_performance_metrics (data : list BacktestRecord)
    (hedge_direction : HedgeDirection) (spot_quantity future_quantity : float)
  : result PerformanceMetrics :=
  let total := map total_pnl data in
  let unhedged := map unhedged_pnl data in
  let total_days := length data in
  let profitable_days_hedged := Pd.count_positive total in
  let profitable_days_unhedged := Pd.count_positive unhedged in
  let hedged_volatility := Pd.std total in
  let unhedged_volatility := Pd.std unhedged in
  let avg_daily_hedged_pnl := Pd.mean total in
  let avg_daily_unhedged_pnl := Pd.mean unhedged in
  let variance_reduction :=
    (Pd.var unhedged - Pd.var total) / Pd.var unhedged in
  let volatility_reduction :=
    (unhedged_volatility - hedged_volatility) / unhedged_volatility in
  (var_95_hedged <- Np.percentile total 5 ;;
   var_95_unhedged <- Np.percentile unhedged 5 ;;
   start_date <- strftime (date_min (map (fun r => date (point r)) data)) ;;
   end_date <- strftime (date_max (map (fun r => date (point r)) data)) ;;
   Ok {| total_days := total_days;
         total_hedged_pnl := Pd.sum total;
         total_unhedged_pnl := Pd.sum unhedged;
         total_spot_pnl := Pd.sum (map spot_pnl data);
         total_future_pnl := Pd.sum (map future_pnl data);
         avg_daily_hedged_pnl := avg_daily_hedged_pnl;
         avg_daily_unhedged_pnl := avg_daily_unhedged_pnl;
         profitable_days_hedged := profitable_days_hedged;
         profitable_days_unhedged := profitable_days_unhedged;
         profitable_days_ratio_hedged :=
           Py.float_of_nat profitable_days_hedged / Py.float_of_nat total_days;
         profitable_days_ratio_unhedged :=
           Py.float_of_nat profitable_days_unhedged / Py.float_of_nat total_days;
         hedged_volatility := hedged_volatility;
         unhedged_volatility := unhedged_volatility;
         max_drawdown_hedged :=
           _calculate_max_drawdown (map total_pnl_cumulative data);
         max_drawdown_unhedged :=
           _calculate_max_drawdown (map unhedged_pnl_cumulative data);
         sharpe_ratio_hedged :=
           sharpe_ratio avg_daily_hedged_pnl hedged_volatility;
         sharpe_ratio_unhedged :=
           sharpe_ratio avg_daily_unhedged_pnl unhedged_volatility;
         variance_reduction_rate := variance_reduction;
         volatility_reduction_rate := volatility_reduction;
         hedging_effectiveness := variance_reduction;
         estimated_hedge_cost :=
           abs future_quantity
           * Pd.mean (map (fun r => future_price (point r)) data) * 0.001;
         max_daily_gain_hedged := Pd.max total;
         max_daily_loss_hedged := Pd.min total;
         max_daily_gain_unhedged := Pd.max unhedged;
         max_daily_loss_unhedged := Pd.min unhedged;
         var_95_hedged := var_95_hedged;
         var_95_unhedged := var_95_unhedged;
         start_date := start_date;
         end_date := end_date |})%result.

(** [run_backtest].  The method also keeps the result it returns in
    [self.backtest_results], for the queries that follow. *)
Definition run_backtest (aligned_data : AlignedSeries)
    (hedge_ratio spot_quantity : float) (hedge_direction : HedgeDirection)
    (future_contract_size : float) : result BacktestResult :=
  match aligned_data with
  | [] => Raise (ValueError EmptyData)
  | _ =>
      let future_quantity := spot_quantity * hedge_ratio in
      let data :=
        dropna (backtest_columns aligned_data hedge_ratio spot_quantity
                  hedge_direction) in
      (performance_metrics <-
         _calculate_performance_metrics data hedge_direction spot_quantity
           future_quantity ;;
       Ok {| data := data;
             performance_metrics := performance_metrics;
             hedge_parameters :=
               {| hedge_ratio := hedge_ratio;
                  spot_quantity := spot_quantity;
                  future_quantity := future_quantity;
                  hedge_direction := hedge_direction;
                  future_contract_size := future_contract_size |} |})%result
  end.


(** The signed formulas of lines 58 to 78, read on one row. *)
Definition pnl_formulas (q h : float) (dir : HedgeDirection)
    (r : BacktestRecord) : Prop :=
  match dir with
  | SHORT_HEDGE =>
      spot_pnl r = q * spot_price_change r
      /\ future_pnl r = - (q * h) * future_price_change r
      /\ unhedged_pnl r = q * spot_price_change r
  | LONG_HEDGE =>
      spot_pnl r = - q * spot_price_change r
      /\ future_pnl r = q * h * future_price_change r
      /\ unhedged_pnl r = - q * spot_price_change r
  end.

End BacktestEngine.

(** ** statsmodels: the least-squares line *)

Module Sm.

Open Scope float_scope.

Record RegressionFit : Set := {
  intercept : float;
  slope : float;
  rsquared : float;
  rsquared_adj : float;
  fvalue : float;
  bse_slope : float
}.

Definition sum_sq (xs : list float) : float :=
  fold_left PrimFloat.add (map (fun x => x * x) xs) 0.

(** [sm.add_constant(x)] leaves [x] alone when it is already a non-zero
    constant column ([has_constant='skip']): the fit then has one parameter,
    and reading [params[1]] fails. *)
Definition is_nonzero_const (x : list float) : bool :=
  (Pd.max x - Pd.min x =? 0) && forallb (fun v => negb (v =? 0)) x.

(** [sm.OLS(y, sm.add_constant(x)).fit()]: statsmodels solves the
    least-squares problem by pseudo-inverse; here the same fit is written in
    closed form.  An all-zero regressor gets the minimum-norm solution, slope
    0.  The p-values of the fit need the F and t distributions and are left
    out. *)
Definition ols (y x : list float) : result RegressionFit :=
  if is_nonzero_const x then Raise IndexError
  else
    let n := Py.float_of_nat (length x) in
    let x_mean := fold_left PrimFloat.add x 0 / n in
    let y_mean := fold_left PrimFloat.add y 0 / n in
    let dx := map (fun v => v - x_mean) x in
    let dy := map (fun v => v - y_mean) y in
    let sxx := sum_sq dx in
    let sxy := Np.dot dx dy in
    let slope := if sxx =? 0 then 0 else sxy / sxx in
    let intercept := y_mean - slope * x_mean in
    let resid :=
      map (fun p => fst p - (intercept + slope * snd p)) (combine y x) in
    let ssr := sum_sq resid in
    let centered_tss := sum_sq dy in
    let rsquared := 1 - ssr / centered_tss in
    let df_resid := n - 2 in
    let mse_resid := ssr / df_resid in
    Ok {| intercept := intercept;
          slope := slope;
          rsquared := rsquared;
          rsquared_adj := 1 - (n - 1) / df_resid * (1 - rsquared);
          fvalue := (centered_tss - ssr) / 1 / mse_resid;
          bse_slope :=
            if sxx =? 0 then 0 else PrimFloat.sqrt (mse_resid / sxx) |}.

End Sm.

(** ** hedge_ratio_calculator.py *)

Module HedgeRatioCalculator.

Open Scope float_scope.

(** A row of the aligned frame with the two difference columns. *)
Record ChangeRow : Set := {
  point : PricePoint;
  spot_change : float;
  future_change : float
}.

(** The result dictionaries.  The p-values of the regression and of the
    correlation need the F, t and beta distributions and are left out. *)
Record RegressionResults : Set := {
  r_squared : float;
  adj_r_squared : float;
  f_statistic : float;
  intercept : float;
  slope : float;
  slope_std_error : float
}.

Record CorrelationAnalysis : Set := {
  correlation : float;
  spot_volatility : float;
  future_volatility : float
}.

Record HedgeRatioResult : Set := {
  optimal_hedge_ratio : float;
  hedge_ratio_ols : float;
  hedge_ratio_corr : float;
  regression_results : RegressionResults;
  correlation_analysis : CorrelationAnalysis;
  data_points : nat;
  window_used : option Z
}.

Record HedgeEffectiveness : Set := {
  hedge_effectiveness : float;
  risk_reduction_rate : float;
  unhedged_variance : float;
  hedged_variance : float;
  unhedged_volatility : float;
  hedged_volatility : float;
  variance_reduction : float
}.

Record HedgeQuantity : Set := {
  spot_quantity : float;
  hedge_ratio : float;
  future_quantity_needed : float;
  future_contract_size : float;
  contract_count : float;
  rounded_contract_count : Z;
  actual_hedge_ratio : float
}.

(** [DataFrame.tail(n)]: the last [n] rows; all but the first [-n] when [n]
    is negative. *)
Definition tail {A : Type} (n : Z) (l : list A) : list A :=
  if (n <? 0)%Z then skipn (Z.to_nat (- n)) l
  else skipn (length l - Z.to_nat n) l.

(** The two [diff] columns next to the aligned rows. *)
Definition with_changes (data : AlignedSeries) : list ChangeRow :=
  let spot_change := Pd.diff (map spot_price data) in
  let future_change := Pd.diff (map future_price data) in
  map (fun ip : nat * PricePoint =>
         {| point := snd ip;
            spot_change := nth (fst ip) spot_change nan;
            future_change := nth (fst ip) future_change nan |})
      (combine (seq 0 (length data)) data).

Definition change_row_has_nan (r : ChangeRow) : bool :=
  is_nan (spot_price (point r)) || is_nan (future_price (point r))
  || is_nan (spot_change r) || is_nan (future_change r).

Definition dropna (rows : list ChangeRow) : list ChangeRow :=
  filter (fun r => negb (change_row_has_nan r)) rows.

(** Lines 54 to 98 of [calculate_optimal_hedge_ratio]: the three ratios from
    the difference columns that are left. *)
Definition ratios_of_changes (spot_changes future_changes : list float)
    (window_size : option Z) : result (float * HedgeRatioResult) :=
  let cov01 := Np.cov spot_changes future_changes in
  let cov11 := Np.cov future_changes future_changes in
  let hedge_ratio_mv := cov01 / cov11 in
  (model <- Sm.ols spot_changes future_changes ;;
   let hedge_ratio_ols := Sm.slope model in
   let correlation := Np.corrcoef spot_changes future_changes in
   let spot_vol := Pd.std spot_changes in
   let future_vol := Pd.std future_changes in
   let hedge_ratio_corr := correlation * (spot_vol / future_vol) in
   let optimal_ratio := hedge_ratio_mv in
   Ok (optimal_ratio,
       {| optimal_hedge_ratio := optimal_ratio;
          hedge_ratio_ols := hedge_ratio_ols;
          hedge_ratio_corr := hedge_ratio_corr;
          regression_results :=
            {| r_squared := Sm.rsquared model;
               adj_r_squared := Sm.rsquared_adj model;
               f_statistic := Sm.fvalue model;
               intercept := Sm.intercept model;
               slope := Sm.slope model;
               slope_std_error := Sm.bse_slope model |};
          correlation_analysis :=
            {| correlation := correlation;
               spot_volatility := spot_vol;
               future_volatility := future_vol |};
          data_points := length spot_changes;
          window_used := window_size |}))%result.

Definition calculate_optimal_hedge_ratio (aligned_data : AlignedSeries)
    (window_size : option Z) : result (float * HedgeRatioResult) :=
  match aligned_data with
  | [] => Raise (ValueError EmptyData)
  | _ =>
      let data :=
        match window_size with
        | Some w =>
            if negb (w =? 0)%Z && (w <? Z.of_nat (length aligned_data))%Z
            then tail w aligned_data
            else aligned_data
        | None => aligned_data
        end in
      let data := dropna (with_changes data) in
      if (length data <? 2)%nat then Raise (ValueError InsufficientData)
      else
        ratios_of_changes (map spot_change data) (map future_change data)
          (match window_size with
           | Some w => if (w =? 0)%Z then None else Some w
           | None => None
           end)
  end.

(** Lines 132 to 151 of [calculate_hedge_effectiveness], from the columns
    [spot_change] and [hedged_change] that are left after [dropna]. *)
Definition effectiveness_of_changes (spot_changes hedged_changes : list float)
  : HedgeEffectiveness :=
  let unhedged_variance := Pd.var spot_changes in
  let hedged_variance := Pd.var hedged_changes in
  {| hedge_effectiveness := 1 - hedged_variance / unhedged_variance;
     risk_reduction_rate :=
       (unhedged_variance - hedged_variance) / unhedged_variance;
     unhedged_variance := unhedged_variance;
     hedged_variance := hedged_variance;
     unhedged_volatility := PrimFloat.sqrt unhedged_variance;
     hedged_volatility := PrimFloat.sqrt hedged_variance;
     variance_reduction := unhedged_variance - hedged_variance |}.

Definition hedged_change (hedge_ratio : float) (r : ChangeRow) : float :=
  spot_change r - hedge_ratio * future_change r.

Definition calculate_hedge_effectiveness (aligned_data : AlignedSeries)
    (hedge_ratio : float) : result HedgeEffectiveness :=
  match aligned_data with
  | [] => Raise (ValueError EmptyData)
  | _ =>
      let data :=
        filter (fun r => negb (change_row_has_nan r
                               || is_nan (hedged_change hedge_ratio r)))
          (with_changes aligned_data) in
      if (length data <? 2)%nat then Raise (ValueError InsufficientData)
      else
        Ok (effectiveness_of_changes (map spot_change data)
              (map (hedged_change hedge_ratio) data))
  end.

(** [calculate_hedge_quantity]: plain Python floats, so a zero divisor
    raises.  The dictionary's values are computed in the order written. *)
Definition calculate_hedge_quantity (spot_quantity hedge_ratio
    future_contract_size : float) : result HedgeQuantity :=
  let future_quantity := spot_quantity * hedge_ratio in
  (contract_count <- Py.div future_quantity future_contract_size ;;
   rounded <- Py.round contract_count ;;
   rounded' <- Py.round contract_count ;;
   actual <- Py.div (Py.float_of_Z rounded' * future_contract_size)
               spot_quantity ;;
   Ok {| spot_quantity := spot_quantity;
         hedge_ratio := hedge_ratio;
         future_quantity_needed := future_quantity;
         future_contract_size := future_contract_size;
         contract_count := contract_count;
         rounded_contract_count := rounded;
         actual_hedge_ratio := actual |})%result.

End HedgeRatioCalculator.

(** ** data_processor.py *)

Module DataProcessor.

Open Scope string_scope.

(** A frame keyed by date, as [align_data] receives it: the names of its
    other columns, and per row the date and one value per column.  The index
    is the position ([reset_index(drop=True)]). *)
Record DataFrame : Set := {
  columns : list string;
  rows : list (Z * list float)
}.

Definition has_column (c : string) (cs : list string) : bool :=
  existsb (String.eqb c) cs.

(** [pd.merge(left, right, on='date', how='inner')]: one row per pair of a
    left row and a right row with the same date, in the order of the left
    keys; a column name found on both sides gets the suffix [_x] on the left
    and [_y] on the right. *)
Definition merge_columns (left right : list string) : list string :=
  List.app
    (map (fun c => if has_column c right then c ++ "_x" else c) left)
    (map (fun c => if has_column c left then c ++ "_y" else c) right).

Definition merge_rows (left right : list (Z * list float))
  : list (Z * list float) :=
  flat_map
    (fun l =>
       map (fun r => (fst l, (snd l ++ snd r)%list))
         (filter (fun r => (fst r =? fst l)%Z) right))
    left.

Definition merge (left right : DataFrame) : DataFrame :=
  {| columns := merge_columns (columns left) (columns right);
     rows := merge_rows (rows left) (rows right) |}.

(** [sort_values('date')], written as an insertion sort.  Rows with equal
    dates keep their order here; pandas' default sort need not keep it. *)
Fixpoint insert_by_date (r : Z * list float) (l : list (Z * list float))
  : list (Z * list float) :=
  match l with
  | [] => [r]
  | r' :: tl =>
      if (fst r <=? fst r')%Z then r :: l else r' :: insert_by_date r tl
  end.

Definition sort_values_date (l : list (Z * list float))
  : list (Z * list float) :=
  fold_right insert_by_date [] l.

Definition align_data (spot_df future_df : DataFrame) : result DataFrame :=
  let aligned_df := merge spot_df future_df in
  match rows aligned_df with
  | [] => Raise (ValueError NoOverlap)
  | _ =>
      Ok {| columns := columns aligned_df;
            rows := sort_values_date (rows aligned_df) |}
  end.

(** The date column of the rows of a frame. *)
Definition dates (l : list (Z * list float)) : list Z := map fst l.

(** [A[['date', 'spot_price']]] and [A[['date', 'future_price']]] of an
    aligned frame [A] with the columns [spot_price] and [future_price]. *)
Definition spot_part (a : DataFrame) : DataFrame :=
  {| columns := ["spot_price"];
     rows := map (fun r => (fst r, firstn 1 (snd r))) (rows a) |}.

Definition future_part (a : DataFrame) : DataFrame :=
  {| columns := ["future_price"];
     rows := map (fun r => (fst r, skipn 1 (snd r))) (rows a) |}.

(** A valid aligned series as a frame: the two price columns, at least one
    row, one spot and one futures price per row, dates strictly
    increasing. *)
Definition valid_aligned (a : DataFrame) : Prop :=
  columns a = ["spot_price"; "future_price"]
  /\ rows a <> []
  /\ Forall (fun r => length (snd r) = 2%nat) (rows a)
  /\ StronglySorted Z.lt (map fst (rows a)).

(** What merging an aligned frame with itself gives: each price column
    twice, under suffixed names. *)
Definition doubled (a : DataFrame) : DataFrame :=
  {| columns :=
       ["spot_price_x"; "future_price_x"; "spot_price_y"; "future_price_y"];
     rows := map (fun r => (fst r, (snd r ++ snd r)%list)) (rows a) |}.

End DataProcessor.

(** ** stress_test.py *)

Module StressTestAnalyzer.

Open Scope float_scope.

Inductive StressType : Set :=
| SharpDecline
| SharpRally
| HighVolatility.

(** A row of the frame [identify_stress_periods] works on: the price row and
    the columns [spot_price_change_pct] and [is_extreme] it adds. *)
Record StressRow : Set := {
  col_point : PricePoint;
  col_spot_price_change_pct : float;
  col_is_extreme : bool
}.

(** The dictionary [_create_stress_period_summary] builds. *)
Record StressPeriod : Set := {
  start_date : Z;
  end_date : Z;
  duration_days : nat;
  start_index : Z;
  end_index : Z;
  spot_price_change : float;
  spot_price_change_pct : float;
  future_price_change : float;
  future_price_change_pct : float;
  max_daily_spot_change : float;
  avg_daily_spot_change : float;
  volatility_spot : float;
  volatility_future : float;
  stress_type : StressType
}.

(** The dictionary [_calculate_period_performance] returns when the slice
    has rows. *)
Record PeriodPerformance : Set := {
  days : nat;
  total_hedged_pnl : float;
  total_unhedged_pnl : float;
  total_spot_pnl : float;
  total_future_pnl : float;
  avg_daily_hedged_pnl : float;
  avg_daily_unhedged_pnl : float;
  hedged_volatility : float;
  unhedged_volatility : float;
  max_daily_loss_hedged : float;
  max_daily_loss_unhedged : float;
  profitable_days_hedged : nat;
  profitable_days_unhedged : nat;
  profitable_days_ratio_hedged : float;
  profitable_days_ratio_unhedged : float;
  var_95_hedged : float;
  var_95_unhedged : float;
  hedge_advantage : float;
  risk_reduction_rate : float;
  max_drawdown_hedged : float;
  max_drawdown_unhedged : float
}.

(** The three shapes of [period_info]. *)
Inductive PeriodInfo : Set :=
| IdentifiedPeriod (period : StressPeriod)
| CustomPeriod (start_date end_date : Z) (duration_days : nat)
| NormalPeriod (duration_days : nat).

(** A period's result: the performance keys ([None] when the slice was empty
    and the dictionary holds nothing else) and [period_info]. *)
Record PeriodResult : Set := {
  performance : option PeriodPerformance;
  period_info : PeriodInfo
}.

Record StressSummary : Set := {
  total_stress_periods : nat;
  total_stress_days : nat;
  total_stress_pnl_hedged : float;
  total_stress_pnl_unhedged : float;
  avg_stress_pnl_hedged : float;
  avg_stress_pnl_unhedged : float;
  avg_volatility_hedged : float;
  avg_volatility_unhedged : float;
  max_single_loss_hedged : float;
  max_single_loss_unhedged : float;
  stress_effectiveness : float;
  stress_vs_normal_pnl_ratio : float;
  stress_vs_normal_volatility_ratio : float
}.

Inductive TestType : Set :=
| custom_period_test
| identified_periods_test.

Record StressResults : Set := {
  stress_periods : list PeriodResult;
  test_type : TestType;
  normal_period_comparison : PeriodResult;
  summary : option StressSummary
}.

(** The analyzer's two attributes. *)
Record Analyzer : Set := {
  self_stress_periods : list StressPeriod;
  self_stress_results : option StressResults
}.

Definition new_analyzer : Analyzer :=
  {| self_stress_periods := []; self_stress_results := None |}.

(** Reading a name that is neither a local nor a parameter of the function:
    Python looks it up among the module's globals when the line runs. *)
Definition lookup_name (name : string) (globals : list (string * float))
  : result float :=
  match find (fun b => String.eqb (fst b) name) globals with
  | Some b => Ok (snd b)
  | None => Raise (NameError name)
  end.

(** stress_test.py binds its imports and the class at top level, and no
    number. *)
Definition stress_test_globals : list (string * float) := [].

Definition iloc_first {A : Type} (l : list A) : result A :=
  match l with
  | [] => Raise IndexError
  | x :: _ => Ok x
  end.

Definition iloc_last {A : Type} (l : list A) : result A :=
  match rev l with
  | [] => Raise IndexError
  | x :: _ => Ok x
  end.

(** [data.loc[a:b]] on an increasing integer index: the labels from [a] to
    [b], both included. *)
Definition loc (data : list StressRow) (a b : Z) : list StressRow :=
  filter (fun r => (a <=? index (col_point r))%Z
                   && (index (col_point r) <=? b)%Z) data.

(** The added columns of [identify_stress_periods]. *)
Definition with_extremes (aligned_data : AlignedSeries)
    (price_change_threshold : float) : list StressRow :=
  let pct := map (fun c => c * 100)
               (Pd.pct_change (map spot_price aligned_data)) in
  map (fun ip : nat * PricePoint =>
         let c := nth (fst ip) pct nan in
         {| col_point := snd ip;
            col_spot_price_change_pct := c;
            col_is_extreme := price_change_threshold <? abs c |})
      (combine (seq 0 (length aligned_data)) aligned_data).

Section ModuleScope.

(** The module's globals, as the functions below find them when they run. *)
Variable globals : list (string * float).

Definition _create_stress_period_summary (period_data : list StressRow)
    (start_idx end_idx : Z) : result StressPeriod :=
  let dates := map (fun r => date (col_point r)) period_data in
  let spots := map (fun r => spot_price (col_point r)) period_data in
  let futures := map (fun r => future_price (col_point r)) period_data in
  let pcts := map col_spot_price_change_pct period_data in
  (start_date <- strftime (date_min dates) ;;
   end_date <- strftime (date_max dates) ;;
   spot_last <- iloc_last spots ;;
   spot_first <- iloc_first spots ;;
   future_last <- iloc_last futures ;;
   future_first <- iloc_first futures ;;
   let duration_days := length period_data in
   let spot_price_change_pct := (spot_last / spot_first - 1) * 100 in
   price_change_threshold <- lookup_name "price_change_threshold" globals ;;
   let bound := price_change_threshold * Py.float_of_nat duration_days * 0.3 in
   let neg_bound :=
     - price_change_threshold * Py.float_of_nat duration_days * 0.3 in
   Ok {| start_date := start_date;
         end_date := end_date;
         duration_days := duration_days;
         start_index := start_idx;
         end_index := end_idx;
         spot_price_change := spot_last - spot_first;
         spot_price_change_pct := spot_price_change_pct;
         future_price_change := future_last - future_first;
         future_price_change_pct := (future_last / future_first - 1) * 100;
         max_daily_spot_change := Pd.max (map abs pcts);
         avg_daily_spot_change := Pd.mean (map abs pcts);
         volatility_spot := Pd.std pcts;
         volatility_future := Pd.std (Pd.pct_change futures) * 100;
         stress_type :=
           if spot_price_change_pct <? neg_bound then SharpDecline
           else if bound <? spot_price_change_pct then SharpRally
           else HighVolatility |})%result.

(** The end of a run of extreme days: it is recorded when it is long
    enough. *)
Definition close_period (data : list StressRow) (period_start period_end : Z)
    (min_consecutive_days : Z) (found : list StressPeriod)
  : result (list StressPeriod) :=
  let period_length := (period_end - period_start + 1)%Z in
  if (min_consecutive_days <=? period_length)%Z then
    (stress_period <-
       _create_stress_period_summary (loc data period_start period_end)
         period_start period_end ;;
     Ok (found ++ [stress_period]))%result
  else Ok found.

(** The loop over [data.iterrows()], with its three variables. *)
Fixpoint scan (data rows : list StressRow) (min_consecutive_days : Z)
    (in_stress_period : bool) (period_start : option Z)
    (found : list StressPeriod)
  : result (bool * option Z * list StressPeriod) :=
  match rows with
  | [] => Ok (in_stress_period, period_start, found)
  | row :: rest =>
      let idx := index (col_point row) in
      if col_is_extreme row && negb in_stress_period then
        scan data rest min_consecutive_days true (Some idx) found
      else if negb (col_is_extreme row) && in_stress_period then
        match period_start with
        | None => Raise TypeError
        | Some start =>
            match close_period data start (idx - 1) min_consecutive_days
                    found with
            | Raise e => Raise e
            | Ok found' =>
                scan data rest min_consecutive_days false period_start found'
            end
        end
      else
        scan data rest min_consecutive_days in_stress_period period_start
          found
  end.

Definition identify_stress_periods (self : Analyzer)
    (aligned_data : AlignedSeries) (price_change_threshold : float)
    (min_consecutive_days : Z) : result (list StressPeriod * Analyzer) :=
  match aligned_data with
  | [] => Raise (ValueError EmptyData)
  | _ =>
      let data := with_extremes aligned_data price_change_threshold in
      ('(in_stress_period, period_start, found) <-
         scan data data min_consecutive_days false None [] ;;
       found <-
         match in_stress_period, period_start with
         | true, Some start =>
             close_period data start (Z.of_nat (length data) - 1)
               min_consecutive_days found
         | _, _ => Ok found
         end ;;
       Ok (found,
           {| self_stress_periods := found;
              self_stress_results := self_stress_results self |}))%result
  end.

(** The analyzer's [_calculate_max_drawdown]: 0 on an empty series. *)
Definition _calculate_max_drawdown (cumulative_series : list float) : float :=
  match cumulative_series with
  | [] => 0
  | _ =>
      let peak := Pd.expanding_max cumulative_series in
      let drawdown := Pd.sub_columns cumulative_series peak in
      Pd.min drawdown
  end.

(** [_calculate_period_performance]: the empty dictionary ([None]) for an
    empty slice.  The argument [hedge_params] is not read. *)
Definition _calculate_period_performance
    (period_data : list BacktestEngine.BacktestRecord)
  : result (option PeriodPerformance) :=
  match period_data with
  | [] => Ok None
  | _ =>
      let total := map BacktestEngine.total_pnl period_data in
      let unhedged := map BacktestEngine.unhedged_pnl period_data in
      let total_hedged_pnl := Pd.sum total in
      let total_unhedged_pnl := Pd.sum unhedged in
      let hedged_volatility := Pd.std total in
      let unhedged_volatility := Pd.std unhedged in
      let profitable_days_hedged := Pd.count_positive total in
      let profitable_days_unhedged := Pd.count_positive unhedged in
      (var_95_hedged <- Np.percentile total 5 ;;
       var_95_unhedged <- Np.percentile unhedged 5 ;;
       Ok (Some
         {| days := length period_data;
            total_hedged_pnl := total_hedged_pnl;
            total_unhedged_pnl := total_unhedged_pnl;
            total_spot_pnl := Pd.sum (map BacktestEngine.spot_pnl period_data);
            total_future_pnl :=
              Pd.sum (map BacktestEngine.future_pnl period_data);
            avg_daily_hedged_pnl := Pd.mean total;
            avg_daily_unhedged_pnl := Pd.mean unhedged;
            hedged_volatility := hedged_volatility;
            unhedged_volatility := unhedged_volatility;
            max_daily_loss_hedged := Pd.min total;
            max_daily_loss_unhedged := Pd.min unhedged;
            profitable_days_hedged := profitable_days_hedged;
            profitable_days_unhedged := profitable_days_unhedged;
            profitable_days_ratio_hedged :=
              Py.float_of_nat profitable_days_hedged
              / Py.float_of_nat (length period_data);
            profitable_days_ratio_unhedged :=
              Py.float_of_nat profitable_days_unhedged
              / Py.float_of_nat (length period_data);
            var_95_hedged := var_95_hedged;
            var_95_unhedged := var_95_unhedged;
            hedge_advantage := total_hedged_pnl - total_unhedged_pnl;
            risk_reduction_rate :=
              if 0 <? unhedged_volatility
              then (unhedged_volatility - hedged_volatility)
                   / unhedged_volatility
              else 0;
            max_drawdown_hedged :=
              _calculate_max_drawdown
                (map BacktestEngine.total_pnl_cumulative period_data);
            max_drawdown_unhedged :=
              _calculate_max_drawdown
                (map BacktestEngine.unhedged_pnl_cumulative period_data) |}))%result
  end.

(** The rows whose date lies between two dates, both included. *)
Definition between_dates (data : list BacktestEngine.BacktestRecord)
    (start_date end_date : Z) : list BacktestEngine.BacktestRecord :=
  filter (fun r => (start_date <=? date (BacktestEngine.point r))%Z
                   && (date (BacktestEngine.point r) <=? end_date)%Z) data.

Definition _test_custom_period (data : list BacktestEngine.BacktestRecord)
    (custom_period : Z * Z) : result (list PeriodResult * TestType) :=
  let start_date := fst custom_period in
  let end_date := snd custom_period in
  let period_data := between_dates data start_date end_date in
  match period_data with
  | [] => Raise (ValueError NoDataInPeriod)
  | _ =>
      (period_result <- _calculate_period_performance period_data ;;
       Ok ([{| performance := period_result;
               period_info :=
                 CustomPeriod start_date end_date (length period_data) |}],
           custom_period_test))%result
  end.

(** The rows a period is scored on: positions [start_index] to [end_index]
    of the backtest frame, [data.iloc[start_idx:end_idx+1]]. *)
Definition period_rows (data : list BacktestEngine.BacktestRecord)
    (period : StressPeriod) : list BacktestEngine.BacktestRecord :=
  iloc_slice data (start_index period) (end_index period + 1).

Definition _test_specific_periods (data : list BacktestEngine.BacktestRecord)
    (stress_periods : list StressPeriod)
  : result (list PeriodResult * TestType) :=
  (period_results <-
     mapM (fun period =>
             period_result <-
               _calculate_period_performance (period_rows data period) ;;
             Ok {| performance := period_result;
                   period_info := IdentifiedPeriod period |})
       stress_periods ;;
   Ok (period_results, identified_periods_test))%result.

(** [normal_data.drop(normal_data.index[start_idx:end_idx+1])]: the labels
    at those positions of the frame as it stands, then the rows that carry
    one of them. *)
Definition drop_period (normal_data : list BacktestEngine.BacktestRecord)
    (period : StressPeriod) : list BacktestEngine.BacktestRecord :=
  let labels :=
    map (fun r => index (BacktestEngine.point r))
      (iloc_slice normal_data (start_index period) (end_index period + 1)) in
  filter (fun r => negb (existsb (Z.eqb (index (BacktestEngine.point r)))
                           labels))
    normal_data.

Definition _get_normal_period_analysis (self : Analyzer)
    (data : list BacktestEngine.BacktestRecord) : result PeriodResult :=
  let normal_data :=
    match self_stress_periods self with
    | [] => data
    | periods => fold_left drop_period periods data
    end in
  let normal_data :=
    match normal_data with
    | [] => data
    | _ => normal_data
    end in
  (normal_result <- _calculate_period_performance normal_data ;;
   Ok {| performance := normal_result;
         period_info := NormalPeriod (length normal_data) |})%result.

(** A key of the performance dictionary: missing when the slice was
    empty. *)
Definition get_key (key : string) (p : PeriodResult)
  : result PeriodPerformance :=
  match performance p with
  | Some perf => Ok perf
  | None => Raise (KeyError key)
  end.

Definition _calculate_stress_summary
    (stress_periods_results : list PeriodResult) (normal_result : PeriodResult)
  : result (option StressSummary) :=
  match stress_periods_results with
  | [] => Ok None
  | _ =>
      (perfs <- mapM (get_key "days") stress_periods_results ;;
       let total_stress_days := fold_left Nat.add (map days perfs) O in
       let total_stress_pnl_hedged :=
         fold_left PrimFloat.add (map total_hedged_pnl perfs) 0 in
       let total_stress_pnl_unhedged :=
         fold_left PrimFloat.add (map total_unhedged_pnl perfs) 0 in
       let avg_volatility_hedged := Np.mean (map hedged_volatility perfs) in
       let avg_volatility_unhedged :=
         Np.mean (map unhedged_volatility perfs) in
       max_loss_hedged <- Py.min (map max_daily_loss_hedged perfs) ;;
       max_loss_unhedged <- Py.min (map max_daily_loss_unhedged perfs) ;;
       normal <- get_key "avg_daily_hedged_pnl" normal_result ;;
       let stress_days := Py.float_of_nat total_stress_days in
       Ok (Some
         {| total_stress_periods := length stress_periods_results;
            total_stress_days := total_stress_days;
            total_stress_pnl_hedged := total_stress_pnl_hedged;
            total_stress_pnl_unhedged := total_stress_pnl_unhedged;
            avg_stress_pnl_hedged := total_stress_pnl_hedged / stress_days;
            avg_stress_pnl_unhedged := total_stress_pnl_unhedged / stress_days;
            avg_volatility_hedged := avg_volatility_hedged;
            avg_volatility_unhedged := avg_volatility_unhedged;
            max_single_loss_hedged := max_loss_hedged;
            max_single_loss_unhedged := max_loss_unhedged;
            stress_effectiveness :=
              if 0 <? avg_volatility_unhedged
              then 1 - avg_volatility_hedged / avg_volatility_unhedged
              else 0;
            stress_vs_normal_pnl_ratio :=
              if negb (avg_daily_hedged_pnl normal =? 0)
              then total_stress_pnl_hedged / stress_days
                   / avg_daily_hedged_pnl normal
              else 0;
            stress_vs_normal_volatility_ratio :=
              if negb (hedged_volatility normal =? 0)
              then avg_volatility_hedged / hedged_volatility normal
              else 0 |}))%result
  end.

(** [run_stress_test].  [backtest_results] is [None] when the argument is
    None or has no ['data']; a custom period or a list of periods counts
    when it is present and not empty.  The analyzer that comes back holds
    what the call stored. *)
Definition run_stress_test (self : Analyzer)
    (backtest_results : option BacktestEngine.BacktestResult)
    (stress_periods : option (list StressPeriod))
    (custom_period : option (Z * Z)) : result (StressResults * Analyzer) :=
  match backtest_results with
  | None => Raise (ValueError InvalidBacktest)
  | Some backtest =>
      let data := BacktestEngine.data backtest in
      ('(tested, self) <-
         match custom_period, stress_periods with
         | Some custom, _ =>
             tested <- _test_custom_period data custom ;; Ok (tested, self)
         | None, Some (period :: periods) =>
             tested <- _test_specific_periods data (period :: periods) ;;
             Ok (tested, self)
         | None, _ =>
             self <-
               match self_stress_periods self with
               | [] =>
                   '(_, self) <-
                     identify_stress_periods self
                       (map BacktestEngine.point data) 5 3 ;;
                   Ok self
               | _ => Ok self
               end ;;
             tested <- _test_specific_periods data (self_stress_periods self) ;;
             Ok (tested, self)
         end ;;
       normal_results <- _get_normal_period_analysis self data ;;
       summary <- _calculate_stress_summary (fst tested) normal_results ;;
       let stress_results :=
         {| stress_periods := fst tested;
            test_type := snd tested;
            normal_period_comparison := normal_results;
            summary := summary |} in
       Ok (stress_results,
           {| self_stress_periods := self_stress_periods self;
              self_stress_results := Some stress_results |}))%result
  end.

End ModuleScope.

End StressTestAnalyzer.

(** ** backtest_engine.py: the queries on the last backtest *)

Module BacktestQueries.

Open Scope float_scope.

(** The engine's one attribute: the result of the last backtest. *)
Record Engine : Set := {
  backtest_results : option BacktestEngine.BacktestResult
}.

Definition new_engine : Engine := {| backtest_results := None |}.

(** [run_backtest] as a method: the result is returned and kept. *)
Definition run_backtest_method (self : Engine) (aligned_data : AlignedSeries)
    (hedge_ratio spot_quantity : float)
    (hedge_direction : BacktestEngine.HedgeDirection)
    (future_contract_size : float)
  : result (BacktestEngine.BacktestResult * Engine) :=
  (res <- BacktestEngine.run_backtest aligned_data hedge_ratio spot_quantity
            hedge_direction future_contract_size ;;
   Ok (res, {| backtest_results := Some res |}))%result.

Record PeriodMetrics : Set := {
  days : nat;
  total_hedged_pnl : float;
  total_unhedged_pnl : float;
  avg_daily_hedged_pnl : float;
  avg_daily_unhedged_pnl : float;
  hedged_volatility : float;
  unhedged_volatility : float;
  max_daily_loss_hedged : float;
  max_daily_loss_unhedged : float;
  profitable_days_hedged : nat;
  profitable_days_unhedged : nat;
  hedge_advantage : float
}.

Record PeriodAnalysis : Set := {
  period_data : list BacktestEngine.BacktestRecord;
  period_metrics : PeriodMetrics
}.

(** [get_period_analysis].  The two dates are given as texts and compared
    with the date column; here each is the day number its text stands
    for. *)
Definition get_period_analysis (self : Engine) (start_date end_date : Z)
  : result PeriodAnalysis :=
  match backtest_results self with
  | None => Raise (ValueError BacktestNotRun)
  | Some results =>
      let data := BacktestEngine.data results in
      let period_data :=
        filter (fun r => (start_date <=? date (BacktestEngine.point r))%Z
                         && (date (BacktestEngine.point r) <=? end_date)%Z)
          data in
      match period_data with
      | [] => Raise (ValueError NoDataInPeriod)
      | _ =>
          let total := map BacktestEngine.total_pnl period_data in
          let unhedged := map BacktestEngine.unhedged_pnl period_data in
          Ok {| period_data := period_data;
                period_metrics :=
                  {| days := length period_data;
                     total_hedged_pnl := Pd.sum total;
                     total_unhedged_pnl := Pd.sum unhedged;
                     avg_daily_hedged_pnl := Pd.mean total;
                     avg_daily_unhedged_pnl := Pd.mean unhedged;
                     hedged_volatility := Pd.std total;
                     unhedged_volatility := Pd.std unhedged;
                     max_daily_loss_hedged := Pd.min total;
                     max_daily_loss_unhedged := Pd.min unhedged;
                     profitable_days_hedged := Pd.count_positive total;
                     profitable_days_unhedged := Pd.count_positive unhedged;
                     hedge_advantage := Pd.sum total - Pd.sum unhedged |} |}
      end
  end.

End BacktestQueries.

(** ** hedge_ratio_calculator.py: sensitivity and validation *)

Module HedgeRatioAnalysis.

Open Scope float_scope.

(** [np.linspace(start, stop, num)]: [num] points whose last one is [stop]
    itself; the others are [i * step + start], or [i / div * delta + start]
    when the step underflows to zero. *)
Definition linspace (start stop : float) (num : Z) : result (list float) :=
  if (num <? 0)%Z then Raise (ValueError NegativeSamples)
  else
    let n := Z.to_nat num in
    let div := Py.float_of_Z (num - 1) in
    let delta := stop - start in
    let y := map Py.float_of_nat (seq 0 n) in
    let y :=
      if (0 <? num - 1)%Z then
        let step := delta / div in
        if step =? 0 then map (fun i => i / div * delta) y
        else map (fun i => i * step) y
      else map (fun i => i * delta) y in
    let y := map (fun v => v + start) y in
    Ok (if (1 <? num)%Z then removelast y ++ [stop] else y).

(** A row of the table [sensitivity_analysis] returns. *)
Record SensitivityRow : Set := {
  hedge_ratio : float;
  variance : float;
  volatility : float;
  effectiveness : float;
  risk_reduction : float;
  ratio_deviation_pct : float
}.

Definition sensitivity_row (data : list HedgeRatioCalculator.ChangeRow)
    (base_ratio ratio : float) : SensitivityRow :=
  let hedged_change :=
    map (fun r => HedgeRatioCalculator.spot_change r
                  - ratio * HedgeRatioCalculator.future_change r) data in
  let variance := Pd.var hedged_change in
  let unhedged_variance :=
    Pd.var (map HedgeRatioCalculator.spot_change data) in
  {| hedge_ratio := ratio;
     variance := variance;
     volatility := PrimFloat.sqrt variance;
     effectiveness := 1 - variance / unhedged_variance;
     risk_reduction := (unhedged_variance - variance) / unhedged_variance;
     ratio_deviation_pct := (ratio - base_ratio) / base_ratio * 100 |}.

Definition sensitivity_analysis (aligned_data : AlignedSeries)
    (base_ratio ratio_range : float) (steps : Z)
  : result (list SensitivityRow) :=
  match aligned_data with
  | [] => Raise (ValueError EmptyData)
  | _ =>
      let data :=
        HedgeRatioCalculator.dropna
          (HedgeRatioCalculator.with_changes aligned_data) in
      let ratio_min := base_ratio * (1 - ratio_range) in
      let ratio_max := base_ratio * (1 + ratio_range) in
      (ratios <- linspace ratio_min ratio_max steps ;;
       Ok (map (sensitivity_row data base_ratio) ratios))%result
  end.

(** The advisory text of [validate_hedge_ratio]; the text for a ratio that
    is too large quotes the ratio. *)
Inductive Advice : Set :=
| InvalidNaN
| InvalidInfinite
| TooLarge (ratio : float)
| VerySmall
| RatherLarge
| Reasonable.

Definition validate_hedge_ratio (ratio : float) : bool * Advice :=
  if is_nan ratio then (false, InvalidNaN)
  else if is_infinity ratio then (false, InvalidInfinite)
  else if 10 <? abs ratio then (false, TooLarge ratio)
  else if abs ratio <? 0.01 then (true, VerySmall)
  else if 5 <? abs ratio then (true, RatherLarge)
  else (true, Reasonable).

End HedgeRatioAnalysis.

(** ** Sample data *)

Module Samples.

Open Scope float_scope.

Definition day (i : Z) (spot future : float) : PricePoint :=
  {| index := i; date := 19000 + i; spot_price := spot;
     future_price := future |}.

(** Four days; the second has a spot change of +5 and a futures change
    of +4. *)
Definition four_days : AlignedSeries :=
  [day 0 100 50; day 1 105 54; day 2 103 53; day 3 110 57].

(** Four days on which the spot price rises by 1 a day and the futures
    price stands still. *)
Definition steady_days : AlignedSeries :=
  [day 0 100 50; day 1 101 50; day 2 102 50; day 3 103 50].

(** The lockstep scenario: the futures price moves by half the spot
    change every day. *)
Definition lockstep_days : AlignedSeries :=
  [day 0 100 50; day 1 102 51; day 2 101 50.5; day 3 105 52.5;
   day 4 103 51.5].

(** Two aligned days as a frame keyed by date. *)
Definition two_day_frame : DataProcessor.DataFrame :=
  {| DataProcessor.columns := ["spot_price"%string; "future_price"%string];
     DataProcessor.rows := [(19000%Z, [100; 50]); (19001%Z, [102; 51])] |}.


(** A spot frame and a futures frame out of date order; the spot frame
    has the date 19001 twice, and the dates 19001 and 19002 are found in
    both. *)
Definition spot_frame : DataProcessor.DataFrame :=
  {| DataProcessor.columns := ["spot_price"%string];
     DataProcessor.rows :=
       [(19003%Z, [103]); (19001%Z, [101]); (19002%Z, [102]);
        (19001%Z, [101.5])] |}.

Definition future_frame : DataProcessor.DataFrame :=
  {| DataProcessor.columns := ["future_price"%string];
     DataProcessor.rows :=
       [(19002%Z, [52]); (19004%Z, [54]); (19001%Z, [51])] |}.

(** Nine days: two calm days, a run of five days on which the spot price
    moves by more than 5 percent (labels 2 to 6), two calm days. *)
Definition stress_days : AlignedSeries :=
  [day 0 100 50; day 1 101 50; day 2 110 55; day 3 121 60; day 4 134 66;
   day 5 148 72; day 6 163 80; day 7 164 81; day 8 165 81].

(** The module's globals with the missing name bound to the threshold: what
    the classification of lines 121 to 126 needs in order to run. *)
Definition globals_with_threshold : list (string * float) :=
  [("price_change_threshold"%string, 5)].

(** The period of the run in [stress_days], as [identify_stress_periods]
    records it on the aligned series: labels 2 to 6, 19002 to 19006. *)
Definition stress_period : StressTestAnalyzer.StressPeriod :=
  {| StressTestAnalyzer.start_date := 19002;
     StressTestAnalyzer.end_date := 19006;
     StressTestAnalyzer.duration_days := 5;
     StressTestAnalyzer.start_index := 2;
     StressTestAnalyzer.end_index := 6;
     StressTestAnalyzer.spot_price_change := 163 - 110;
     StressTestAnalyzer.spot_price_change_pct := (163 / 110 - 1) * 100;
     StressTestAnalyzer.future_price_change := 80 - 55;
     StressTestAnalyzer.future_price_change_pct := (80 / 55 - 1) * 100;
     StressTestAnalyzer.max_daily_spot_change :=
       Pd.max (map (fun c => abs (c * 100))
                 (Pd.pct_change_from 101 [110; 121; 134; 148; 163]));
     StressTestAnalyzer.avg_daily_spot_change :=
       Pd.mean (map (fun c => abs (c * 100))
                  (Pd.pct_change_from 101 [110; 121; 134; 148; 163]));
     StressTestAnalyzer.volatility_spot :=
       Pd.std (map (fun c => c * 100)
                 (Pd.pct_change_from 101 [110; 121; 134; 148; 163]));
     StressTestAnalyzer.volatility_future :=
       Pd.std (Pd.pct_change [55; 60; 66; 72; 80]) * 100;
     StressTestAnalyzer.stress_type := StressTestAnalyzer.SharpRally |}.

(** A period moved to other positions of the frame. *)
Definition period_at (first last : Z) : StressTestAnalyzer.StressPeriod :=
  {| StressTestAnalyzer.start_date := 19000 + first;
     StressTestAnalyzer.end_date := 19000 + last;
     StressTestAnalyzer.duration_days := Z.to_nat (last - first + 1);
     StressTestAnalyzer.start_index := first;
     StressTestAnalyzer.end_index := last;
     StressTestAnalyzer.spot_price_change :=
       StressTestAnalyzer.spot_price_change stress_period;
     StressTestAnalyzer.spot_price_change_pct :=
       StressTestAnalyzer.spot_price_change_pct stress_period;
     StressTestAnalyzer.future_price_change :=
       StressTestAnalyzer.future_price_change stress_period;
     StressTestAnalyzer.future_price_change_pct :=
       StressTestAnalyzer.future_price_change_pct stress_period;
     StressTestAnalyzer.max_daily_spot_change :=
       StressTestAnalyzer.max_daily_spot_change stress_period;
     StressTestAnalyzer.avg_daily_spot_change :=
       StressTestAnalyzer.avg_daily_spot_change stress_period;
     StressTestAnalyzer.volatility_spot :=
       StressTestAnalyzer.volatility_spot stress_period;
     StressTestAnalyzer.volatility_future :=
       StressTestAnalyzer.volatility_future stress_period;
     StressTestAnalyzer.stress_type := StressTestAnalyzer.SharpRally |}.

End Samples.

(** * Properties *)

(** ** Lists and columns *)

Section ListFacts.

Context {A B : Type}.

Lemma in_combine_seq (l : list A) (s k : nat) (a : A) :
  In (k, a) (combine (seq s (length l)) l) ->
  s <= k /\ nth_error l (k - s) = Some a.
Proof.
  revert s; induction l as [|x l IH]; intros s H; simpl in H; [contradiction|].
  destruct H as [H|H].
  - inversion H; subst. split; [lia|]. now rewrite Nat.sub_diag.
  - apply IH in H as [Hle Hn]. split; [lia|].
    replace (k - s) with (S (k - S s)) by lia. exact Hn.
Qed.

Lemma nth_error_combine_seq (l : list A) (s k : nat) (a : A) :
  nth_error l k = Some a ->
  nth_error (combine (seq s (length l)) l) k = Some ((s + k)%nat, a).
Proof.
  revert s k; induction l as [|x l IH]; intros s [|k] H; simpl in *;
    try discriminate.
  - inversion H; subst. now rewrite Nat.add_0_r.
  - rewrite (IH (S s) k H). f_equal. f_equal. lia.
Qed.

Lemma nth_map_lt (f : A -> B) (l : list A) (k : nat) (d : B) (a : A) :
  nth_error l k = Some a -> nth k (map f l) d = f a.
Proof.
  revert k; induction l as [|x l IH]; intros [|k] H; simpl in *;
    try discriminate.
  - now inversion H.
  - now apply IH.
Qed.

Lemma filter_length_eq (f : A -> bool) (l : list A) :
  length (filter f l) = length l -> filter f l = l.
Proof.
  induction l as [|x l IH]; simpl; [reflexivity|].
  destruct (f x); simpl; intros H.
  - f_equal. apply IH. lia.
  - pose proof (filter_length_le f l). lia.
Qed.

End ListFacts.

Lemma diff_from_length (prev : float) (xs : list float) :
  length (Pd.diff_from prev xs) = length xs.
Proof. revert prev; induction xs; intros; simpl; auto. Qed.

Lemma diff_length (xs : list float) : length (Pd.diff xs) = length xs.
Proof. destruct xs; simpl; [reflexivity|]. now rewrite diff_from_length. Qed.

Lemma diff_from_nth (xs : list float) (prev : float) (k : nat) (a b : float) :
  nth_error (prev :: xs) k = Some a ->
  nth_error (prev :: xs) (S k) = Some b ->
  nth_error (Pd.diff_from prev xs) k = Some (PrimFloat.sub b a).
Proof.
  revert prev k; induction xs as [|x xs IH]; intros prev k Ha Hb.
  - destruct k; simpl in Hb; [discriminate|]. destruct k; discriminate.
  - destruct k as [|k]; simpl in *.
    + now inversion Ha; inversion Hb.
    + now apply IH.
Qed.

(** Row [k + 1] of [diff] is the value of row [k + 1] less that of row [k]. *)
Lemma diff_nth (xs : list float) (k : nat) (a b : float) :
  nth_error xs k = Some a ->
  nth_error xs (S k) = Some b ->
  nth_error (Pd.diff xs) (S k) = Some (PrimFloat.sub b a).
Proof.
  destruct xs as [|x xs]; [destruct k; discriminate|].
  intros Ha Hb. simpl. now apply diff_from_nth.
Qed.

Lemma diff_first (xs : list float) : nth 0 (Pd.diff xs) nan = nan.
Proof. now destruct xs. Qed.

Lemma add_columns_nth (xs ys : list float) (k : nat) (a b : float) :
  nth_error xs k = Some a -> nth_error ys k = Some b ->
  nth k (BacktestEngine.add_columns xs ys) nan = PrimFloat.add a b.
Proof.
  revert ys k; induction xs as [|x xs IH]; intros [|y ys] [|k] Ha Hb;
    simpl in *; try discriminate.
  - now inversion Ha; inversion Hb.
  - now apply IH.
Qed.

Lemma nth_error_nth_nan (l : list float) (k : nat) :
  k < length l -> nth_error l k = Some (nth k l nan).
Proof.
  revert k; induction l as [|x l IH]; intros [|k] H; simpl in *;
    try lia; [reflexivity|]. apply IH. lia.
Qed.

(** ** Binary64 facts *)

Section FloatFacts.

Open Scope float_scope.

Lemma Prim2SF_nan : Prim2SF nan = S754_nan.
Proof. reflexivity. Qed.

Lemma mul_nan_r (x : float) : x * nan = nan.
Proof.
  apply Prim2SF_inj. rewrite mul_spec, Prim2SF_nan.
  now destruct (Prim2SF x).
Qed.

Lemma add_nan_l (y : float) : nan + y = nan.
Proof.
  apply Prim2SF_inj. rewrite add_spec, Prim2SF_nan.
  now destruct (Prim2SF y).
Qed.

Lemma SFeqb_refl (x : spec_float) : x <> S754_nan -> SFeqb x x = true.
Proof.
  destruct x as [s|s| |s m e]; intros H; try congruence; unfold SFeqb;
    cbn [SFcompare].
  - reflexivity.
  - now destruct s.
  - destruct s; rewrite Z.compare_refl, Pos.compare_cont_refl; reflexivity.
Qed.

Lemma is_nan_true (x : float) : is_nan x = true -> x = nan.
Proof.
  unfold is_nan. rewrite FloatAxioms.eqb_spec. intros H.
  apply Prim2SF_inj. rewrite Prim2SF_nan.
  destruct (Prim2SF x) eqn:E; try reflexivity;
    rewrite SFeqb_refl in H by discriminate; discriminate.
Qed.

Lemma sub_nan_l (y : float) : nan - y = nan.
Proof.
  apply Prim2SF_inj. rewrite sub_spec, Prim2SF_nan.
  now destruct (Prim2SF y).
Qed.

Lemma sub_nan_r (x : float) : x - nan = nan.
Proof.
  apply Prim2SF_inj. rewrite sub_spec, Prim2SF_nan.
  now destruct (Prim2SF x).
Qed.

(** A difference that is a number comes from two numbers. *)
Lemma sub_not_nan (x y : float) :
  is_nan (x - y) = false -> is_nan x = false /\ is_nan y = false.
Proof.
  intros H. split.
  - destruct (is_nan x) eqn:E; [|reflexivity].
    apply is_nan_true in E. subst x. now rewrite sub_nan_l in H.
  - destruct (is_nan y) eqn:E; [|reflexivity].
    apply is_nan_true in E. subst y. now rewrite sub_nan_r in H.
Qed.

End FloatFacts.









(** ** C1: the daily profit and loss of a backtest *)

Module BacktestFacts.

Import BacktestEngine.
Open Scope float_scope.

(** Every row of the frame, dropped or not, sits at a position [k] of the
    aligned series and carries the formulas. *)
Lemma backtest_columns_in (aligned_data : AlignedSeries) (h q : float)
    (dir : HedgeDirection) (r : BacktestRecord) :
  In r (backtest_columns aligned_data h q dir) ->
  exists k,
    nth_error aligned_data k = Some (point r)
    /\ spot_price_change r = nth k (Pd.diff (map spot_price aligned_data)) nan
    /\ future_price_change r
       = nth k (Pd.diff (map future_price aligned_data)) nan
    /\ pnl_formulas q h dir r
    /\ total_pnl r = spot_pnl r + future_pnl r.
Proof.
  unfold backtest_columns. intros H.
  apply in_map_iff in H as [[k p] [Hr Hin]].
  apply in_combine_seq in Hin as [_ Hk]. rewrite Nat.sub_0_r in Hk.
  assert (Hlt : k < length aligned_data) by (apply nth_error_Some; congruence).
  assert (Hs : nth_error (Pd.diff (map spot_price aligned_data)) k
               = Some (nth k (Pd.diff (map spot_price aligned_data)) nan)).
  { apply nth_error_nth_nan. now rewrite diff_length, length_map. }
  assert (Hf : nth_error (Pd.diff (map future_price aligned_data)) k
               = Some (nth k (Pd.diff (map future_price aligned_data)) nan)).
  { apply nth_error_nth_nan. now rewrite diff_length, length_map. }
  exists k. subst r. cbn [point spot_price_change future_price_change
    spot_pnl future_pnl total_pnl unhedged_pnl fst snd].
  split; [exact Hk|]. split; [reflexivity|]. split; [reflexivity|].
  destruct dir; cbn [pnl_formulas spot_pnl future_pnl unhedged_pnl
    spot_price_change future_price_change];
    (split; [repeat split|]);
    lazymatch goal with
    | |- nth _ (map ?f _) _ = _ =>
        first [exact (nth_map_lt f _ _ nan Hs) | exact (nth_map_lt f _ _ nan Hf)]
    | |- _ =>
        apply add_columns_nth; apply nth_error_nth_nan;
        rewrite length_map, diff_length, length_map; exact Hlt
    end.
Qed.

Lemma percentile_ok (a : list float) (q : float) :
  a <> [] -> exists v, Np.percentile a q = Ok v.
Proof.
  destruct a as [|x a]; [congruence|]. intros _. unfold Np.percentile.
  destruct (existsb is_nan (x :: a)); eexists; reflexivity.
Qed.

(** On a frame with at least one row the metrics are computed: nothing in
    [_calculate_performance_metrics] raises. *)
Lemma performance_metrics_ok (data : list BacktestRecord)
    (dir : HedgeDirection) (q fq : float) :
  data <> [] ->
  exists m,
    _calculate_performance_metrics data dir q fq = Ok m
    /\ hedged_volatility m = Pd.std (map total_pnl data)
    /\ unhedged_volatility m = Pd.std (map unhedged_pnl data)
    /\ sharpe_ratio_hedged m
       = sharpe_ratio (Pd.mean (map total_pnl data))
           (Pd.std (map total_pnl data))
    /\ sharpe_ratio_unhedged m
       = sharpe_ratio (Pd.mean (map unhedged_pnl data))
           (Pd.std (map unhedged_pnl data)).
Proof.
  intros Hne. unfold _calculate_performance_metrics.
  destruct (@percentile_ok (map total_pnl data) 5) as [v1 Hv1].
  { destruct data; [congruence|discriminate]. }
  destruct (@percentile_ok (map unhedged_pnl data) 5) as [v2 Hv2].
  { destruct data; [congruence|discriminate]. }
  rewrite Hv1, Hv2. destruct data as [|r data]; [congruence|].
  cbn [bind map date_min date_max strftime].
  eexists. split; [reflexivity|]. cbn. repeat split.
Qed.

(** A row that survives [dropna] is not the first row, and its two changes
    are the differences to the previous day's prices. *)
Lemma retained_row_changes (aligned_data : AlignedSeries) (h q : float)
    (dir : HedgeDirection) (r : BacktestRecord) :
  In r (dropna (backtest_columns aligned_data h q dir)) ->
  exists k prev,
    nth_error aligned_data k = Some prev
    /\ nth_error aligned_data (S k) = Some (point r)
    /\ spot_price_change r = spot_price (point r) - spot_price prev
    /\ future_price_change r = future_price (point r) - future_price prev.
Proof.
  unfold dropna. intros H. apply filter_In in H as [Hin Hnan].
  apply backtest_columns_in in Hin as (k & Hk & Hs & Hf & _).
  destruct k as [|k].
  - exfalso. rewrite diff_first in Hs. unfold row_has_nan in Hnan.
    rewrite Hs in Hnan. cbn in Hnan.
    rewrite !orb_true_r in Hnan. discriminate.
  - assert (Hlt : k < length aligned_data).
    { apply Nat.lt_succ_l. apply nth_error_Some. congruence. }
    destruct (nth_error aligned_data k) as [prev|] eqn:Hprev;
      [|apply nth_error_None in Hprev; lia].
    exists k, prev. split; [exact Hprev|]. split; [exact Hk|].
    assert (Hds := diff_nth (map spot_price aligned_data) k
                     (map_nth_error spot_price k aligned_data Hprev)
                     (map_nth_error spot_price (S k) aligned_data Hk)).
    assert (Hdf := diff_nth (map future_price aligned_data) k
                     (map_nth_error future_price k aligned_data Hprev)
                     (map_nth_error future_price (S k) aligned_data Hk)).
    rewrite Hs, Hf. split.
    + now apply nth_error_nth.
    + now apply nth_error_nth.
Qed.

(** What [run_backtest] returns when a day is retained. *)
Lemma run_backtest_ok (aligned_data : AlignedSeries) (h q : float)
    (dir : HedgeDirection) (cs : float) :
  dropna (backtest_columns aligned_data h q dir) <> [] ->
  exists res,
    run_backtest aligned_data h q dir cs = Ok res
    /\ data res = dropna (backtest_columns aligned_data h q dir).
Proof.
  intros Hne. unfold run_backtest.
  destruct aligned_data as [|p rest]; [now contradiction Hne|].
  destruct (performance_metrics_ok dir q (q * h) Hne) as (m & Hm & _).
  rewrite Hm. cbn [bind]. eexists. split; reflexivity.
Qed.

(** Day [k] of the series has row [k] of the frame, with the changes of
    that day and the formulas. *)
Lemma backtest_columns_nth (aligned_data : AlignedSeries) (h q : float)
    (dir : HedgeDirection) (k : nat) (p : PricePoint) :
  nth_error aligned_data k = Some p ->
  exists r,
    nth_error (backtest_columns aligned_data h q dir) k = Some r
    /\ point r = p
    /\ spot_price_change r = nth k (Pd.diff (map spot_price aligned_data)) nan
    /\ future_price_change r
       = nth k (Pd.diff (map future_price aligned_data)) nan
    /\ pnl_formulas q h dir r
    /\ total_pnl r = spot_pnl r + future_pnl r.
Proof.
  intros Hk. unfold backtest_columns.
  rewrite nth_error_map, (nth_error_combine_seq _ 0 _ Hk).
  cbn [option_map Nat.add]. eexists. split; [reflexivity|].
  assert (Hlt : k < length aligned_data) by (apply nth_error_Some; congruence).
  assert (Hs : nth_error (Pd.diff (map spot_price aligned_data)) k
               = Some (nth k (Pd.diff (map spot_price aligned_data)) nan)).
  { apply nth_error_nth_nan. now rewrite diff_length, length_map. }
  assert (Hf : nth_error (Pd.diff (map future_price aligned_data)) k
               = Some (nth k (Pd.diff (map future_price aligned_data)) nan)).
  { apply nth_error_nth_nan. now rewrite diff_length, length_map. }
  cbn [point spot_price_change future_price_change
    spot_pnl future_pnl total_pnl unhedged_pnl fst snd].
  split; [reflexivity|]. split; [reflexivity|]. split; [reflexivity|].
  destruct dir; cbn [pnl_formulas spot_pnl future_pnl unhedged_pnl
    spot_price_change future_price_change];
    (split; [repeat split|]);
    lazymatch goal with
    | |- nth _ (map ?f _) _ = _ =>
        first [exact (nth_map_lt f _ _ nan Hs) | exact (nth_map_lt f _ _ nan Hf)]
    | |- _ =>
        apply add_columns_nth; apply nth_error_nth_nan;
        rewrite length_map, diff_length, length_map; exact Hlt
    end.
Qed.

(** C1.  Whenever the backtest retains a day, [run_backtest] returns and the
    series has at least two rows.  The rows it returns are the rows of the
    frame without a missing value, in date order: every day after the first
    has its row in the frame, with dspot and dfuture the differences to the
    previous day's prices and the signed formulas of the direction, and
    that row is in the result exactly when none of its values is missing.
    Every retained row carries the formulas: for SHORT_HEDGE spot_pnl =
    q * dspot, future_pnl = -(q * h) * dfuture, unhedged_pnl = q * dspot; for
    LONG_HEDGE the opposite signs; total_pnl = spot_pnl + future_pnl.  With
    q = 10, h = 0.5 and SHORT_HEDGE, a day with dspot = 5 and dfuture = 4 has
    spot_pnl = 50, future_pnl = -20, total_pnl = 30 and unhedged_pnl = 50. *)
Theorem run_backtest_daily_pnl (aligned_data : AlignedSeries)
    (h q cs : float) (dir : HedgeDirection) :
  dropna (backtest_columns aligned_data h q dir) <> [] ->
  exists res,
    run_backtest aligned_data h q dir cs = Ok res
    /\ 2 <= length aligned_data
    /\ data res
       = filter (fun r => negb (row_has_nan r))
           (backtest_columns aligned_data h q dir)
    /\ (forall k prev cur,
          nth_error aligned_data k = Some prev ->
          nth_error aligned_data (S k) = Some cur ->
          exists r,
            nth_error (backtest_columns aligned_data h q dir) (S k) = Some r
            /\ point r = cur
            /\ spot_price_change r = spot_price cur - spot_price prev
            /\ future_price_change r = future_price cur - future_price prev
            /\ pnl_formulas q h dir r
            /\ total_pnl r = spot_pnl r + future_pnl r
            /\ (In r (data res) <-> row_has_nan r = false))
    /\ forall r, In r (data res) ->
         pnl_formulas q h dir r
         /\ total_pnl r = spot_pnl r + future_pnl r
         /\ (exists k prev,
               nth_error aligned_data k = Some prev
               /\ nth_error aligned_data (S k) = Some (point r)
               /\ spot_price_change r
                  = spot_price (point r) - spot_price prev
               /\ future_price_change r
                  = future_price (point r) - future_price prev)
         /\ (q = 10 -> h = 0.5 -> dir = SHORT_HEDGE ->
             spot_price_change r = 5 -> future_price_change r = 4 ->
             spot_pnl r = 50 /\ future_pnl r = -20
             /\ total_pnl r = 30 /\ unhedged_pnl r = 50).
Proof.
  intros Hne.
  destruct (@run_backtest_ok aligned_data h q dir cs Hne)
    as (res & Hres & Hdata).
  exists res. split; [exact Hres|]. split; [|split; [exact Hdata|split]].
  - destruct (dropna (backtest_columns aligned_data h q dir)) as [|r l] eqn:E;
      [congruence|].
    assert (Hin : In r (dropna (backtest_columns aligned_data h q dir)))
      by (rewrite E; now left).
    apply retained_row_changes in Hin as (k & prev & _ & Hk & _).
    assert (S k < length aligned_data) by (apply nth_error_Some; congruence).
    lia.
  - intros k prev cur Hprev Hcur.
    destruct (@backtest_columns_nth aligned_data h q dir (S k) cur Hcur)
      as (r & Hr & Hpoint & Hs & Hf & Hpnl & Htotal).
    exists r. split; [exact Hr|]. split; [exact Hpoint|].
    assert (Hds := diff_nth (map spot_price aligned_data) k
                     (map_nth_error spot_price k aligned_data Hprev)
                     (map_nth_error spot_price (S k) aligned_data Hcur)).
    assert (Hdf := diff_nth (map future_price aligned_data) k
                     (map_nth_error future_price k aligned_data Hprev)
                     (map_nth_error future_price (S k) aligned_data Hcur)).
    rewrite Hs, Hf.
    split; [now apply nth_error_nth|]. split; [now apply nth_error_nth|].
    split; [exact Hpnl|]. split; [exact Htotal|].
    rewrite Hdata. unfold dropna. rewrite filter_In, negb_true_iff.
    split; [now intros [_ H]|].
    intros H. split; [|exact H]. eapply nth_error_In; exact Hr.
  - intros r Hr. rewrite Hdata in Hr.
    pose proof (retained_row_changes _ _ _ _ _ Hr) as Hchanges.
    unfold dropna in Hr. apply filter_In in Hr as [Hin _].
    apply backtest_columns_in in Hin as (_ & _ & _ & _ & Hpnl & Htotal).
    split; [exact Hpnl|]. split; [exact Htotal|]. split; [exact Hchanges|].
    intros -> -> -> Hs Hf. cbn [pnl_formulas] in Hpnl.
    destruct Hpnl as (Hsp & Hfp & Hup).
    rewrite Hs in Hsp, Hup. rewrite Hf in Hfp.
    rewrite Htotal, Hsp, Hfp, Hup. repeat split.
Qed.

(** The four sample days, q = 10, h = 0.5, SHORT_HEDGE: the day of 19001,
    with dspot = 5 and dfuture = 4, is retained, and its row is the row of
    the scenario. *)
Lemma run_backtest_daily_pnl_witness :
  dropna (backtest_columns Samples.four_days 0.5 10 SHORT_HEDGE) <> []
  /\ exists res r,
       run_backtest Samples.four_days 0.5 10 SHORT_HEDGE 1 = Ok res
       /\ In r (data res)
       /\ point r = Samples.day 1 105 54
       /\ spot_price_change r = 5 /\ future_price_change r = 4
       /\ spot_pnl r = 50 /\ future_pnl r = -20
       /\ total_pnl r = 30 /\ unhedged_pnl r = 50.
Proof.
  assert (H : dropna (backtest_columns Samples.four_days 0.5 10 SHORT_HEDGE)
              <> []) by (vm_compute; discriminate).
  split; [exact H|].
  destruct (@run_backtest_daily_pnl Samples.four_days 0.5 10 1 SHORT_HEDGE H)
    as (res & Hres & _ & _ & Hdays & Hrows).
  destruct (Hdays 0%nat (Samples.day 0 100 50) (Samples.day 1 105 54)
              eq_refl eq_refl)
    as (r & Hr & Hpoint & Hs & Hf & _ & _ & Hkept).
  assert (Hin : In r (data res)).
  { apply Hkept. vm_compute in Hr. injection Hr as <-. reflexivity. }
  assert (Hs5 : spot_price_change r = 5) by (rewrite Hs; reflexivity).
  assert (Hf4 : future_price_change r = 4) by (rewrite Hf; reflexivity).
  exists res, r. split; [exact Hres|]. split; [exact Hin|].
  split; [exact Hpoint|]. split; [exact Hs5|]. split; [exact Hf4|].
  destruct (Hrows r Hin) as (_ & _ & _ & Hex).
  exact (Hex eq_refl eq_refl eq_refl Hs5 Hf4).
Defined.

(** ** C2: total and cumulative columns *)

(** The first row of the frame has no price change, so none of its four
    daily columns has a value. *)
Lemma first_row_missing (p : PricePoint) (rest : AlignedSeries) (h q : float)
    (dir : HedgeDirection) :
  exists c0 cols,
    backtest_columns (p :: rest) h q dir = c0 :: cols
    /\ length cols = length rest
    /\ spot_pnl c0 = nan /\ future_pnl c0 = nan
    /\ total_pnl c0 = nan /\ unhedged_pnl c0 = nan.
Proof.
  unfold backtest_columns. cbn [length seq combine map Pd.diff].
  eexists. eexists. split; [reflexivity|]. split.
  { now rewrite length_map, length_combine, length_seq, Nat.min_id. }
  cbn [spot_pnl future_pnl total_pnl unhedged_pnl fst snd].
  destruct dir; cbn [map nth add_columns];
    rewrite !mul_nan_r, ?add_nan_l; repeat split.
Qed.


Lemma row_has_nan_spot_pnl (r : BacktestRecord) :
  spot_pnl r = nan -> row_has_nan r = true.
Proof.
  intros H. unfold row_has_nan. rewrite H.
  change (is_nan nan) with true. now rewrite !orb_true_r.
Qed.






(** ** C6: the Sharpe ratio at zero volatility *)

Lemma zero_not_positive (v : float) : (v =? 0) = true -> (0 <? v) = false.
Proof.
  rewrite FloatAxioms.eqb_spec, FloatAxioms.ltb_spec.
  replace (Prim2SF 0) with (S754_zero false) by reflexivity.
  destruct (Prim2SF v) as [[]|[]| |[] m e]; cbn; congruence.
Qed.

(** C6.  On a record set with at least one row the metrics are computed,
    and a volatility (sample standard deviation of the daily series) equal
    to zero gives a Sharpe ratio of exactly 0, hedged and unhedged alike:
    the guard of the division is false, so the mean is not divided by the
    zero volatility. *)
Theorem sharpe_ratio_zero_volatility (data : list BacktestRecord)
    (dir : HedgeDirection) (q fq : float) :
  data <> [] ->
  exists m,
    _calculate_performance_metrics data dir q fq = Ok m
    /\ hedged_volatility m = Pd.std (map total_pnl data)
    /\ unhedged_volatility m = Pd.std (map unhedged_pnl data)
    /\ ((Pd.std (map total_pnl data) =? 0) = true ->
        sharpe_ratio_hedged m = 0
        /\ (0 <? hedged_volatility m) = false)
    /\ ((Pd.std (map unhedged_pnl data) =? 0) = true ->
        sharpe_ratio_unhedged m = 0
        /\ (0 <? unhedged_volatility m) = false).
Proof.
  intros Hne.
  destruct (@performance_metrics_ok data dir q fq Hne)
    as (m & Hm & Hhv & Huv & Hsh & Hsu).
  exists m. split; [exact Hm|]. split; [exact Hhv|]. split; [exact Huv|].
  split; intros Hz; apply zero_not_positive in Hz.
  - rewrite Hsh, Hhv. unfold sharpe_ratio. now rewrite Hz.
  - rewrite Hsu, Huv. unfold sharpe_ratio. now rewrite Hz.
Qed.

(** The steady sample days, one unit of spot, no futures: every retained
    day earns exactly 1, both volatilities are zero and both Sharpe ratios
    are 0. *)
Lemma sharpe_ratio_zero_volatility_witness :
  dropna (backtest_columns Samples.steady_days 0 1 SHORT_HEDGE) <> []
  /\ exists m,
       _calculate_performance_metrics
         (dropna (backtest_columns Samples.steady_days 0 1 SHORT_HEDGE))
         SHORT_HEDGE 1 0 = Ok m
       /\ hedged_volatility m = 0 /\ sharpe_ratio_hedged m = 0
       /\ unhedged_volatility m = 0 /\ sharpe_ratio_unhedged m = 0.
Proof.
  assert (H : dropna (backtest_columns Samples.steady_days 0 1 SHORT_HEDGE)
              <> []) by (vm_compute; discriminate).
  split; [exact H|].
  destruct (@sharpe_ratio_zero_volatility _ SHORT_HEDGE 1 0 H)
    as (m & Hm & Hhv & Huv & Hh & Hu).
  exists m. split; [exact Hm|].
  split; [rewrite Hhv; vm_compute; reflexivity|].
  split; [apply Hh; vm_compute; reflexivity|].
  split; [rewrite Huv; vm_compute; reflexivity|].
  apply Hu; vm_compute; reflexivity.
Defined.

(** ** C8: a series of one row *)

(** C8.  A series of one row passes the emptiness test of [run_backtest];
    [dropna] then removes its only row, and the computation of the metrics
    on the empty frame raises an error that is neither the "data is empty"
    nor the "not enough data" [ValueError]. *)
Theorem run_backtest_single_row (p : PricePoint) (h q cs : float)
    (dir : HedgeDirection) :
  dropna (backtest_columns [p] h q dir) = []
  /\ exists e,
       run_backtest [p] h q dir cs = Raise e
       /\ e <> ValueError EmptyData
       /\ e <> ValueError InsufficientData.
Proof.
  assert (Hdrop : dropna (backtest_columns [p] h q dir) = []).
  { destruct (first_row_missing p [] h q dir)
      as (c0 & cols & Hcols & Hlen & Hsp & _).
    destruct cols; [|discriminate]. rewrite Hcols. unfold dropna.
    cbn [filter]. now rewrite (row_has_nan_spot_pnl _ Hsp). }
  split; [exact Hdrop|].
  exists IndexError. unfold run_backtest. rewrite Hdrop.
  split; [reflexivity|]. split; discriminate.
Qed.

End BacktestFacts.

(** ** C5: the lockstep scenario *)

Module HedgeRatioFacts.

Import HedgeRatioCalculator.
Open Scope float_scope.

(** The rows that are left in the scenario, whatever the level of the
    futures series: the four days after the first, for the ratio and for the
    effectiveness at ratio 2 alike. *)
Lemma lockstep_changes (data : AlignedSeries) :
  map spot_price data = [100; 102; 101; 105; 103] ->
  Pd.diff (map future_price data) = [nan; 1; -0.5; 2; -1] ->
  data <> []
  /\ map spot_change (dropna (with_changes data)) = [2; -1; 4; -2]
  /\ map future_change (dropna (with_changes data)) = [1; -0.5; 2; -1]
  /\ map spot_change
       (filter (fun r => negb (change_row_has_nan r
                               || is_nan (hedged_change 2 r)))
          (with_changes data)) = [2; -1; 4; -2]
  /\ map (hedged_change 2)
       (filter (fun r => negb (change_row_has_nan r
                               || is_nan (hedged_change 2 r)))
          (with_changes data)) = [0; 0; 0; 0].
Proof.
  intros Hs Hf.
  destruct data as [|[i0 d0 s0 f0] [|[i1 d1 s1 f1] [|[i2 d2 s2 f2]
    [|[i3 d3 s3 f3] [|[i4 d4 s4 f4] [|]]]]]]; try discriminate.
  cbn in Hs, Hf.
  injection Hs as -> -> -> -> ->. injection Hf as H1 H2 H3 H4.
  assert (N1 : is_nan (f1 - f0) = false) by now rewrite H1.
  assert (N2 : is_nan (f2 - f1) = false) by now rewrite H2.
  assert (N3 : is_nan (f3 - f2) = false) by now rewrite H3.
  assert (N4 : is_nan (f4 - f3) = false) by now rewrite H4.
  apply sub_not_nan in N1 as [N1 N0]. apply sub_not_nan in N2 as [N2 _].
  apply sub_not_nan in N3 as [N3 _]. apply sub_not_nan in N4 as [N4 _].
  split; [discriminate|].
  unfold dropna, with_changes.
  cbn [map length seq combine Pd.diff Pd.diff_from nth fst snd spot_price
       future_price].
  rewrite H1, H2, H3, H4.
  unfold change_row_has_nan, hedged_change.
  cbn [filter point spot_change future_change spot_price future_price].
  rewrite N0, N1, N2, N3, N4.
  repeat split; vm_compute; reflexivity.
Qed.

(** C5.  For the spot series 100, 102, 101, 105, 103 and any futures series
    whose daily differences are 1, -0.5, 2, -1, the minimum-variance ratio
    returned by [calculate_optimal_hedge_ratio] is exactly 2 and the
    reported R squared is 1; [calculate_hedge_effectiveness] at ratio 2
    returns an effectiveness of exactly 1, the hedged variance being 0. *)
Theorem lockstep_hedge_ratio (data : AlignedSeries) :
  map spot_price data = [100; 102; 101; 105; 103] ->
  Pd.diff (map future_price data) = [nan; 1; -0.5; 2; -1] ->
  (exists res,
     calculate_optimal_hedge_ratio data None = Ok (2, res)
     /\ optimal_hedge_ratio res = 2
     /\ r_squared (regression_results res) = 1)
  /\ (exists eff,
        calculate_hedge_effectiveness data 2 = Ok eff
        /\ hedge_effectiveness eff = 1
        /\ hedged_variance eff = 0).
Proof.
  intros Hs Hf.
  destruct (@lockstep_changes data Hs Hf) as (Hne & Hsc & Hfc & Hes & Heh).
  split.
  - unfold calculate_optimal_hedge_ratio.
    destruct data as [|p rest]; [congruence|].
    assert (Hlen : length (dropna (with_changes (p :: rest))) = 4%nat).
    { rewrite <- (length_map spot_change), Hsc. reflexivity. }
    rewrite Hlen. cbn [Nat.ltb Nat.leb]. rewrite Hsc, Hfc.
    eexists. split; [vm_compute; reflexivity|]. split; reflexivity.
  - unfold calculate_hedge_effectiveness.
    destruct data as [|p rest]; [congruence|].
    match goal with
    | |- context [length ?l] =>
        assert (Hlen : length l = 4%nat)
          by (rewrite <- (length_map spot_change), Hes; reflexivity);
        rewrite Hlen
    end.
    cbn [Nat.ltb Nat.leb]. rewrite Hes, Heh.
    eexists. split; [reflexivity|]. split; vm_compute; reflexivity.
Qed.

(** The scenario with the futures series 50, 51, 50.5, 52.5, 51.5. *)
Lemma lockstep_hedge_ratio_witness :
  map spot_price Samples.lockstep_days = [100; 102; 101; 105; 103]
  /\ Pd.diff (map future_price Samples.lockstep_days)
     = [nan; 1; -0.5; 2; -1]
  /\ (exists res,
        calculate_optimal_hedge_ratio Samples.lockstep_days None = Ok (2, res)
        /\ r_squared (regression_results res) = 1)
  /\ (exists eff,
        calculate_hedge_effectiveness Samples.lockstep_days 2 = Ok eff
        /\ hedge_effectiveness eff = 1).
Proof.
  assert (Hs : map spot_price Samples.lockstep_days
               = [100; 102; 101; 105; 103]) by reflexivity.
  assert (Hf : Pd.diff (map future_price Samples.lockstep_days)
               = [nan; 1; -0.5; 2; -1]) by (vm_compute; reflexivity).
  split; [exact Hs|]. split; [exact Hf|].
  destruct (@lockstep_hedge_ratio Samples.lockstep_days Hs Hf)
    as [(res & Hres & _ & Hr2) (eff & Heff & He & _)].
  split; [exists res | exists eff]; split; assumption.
Defined.

(** ** C10: no spot quantity *)

Lemma is_finite_cases (x : float) :
  is_finite x = true ->
  (exists s, Prim2SF x = S754_zero s)
  \/ (exists s m e, Prim2SF x = S754_finite s m e).
Proof.
  unfold is_finite, is_nan, is_infinity.
  rewrite !FloatAxioms.eqb_spec, abs_spec.
  replace (Prim2SF infinity) with (S754_infinity false) by reflexivity.
  destruct (Prim2SF x) as [s|[]| |s m e]; cbn; intros H; try discriminate.
  - left. now exists s.
  - right. now exists s, m, e.
Qed.

(** Zero times a finite ratio, divided by a contract size that is a number
    other than zero, is a zero. *)
Lemma zero_contract_count (h cs : float) :
  is_finite h = true -> is_nan cs = false -> (cs =? 0) = false ->
  exists s, Prim2SF (0 * h / cs) = S754_zero s.
Proof.
  intros Hh Hnan Hz.
  assert (Hm : exists s, Prim2SF (0 * h) = S754_zero s).
  { rewrite mul_spec.
    replace (Prim2SF 0) with (S754_zero false) by reflexivity.
    destruct (@is_finite_cases h Hh) as [[s ->]|(s & m & e & ->)];
      eexists; reflexivity. }
  destruct Hm as [s Hm]. rewrite div_spec, Hm.
  unfold is_nan in Hnan. rewrite FloatAxioms.eqb_spec in Hnan, Hz.
  replace (Prim2SF 0) with (S754_zero false) in Hz by reflexivity.
  destruct (Prim2SF cs) as [s'|s'| |s' m e]; cbn in Hnan, Hz;
    try discriminate; try (destruct s'; discriminate);
    eexists; reflexivity.
Qed.

(** C10, as the code has it.  With spot_quantity = 0, a finite hedge ratio
    and a contract size that is a number other than zero, the contract count
    is computed and rounds to 0, and [calculate_hedge_quantity] then raises
    ZeroDivisionError when it divides by the spot quantity for the actual
    hedge ratio. *)
Theorem hedge_quantity_zero_spot (h cs : float) :
  is_finite h = true -> is_nan cs = false -> (cs =? 0) = false ->
  calculate_hedge_quantity 0 h cs = Raise ZeroDivisionError
  /\ Py.div (0 * h) cs = Ok (0 * h / cs)
  /\ Py.round (0 * h / cs) = Ok 0%Z.
Proof.
  intros Hh Hnan Hz.
  destruct (@zero_contract_count h cs Hh Hnan Hz) as [s Hs].
  assert (Hdiv : Py.div (0 * h) cs = Ok (0 * h / cs))
    by (unfold Py.div; now rewrite Hz).
  assert (Hround : Py.round (0 * h / cs) = Ok 0%Z)
    by (unfold Py.round; now rewrite Hs).
  split; [|split; assumption].
  unfold calculate_hedge_quantity. rewrite Hdiv. cbn [bind].
  rewrite Hround. cbn [bind]. reflexivity.
Qed.

Lemma hedge_quantity_zero_spot_witness :
  is_finite 0.5 = true /\ is_nan 10 = false /\ (10 =? 0) = false
  /\ calculate_hedge_quantity 0 0.5 10 = Raise ZeroDivisionError.
Proof.
  split; [reflexivity|]. split; [reflexivity|]. split; [reflexivity|].
  exact (proj1 (@hedge_quantity_zero_spot 0.5 10 eq_refl eq_refl eq_refl)).
Defined.

(** C10 does not hold for every ratio and contract size.  A NaN hedge ratio
    makes [round] raise ValueError before any division by the spot quantity;
    and with a contract size of 0 the ZeroDivisionError comes from the
    division for the contract count, not from the actual hedge ratio. *)
Lemma hedge_quantity_zero_spot_counterexample :
  calculate_hedge_quantity 0 nan 1 = Raise (ValueError NaNToInteger)
  /\ Py.div (0 * 1) 0 = Raise ZeroDivisionError
  /\ ~ (forall h cs : float,
          calculate_hedge_quantity 0 h cs = Raise ZeroDivisionError
          /\ exists c n, Py.div (0 * h) cs = Ok c /\ Py.round c = Ok n).
Proof.
  split; [reflexivity|]. split; [reflexivity|].
  intros H. destruct (H nan 1) as [H1 _]. vm_compute in H1. discriminate.
Qed.

End HedgeRatioFacts.

(** ** C7: aligning an aligned series *)

Module DataProcessorFacts.

Import DataProcessor.

Section MergeSorted.

Variables f g : Z * list float -> Z * list float.
Hypothesis f_date : forall r, fst (f r) = fst r.
Hypothesis g_date : forall r, fst (g r) = fst r.

Lemma filter_later_dates (d : Z) (l : list (Z * list float)) :
  Forall (fun z => (d < z)%Z) (map fst l) ->
  filter (fun r => (fst r =? d)%Z) (map g l) = [].
Proof.
  induction l as [|y l IH]; intros H; [reflexivity|].
  inversion H as [|? ? Hy Hl]; subst. cbn [map filter].
  rewrite g_date. destruct (Z.eqb_spec (fst y) d); [lia|]. now apply IH.
Qed.

(** On strictly increasing dates a row has one partner: itself. *)
Lemma filter_same_date (l : list (Z * list float)) (x : Z * list float) :
  StronglySorted Z.lt (map fst l) -> In x l ->
  filter (fun r => (fst r =? fst x)%Z) (map g l) = [g x].
Proof.
  induction l as [|y l IH]; intros Hs Hin; [contradiction|].
  cbn [map] in Hs. apply StronglySorted_inv in Hs as [Hs Hy].
  cbn [map filter]. rewrite g_date. destruct Hin as [->|Hin].
  - rewrite Z.eqb_refl. f_equal. now apply filter_later_dates.
  - assert (fst y < fst x)%Z.
    { rewrite Forall_forall in Hy. apply Hy. now apply in_map. }
    destruct (Z.eqb_spec (fst y) (fst x)); [lia|]. now apply IH.
Qed.

Lemma merge_rows_sorted (l : list (Z * list float)) :
  StronglySorted Z.lt (map fst l) ->
  merge_rows (map f l) (map g l)
  = map (fun r => (fst r, (snd (f r) ++ snd (g r))%list)) l.
Proof.
  intros Hs. unfold merge_rows. rewrite flat_map_concat_map, map_map.
  assert (H : forall x, In x l ->
            map (fun r => (fst (f x), (snd (f x) ++ snd r)%list))
              (filter (fun r => (fst r =? fst (f x))%Z) (map g l))
            = [(fst x, (snd (f x) ++ snd (g x))%list)]).
  { intros x Hx. rewrite f_date, (filter_same_date _ _ Hs Hx).
    reflexivity. }
  clear Hs. revert H. generalize (map g l) as right. intros right H.
  induction l as [|x l IH]; [reflexivity|].
  cbn [map concat]. rewrite H by now left. cbn [app]. f_equal.
  apply IH. intros y Hy. apply H. now right.
Qed.

End MergeSorted.

Lemma sort_values_date_sorted (l : list (Z * list float)) :
  StronglySorted Z.lt (map fst l) -> sort_values_date l = l.
Proof.
  induction l as [|x l IH]; intros Hs; [reflexivity|].
  cbn [map] in Hs. apply StronglySorted_inv in Hs as [Hs Hx].
  unfold sort_values_date in *. cbn [fold_right]. rewrite IH by assumption.
  destruct l as [|y l]; [reflexivity|]. cbn [insert_by_date].
  inversion Hx; subst. destruct (Z.leb_spec (fst x) (fst y)); [reflexivity|lia].
Qed.

Lemma map_pair_id (l : list (Z * list float)) :
  map (fun r => (fst r, (firstn 1 (snd r) ++ skipn 1 (snd r))%list)) l = l.
Proof.
  induction l as [|[d v] l IH]; [reflexivity|].
  cbn [map fst snd]. now rewrite firstn_skipn, IH.
Qed.

(** C7, as the code has it.  For a valid aligned series [A], aligning its
    spot series (the columns date and spot_price) with its futures series
    (date and future_price) returns [A].  Aligning [A] with itself returns
    the same dates in the same order, one row per date, but each price
    column twice, under the names spot_price_x, future_price_x,
    spot_price_y and future_price_y. *)
Theorem align_data_of_aligned (a : DataFrame) :
  valid_aligned a ->
  align_data (spot_part a) (future_part a) = Ok a
  /\ align_data a a = Ok (doubled a).
Proof.
  intros (Hcols & Hne & _ & Hsorted).
  destruct a as [cols rs]. cbn [columns rows] in *. subst cols.
  split.
  - unfold align_data, merge, spot_part, future_part. cbn [columns rows].
    rewrite (@merge_rows_sorted (fun r => (fst r, firstn 1 (snd r)))
               (fun r => (fst r, skipn 1 (snd r)))
               (fun r => eq_refl) (fun r => eq_refl) rs Hsorted).
    cbn [fst snd]. rewrite map_pair_id.
    destruct rs as [|r rs]; [congruence|].
    now rewrite sort_values_date_sorted.
  - unfold align_data, merge, doubled. cbn [columns rows].
    pose proof (@merge_rows_sorted (fun r => r) (fun r => r)
                  (fun r => eq_refl) (fun r => eq_refl) rs Hsorted) as Hm.
    rewrite !map_id in Hm. rewrite Hm.
    destruct rs as [|r rs]; [congruence|].
    rewrite sort_values_date_sorted; [reflexivity|].
    now rewrite map_map.
Qed.

Lemma two_day_frame_valid : valid_aligned Samples.two_day_frame.
Proof.
  unfold valid_aligned. split; [reflexivity|]. split; [discriminate|].
  split; [repeat constructor|]. cbn. repeat constructor.
Qed.

Lemma align_data_of_aligned_witness :
  valid_aligned Samples.two_day_frame
  /\ align_data (spot_part Samples.two_day_frame)
       (future_part Samples.two_day_frame) = Ok Samples.two_day_frame
  /\ align_data Samples.two_day_frame Samples.two_day_frame
     = Ok (doubled Samples.two_day_frame).
Proof.
  split; [exact two_day_frame_valid|].
  exact (@align_data_of_aligned Samples.two_day_frame two_day_frame_valid).
Defined.

(** C7 does not hold for [align_data a a]: the two sample days form a
    valid aligned series, and aligning it with itself gives a frame with
    four price columns, which is not the series. *)
Lemma align_data_idempotent_counterexample :
  valid_aligned Samples.two_day_frame
  /\ align_data Samples.two_day_frame Samples.two_day_frame
     = Ok {| columns := ["spot_price_x"%string; "future_price_x"%string;
                         "spot_price_y"%string; "future_price_y"%string];
             rows := [(19000%Z, [100; 50; 100; 50]%float);
                      (19001%Z, [102; 51; 102; 51]%float)] |}
  /\ align_data Samples.two_day_frame Samples.two_day_frame
     <> Ok Samples.two_day_frame.
Proof.
  split; [exact two_day_frame_valid|]. split; [reflexivity|].
  intros H. vm_compute in H. discriminate.
Qed.

End DataProcessorFacts.

(** ** C3: detecting a run of five extreme days *)

Module StressFacts.

Import StressTestAnalyzer.
Open Scope float_scope.

Lemma iloc_last_ok {A : Type} (l : list A) :
  l <> [] -> exists x, iloc_last l = Ok x.
Proof.
  intros H. unfold iloc_last.
  destruct (rev l) as [|x r] eqn:E; [|now exists x].
  apply (f_equal (@rev A)) in E. rewrite rev_involutive in E. now subst.
Qed.

(** Whatever period it is given, [_create_stress_period_summary] never
    returns in the program: with rows, it stops at the name it cannot
    find; without, at the date of an empty column. *)
Lemma create_summary_raises (period_data : list StressRow) (s e : Z) :
  period_data <> [] ->
  _create_stress_period_summary stress_test_globals period_data s e
  = Raise (NameError "price_change_threshold").
Proof.
  intros H. unfold _create_stress_period_summary.
  destruct (@iloc_last_ok _ (map (fun r => spot_price (col_point r))
                               period_data)) as [sl Hsl].
  { destruct period_data; [congruence|discriminate]. }
  destruct (@iloc_last_ok _ (map (fun r => future_price (col_point r))
                               period_data)) as [fl Hfl].
  { destruct period_data; [congruence|discriminate]. }
  rewrite Hsl, Hfl. destruct period_data as [|r l]; [congruence|].
  reflexivity.
Qed.

(** The loop passes over calm days outside a run without a change of
    state. *)
Lemma scan_calm (g : list (string * float)) (data calm rest : list StressRow)
    (mcd : Z) (start : option Z) (found : list StressPeriod) :
  Forall (fun r => col_is_extreme r = false) calm ->
  scan g data (calm ++ rest) mcd false start found
  = scan g data rest mcd false start found.
Proof.
  induction 1 as [|r calm Hr _ IH]; [reflexivity|].
  cbn [app scan]. rewrite Hr. exact IH.
Qed.

(** Closing a run of five days that starts at a row of the frame. *)
Lemma close_five_days_raises (data : list StressRow) (first : StressRow) :
  In first data ->
  close_period stress_test_globals data (index (col_point first))
    (index (col_point first) + 4) 3 []
  = Raise (NameError "price_change_threshold").
Proof.
  intros Hin. unfold close_period.
  replace (index (col_point first) + 4 - index (col_point first) + 1)%Z
    with 5%Z by lia.
  cbn [Z.leb Z.compare Pos.compare Pos.compare_cont].
  rewrite create_summary_raises; [reflexivity|].
  intros E. assert (Hf : In first (loc data (index (col_point first))
                                     (index (col_point first) + 4))).
  { unfold loc. apply filter_In. split; [exact Hin|].
    apply andb_true_intro. split; apply Z.leb_le; lia. }
  rewrite E in Hf. contradiction.
Qed.

Lemma flags_of_repeat (b : bool) (n : nat) (l : list StressRow) :
  map col_is_extreme l = repeat b n ->
  Forall (fun r => col_is_extreme r = b) l.
Proof.
  intros H. apply Forall_forall. intros r Hr.
  apply (in_map col_is_extreme) in Hr. rewrite H in Hr.
  now apply repeat_spec in Hr.
Qed.

Lemma label_of_position (l : list StressRow) (s k : nat) (r : StressRow) :
  map (fun x => index (col_point x)) l = map Z.of_nat (seq s (length l)) ->
  nth_error l k = Some r ->
  index (col_point r) = Z.of_nat (s + k).
Proof.
  revert s k; induction l as [|x l IH]; intros s [|k] H Hk;
    cbn in H, Hk; try discriminate; injection H as Hx Hl.
  - injection Hk as <-. now rewrite Nat.add_0_r.
  - rewrite (IH (S s) k Hl Hk). f_equal. lia.
Qed.

Lemma points_of_extremes (aligned_data : AlignedSeries) (thr : float) :
  map col_point (with_extremes aligned_data thr) = aligned_data.
Proof.
  unfold with_extremes. rewrite map_map. cbn [col_point].
  generalize 0%nat.
  induction aligned_data as [|p l IH]; intros s; [reflexivity|].
  cbn [length seq combine map snd]. f_equal. apply IH.
Qed.

(** Every input of that kind meets the unbound name.  Take an aligned
    series indexed 0, 1, 2, ... whose days are [a] calm days, five extreme
    days and [b] calm days, in this order.  With min_consecutive_days = 3,
    [identify_stress_periods] raises NameError. *)
Lemma five_day_run_raises (self : Analyzer) (aligned_data : AlignedSeries)
    (thr : float) (a b : nat) :
  map index aligned_data = map Z.of_nat (seq 0 (length aligned_data)) ->
  map col_is_extreme (with_extremes aligned_data thr)
  = repeat false a ++ repeat true 5 ++ repeat false b ->
  identify_stress_periods stress_test_globals self aligned_data thr 3
  = Raise (NameError "price_change_threshold").
Proof.
  intros Hindex Hflags.
  pose proof (points_of_extremes aligned_data thr) as Hpoints.
  assert (Hlabels : map (fun x => index (col_point x))
                      (with_extremes aligned_data thr)
                    = map Z.of_nat
                        (seq 0 (length (with_extremes aligned_data thr)))).
  { rewrite <- (map_map col_point index), Hpoints, Hindex.
    now rewrite <- Hpoints at 1; rewrite length_map. }
  unfold identify_stress_periods.
  destruct aligned_data as [|p0 rest0] eqn:Ealigned.
  { destruct a; discriminate. }
  rewrite <- Ealigned in *. clear Ealigned p0 rest0.
  set (data := with_extremes aligned_data thr) in *.
  apply map_eq_app in Hflags as (calm & rest & Hdata & Hcalm & Hrest).
  apply map_eq_app in Hrest as (ext & tail & -> & Hext & Htail).
  assert (Hla : length calm = a)
    by (rewrite <- (length_map col_is_extreme), Hcalm; apply repeat_length).
  apply flags_of_repeat in Hcalm. apply flags_of_repeat in Htail.
  destruct ext as [|e0 [|e1 [|e2 [|e3 [|e4 [|]]]]]]; try discriminate.
  injection Hext as He0 He1 He2 He3 He4.
  assert (Hin0 : In e0 data).
  { rewrite Hdata. apply in_or_app. right. now left. }
  assert (Hl0 : index (col_point e0) = Z.of_nat a).
  { apply (label_of_position data 0 a Hlabels).
    rewrite Hdata, nth_error_app2, Hla, Nat.sub_diag by lia. reflexivity. }
  pose proof (close_five_days_raises data e0 Hin0) as Hclose.
  rewrite Hdata at 2. rewrite scan_calm by assumption.
  cbn [app scan]. rewrite He0, He1, He2, He3, He4. cbn [andb negb].
  destruct tail as [|c tail'].
  - cbn [scan bind].
    replace (Z.of_nat (length data) - 1)%Z with (index (col_point e0) + 4)%Z.
    + rewrite Hclose. reflexivity.
    + rewrite Hl0, Hdata, length_app, Hla. cbn [length app]. lia.
  - cbn [scan]. rewrite (Forall_inv Htail). cbn [andb negb].
    replace (index (col_point c) - 1)%Z with (index (col_point e0) + 4)%Z.
    + rewrite Hclose. reflexivity.
    + rewrite Hl0.
      rewrite (label_of_position data 0 (a + 5) Hlabels (r := c)); [lia|].
      rewrite Hdata, nth_error_app2, Hla by lia.
      replace (a + 5 - a)%nat with 5%nat by lia. reflexivity.
Qed.

(** C3, at the sample series.  The spot series has two calm days, five
    days in a row beyond the 5 percent threshold, and two calm days; with
    min_consecutive_days = 3 [identify_stress_periods] does not return the
    one period it is specified to find: it raises NameError on the unbound
    name price_change_threshold when it summarises the run.  Were the name bound
    to the threshold, the same loop would return exactly one period, rows 2
    to 6, five days, the calm day that ends the run left out. *)
Theorem identify_stress_periods_five_day_run :
  map col_is_extreme (with_extremes Samples.stress_days 5)
  = [false; false; true; true; true; true; true; false; false]
  /\ identify_stress_periods stress_test_globals new_analyzer
       Samples.stress_days 5 3
     = Raise (NameError "price_change_threshold")
  /\ identify_stress_periods Samples.globals_with_threshold new_analyzer
       Samples.stress_days 5 3
     = Ok ([Samples.stress_period],
           {| self_stress_periods := [Samples.stress_period];
              self_stress_results := None |}).
Proof.
  split; [vm_compute; reflexivity|].
  split; vm_compute; reflexivity.
Qed.

(** ** C4: the rows a period is scored on *)

Lemma points_of_columns (aligned_data : AlignedSeries) (h q : float)
    (dir : BacktestEngine.HedgeDirection) :
  map BacktestEngine.point (BacktestEngine.backtest_columns aligned_data h q dir)
  = aligned_data.
Proof.
  unfold BacktestEngine.backtest_columns. rewrite map_map.
  cbn [BacktestEngine.point]. generalize 0%nat.
  induction aligned_data as [|p l IH]; intros s; [reflexivity|].
  cbn [length seq combine map snd]. f_equal. apply IH.
Qed.

(** When [dropna] removes the first row only, position [k] of the record
    set holds the aligned row [k + 1]: every position is one less than the
    label the row had in the aligned series. *)
Lemma record_set_positions (aligned_data : AlignedSeries) (h q : float)
    (dir : BacktestEngine.HedgeDirection) :
  length (BacktestEngine.dropna
            (BacktestEngine.backtest_columns aligned_data h q dir))
  = (length aligned_data - 1)%nat ->
  map BacktestEngine.point
    (BacktestEngine.dropna
       (BacktestEngine.backtest_columns aligned_data h q dir))
  = tl aligned_data.
Proof.
  intros Hkeep. destruct aligned_data as [|p rest]; [reflexivity|].
  destruct (BacktestFacts.first_row_missing p rest h q dir)
    as (c0 & cols & Hcols & Hlcols & Hsp & _).
  pose proof (points_of_columns (p :: rest) h q dir) as Hpoints.
  rewrite Hcols in Hkeep, Hpoints |- *. unfold BacktestEngine.dropna in *.
  cbn [filter] in Hkeep |- *.
  rewrite (BacktestFacts.row_has_nan_spot_pnl _ Hsp) in Hkeep |- *.
  cbn [negb] in Hkeep |- *. cbn [length] in Hkeep.
  rewrite filter_length_eq by lia.
  cbn [map] in Hpoints. now inversion Hpoints.
Qed.

(** C4, at the sample series.  The backtest of the nine sample days keeps
    the days 19001 to 19008.  The period of the run, as the detector records
    it on the aligned series, has start_index 2, end_index 6 and the dates
    19002 to 19006.  [run_stress_test] scores it on positions 2 to 6 of the
    record set, which are the days 19003 to 19007: one day late, the first
    stress day left out and the calm day after the run taken in.  The hedged
    total it reports is 410; over the period's own dates it is 470.  Left to
    detect the periods itself from the record set, [run_stress_test] raises
    NameError on price_change_threshold. *)
Theorem stress_test_scores_shifted_rows :
  exists bt out self pr perf,
    BacktestEngine.run_backtest Samples.stress_days 0.5 10
      BacktestEngine.SHORT_HEDGE 1 = Ok bt
    /\ run_stress_test stress_test_globals new_analyzer (Some bt)
         (Some [Samples.stress_period]) None = Ok (out, self)
    /\ stress_periods out = [pr]
    /\ period_info pr = IdentifiedPeriod Samples.stress_period
    /\ performance pr = Some perf
    /\ _calculate_period_performance
         (period_rows (BacktestEngine.data bt) Samples.stress_period)
       = Ok (Some perf)
    /\ map (fun r => date (BacktestEngine.point r))
         (period_rows (BacktestEngine.data bt) Samples.stress_period)
       = [19003; 19004; 19005; 19006; 19007]%Z
    /\ map (fun r => date (BacktestEngine.point r))
         (between_dates (BacktestEngine.data bt)
            (start_date Samples.stress_period)
            (end_date Samples.stress_period))
       = [19002; 19003; 19004; 19005; 19006]%Z
    /\ total_hedged_pnl perf = 410
    /\ (exists perf',
          _calculate_period_performance
            (between_dates (BacktestEngine.data bt)
               (start_date Samples.stress_period)
               (end_date Samples.stress_period)) = Ok (Some perf')
          /\ total_hedged_pnl perf' = 470)
    /\ run_stress_test stress_test_globals new_analyzer (Some bt) None None
       = Raise (NameError "price_change_threshold").
Proof.
  do 5 eexists.
  split; [vm_compute; reflexivity|].
  split; [vm_compute; reflexivity|].
  split; [reflexivity|]. split; [reflexivity|]. split; [reflexivity|].
  split; [vm_compute; reflexivity|].
  split; [vm_compute; reflexivity|].
  split; [vm_compute; reflexivity|].
  split; [vm_compute; reflexivity|].
  split; [eexists; split; vm_compute; reflexivity|].
  vm_compute; reflexivity.
Qed.

(** ** C9: the normal-period comparison *)

Lemma period_performance_ok (period_data : list BacktestEngine.BacktestRecord) :
  period_data <> [] ->
  exists perf, _calculate_period_performance period_data = Ok (Some perf).
Proof.
  intros H. unfold _calculate_period_performance.
  destruct (@BacktestFacts.percentile_ok
              (map BacktestEngine.total_pnl period_data) 5) as [v1 Hv1].
  { destruct period_data; [congruence|discriminate]. }
  destruct (@BacktestFacts.percentile_ok
              (map BacktestEngine.unhedged_pnl period_data) 5) as [v2 Hv2].
  { destruct period_data; [congruence|discriminate]. }
  rewrite Hv1, Hv2. destruct period_data; [congruence|].
  eexists. reflexivity.
Qed.

Lemma period_performance_total (period_data : list BacktestEngine.BacktestRecord) :
  exists perf, _calculate_period_performance period_data = Ok perf.
Proof.
  destruct period_data as [|r l] eqn:E.
  - now exists None.
  - destruct (@period_performance_ok (r :: l)) as [perf H]; [discriminate|].
    now exists (Some perf).
Qed.

(** With no stored period, the normal-period analysis is the performance of
    the whole record set. *)
Lemma normal_analysis_of_fresh (self : Analyzer)
    (data : list BacktestEngine.BacktestRecord) :
  self_stress_periods self = [] ->
  exists perf,
    _calculate_period_performance data = Ok perf
    /\ _get_normal_period_analysis self data
       = Ok {| performance := perf;
               period_info := NormalPeriod (length data) |}.
Proof.
  intros Hself. destruct (period_performance_total data) as [perf Hperf].
  exists perf. split; [exact Hperf|].
  unfold _get_normal_period_analysis. rewrite Hself.
  destruct data; rewrite Hperf; reflexivity.
Qed.

Lemma test_specific_periods_ok (data : list BacktestEngine.BacktestRecord)
    (periods : list StressPeriod) :
  (forall p, In p periods -> period_rows data p <> []) ->
  exists results,
    _test_specific_periods data periods = Ok (results, identified_periods_test)
    /\ length results = length periods
    /\ Forall (fun r => performance r <> None) results.
Proof.
  unfold _test_specific_periods. induction periods as [|p ps IH]; intros H.
  - exists []. repeat split. constructor.
  - destruct IH as (results & Hres & Hlen & Hall).
    { intros p' Hp'. apply H. now right. }
    destruct (@period_performance_ok (period_rows data p)) as [perf Hperf].
    { apply H. now left. }
    cbn [mapM]. rewrite Hperf. cbn [bind].
    destruct (mapM _ ps) as [rs|e] eqn:E; cbn [bind] in Hres;
      [|discriminate].
    injection Hres as <-. eexists. split; [reflexivity|].
    split; [cbn; now rewrite Hlen|].
    constructor; [discriminate|assumption].
Qed.

Lemma mapM_get_key_ok (key : string) (results : list PeriodResult) :
  Forall (fun r => performance r <> None) results ->
  exists perfs,
    mapM (get_key key) results = Ok perfs
    /\ length perfs = length results.
Proof.
  induction 1 as [|r rs Hr _ (perfs & IH & Hlen)].
  - now exists [].
  - cbn [mapM]. unfold get_key at 1.
    destruct (performance r) as [perf|]; [|congruence].
    rewrite IH. eexists. split; [reflexivity|]. cbn. now rewrite Hlen.
Qed.

Lemma stress_summary_ok (results : list PeriodResult) (normal : PeriodResult) :
  Forall (fun r => performance r <> None) results ->
  performance normal <> None ->
  exists s, _calculate_stress_summary results normal = Ok s.
Proof.
  intros Hall Hnormal. unfold _calculate_stress_summary.
  destruct results as [|r rs]; [now exists None|].
  destruct (mapM_get_key_ok "days" Hall) as (perfs & -> & Hlen).
  destruct perfs as [|perf perfs]; [discriminate|].
  cbn [bind map Py.min].
  unfold get_key. destruct (performance normal); [|congruence].
  cbn [bind]. eexists. reflexivity.
Qed.

Lemma iloc_slice_nil {A : Type} (start stop : Z) :
  @iloc_slice A [] start stop = [].
Proof. unfold iloc_slice. rewrite skipn_nil. apply firstn_nil. Qed.

(** C9.  On an analyzer whose stored list of stress periods is empty,
    [run_stress_test] called with an explicit, non-empty list of periods
    compares against the whole record set: whenever it returns, its
    normal-period comparison is the performance of all the rows, of length
    the whole set, and the stored list is still empty; the periods passed as
    argument are not removed.  It does return when no custom period is given
    and every period passed selects at least one row. *)
Theorem normal_comparison_over_full_set (self : Analyzer)
    (bt : BacktestEngine.BacktestResult) (periods : list StressPeriod)
    (custom : option (Z * Z)) :
  self_stress_periods self = [] ->
  periods <> [] ->
  (forall out self',
     run_stress_test stress_test_globals self (Some bt) (Some periods) custom
     = Ok (out, self') ->
     exists perf,
       _calculate_period_performance (BacktestEngine.data bt) = Ok perf
       /\ normal_period_comparison out
          = {| performance := perf;
               period_info :=
                 NormalPeriod (length (BacktestEngine.data bt)) |}
       /\ self_stress_periods self' = [])
  /\ (custom = None ->
      (forall p, In p periods ->
                 period_rows (BacktestEngine.data bt) p <> []) ->
      exists out self',
        run_stress_test stress_test_globals self (Some bt) (Some periods)
          custom = Ok (out, self')).
Proof.
  intros Hself Hne. destruct periods as [|p ps]; [congruence|].
  destruct (@normal_analysis_of_fresh self (BacktestEngine.data bt) Hself)
    as (perf & Hperf & Hnormal).
  split.
  - intros out self' Hrun. exists perf. split; [exact Hperf|].
    unfold run_stress_test in Hrun. destruct custom as [c|].
    + destruct (_test_custom_period (BacktestEngine.data bt) c)
        as [tested|e]; cbn [bind] in Hrun; [|discriminate].
      rewrite Hnormal in Hrun. cbn [bind] in Hrun.
      destruct (_calculate_stress_summary _ _) as [s|e];
        cbn [bind] in Hrun; [|discriminate].
      injection Hrun as <- <-. split; [reflexivity|exact Hself].
    + destruct (_test_specific_periods (BacktestEngine.data bt) (p :: ps))
        as [tested|e]; cbn [bind] in Hrun; [|discriminate].
      rewrite Hnormal in Hrun. cbn [bind] in Hrun.
      destruct (_calculate_stress_summary _ _) as [s|e];
        cbn [bind] in Hrun; [|discriminate].
      injection Hrun as <- <-. split; [reflexivity|exact Hself].
  - intros -> Hrows.
    destruct (@test_specific_periods_ok (BacktestEngine.data bt) (p :: ps)
                Hrows) as (results & Htest & Hlen & Hall).
    assert (Hdata : BacktestEngine.data bt <> []).
    { intros E. apply (Hrows p (or_introl eq_refl)). unfold period_rows.
      rewrite E. apply iloc_slice_nil. }
    destruct (@period_performance_ok (BacktestEngine.data bt) Hdata)
      as [perf' Hperf'].
    rewrite Hperf' in Hperf. injection Hperf as <-.
    destruct (@stress_summary_ok results
                {| performance := Some perf';
                   period_info :=
                     NormalPeriod (length (BacktestEngine.data bt)) |} Hall)
      as [s Hs]; [discriminate|].
    unfold run_stress_test. rewrite Htest. cbn [bind fst snd].
    rewrite Hnormal. cbn [bind]. rewrite Hs. cbn [bind].
    eexists. eexists. reflexivity.
Qed.

(** The sample backtest and the sample period passed to a new analyzer: the
    comparison covers all eight days of the record set, the five days of the
    period included. *)
Lemma normal_comparison_over_full_set_witness :
  exists bt,
    BacktestEngine.run_backtest Samples.stress_days 0.5 10
      BacktestEngine.SHORT_HEDGE 1 = Ok bt
    /\ self_stress_periods new_analyzer = []
    /\ [Samples.stress_period] <> []
    /\ exists out self',
         run_stress_test stress_test_globals new_analyzer (Some bt)
           (Some [Samples.stress_period]) None = Ok (out, self')
         /\ period_info (normal_period_comparison out) = NormalPeriod 8
         /\ option_map days (performance (normal_period_comparison out))
            = Some 8%nat.
Proof.
  assert (Hbt : exists bt,
            BacktestEngine.run_backtest Samples.stress_days 0.5 10
              BacktestEngine.SHORT_HEDGE 1 = Ok bt)
    by (eexists; vm_compute; reflexivity).
  destruct Hbt as [bt Hbt]. exists bt. split; [exact Hbt|].
  assert (H1 : self_stress_periods new_analyzer = []) by reflexivity.
  assert (H2 : [Samples.stress_period] <> []) by discriminate.
  split; [exact H1|]. split; [exact H2|].
  destruct (@normal_comparison_over_full_set new_analyzer bt
              [Samples.stress_period] None H1 H2) as [Hnormal Hreturns].
  vm_compute in Hbt. injection Hbt as <-.
  destruct (Hreturns eq_refl) as (out & self' & Hrun).
  { intros p [<-|[]]. vm_compute. discriminate. }
  exists out, self'. split; [exact Hrun|].
  destruct (Hnormal out self' Hrun) as (perf & Hperf & -> & _).
  cbn [period_info performance]. split; [reflexivity|].
  vm_compute in Hperf. injection Hperf as <-. reflexivity.
Defined.

End StressFacts.

(** * Further properties *)

(** ** stress_test.py: what the detector and the runner do at the edges *)

Module StressEdgeFacts.

Import StressTestAnalyzer.
Open Scope float_scope.

(** In the program [_create_stress_period_summary] never returns: without
    rows it fails on the date of an empty column, with rows on the unbound
    name. *)
Lemma create_summary_never_returns (period_data : list StressRow) (s e : Z) :
  exists err,
    _create_stress_period_summary stress_test_globals period_data s e
    = Raise err.
Proof.
  destruct period_data as [|r l].
  - eexists. reflexivity.
  - eexists. apply StressFacts.create_summary_raises. discriminate.
Qed.

Lemma close_period_keeps (data : list StressRow) (s e mcd : Z)
    (found found' : list StressPeriod) :
  close_period stress_test_globals data s e mcd found = Ok found' ->
  found' = found.
Proof.
  unfold close_period. destruct (mcd <=? e - s + 1)%Z.
  - destruct (create_summary_never_returns (loc data s e) s e) as [err ->].
    discriminate.
  - now intros [= <-].
Qed.

Lemma scan_keeps (data rows : list StressRow) (mcd : Z) :
  forall (in_stress : bool) (start : option Z) (found : list StressPeriod)
         (in_stress' : bool) (start' : option Z) (found' : list StressPeriod),
    scan stress_test_globals data rows mcd in_stress start found
    = Ok (in_stress', start', found') ->
    found' = found.
Proof.
  induction rows as [|row rows IH]; intros i st found i' st' found' H.
  - cbn [scan] in H. now injection H as _ _ <-.
  - cbn [scan] in H.
    destruct (col_is_extreme row && negb i); [now apply IH in H|].
    destruct (negb (col_is_extreme row) && i); [|now apply IH in H].
    destruct st as [s|]; [|discriminate].
    destruct (close_period _ _ _ _ _ _) as [f|err] eqn:E; [|discriminate].
    apply close_period_keeps in E. subst f. now apply IH in H.
Qed.

(** X1.  [identify_stress_periods] never reports a period: whenever it
    returns, the list it returns and the list it stores are empty, whatever
    the series, the threshold and the minimum length. *)
Theorem identify_stress_periods_returns_nothing (self self' : Analyzer)
    (aligned_data : AlignedSeries) (thr : float) (mcd : Z)
    (found : list StressPeriod) :
  identify_stress_periods stress_test_globals self aligned_data thr mcd
  = Ok (found, self') ->
  found = [] /\ self_stress_periods self' = []
  /\ self_stress_results self' = self_stress_results self.
Proof.
  unfold identify_stress_periods. destruct aligned_data as [|p l];
    [discriminate|].
  set (data := with_extremes (p :: l) thr).
  destruct (scan stress_test_globals data data mcd false None [])
    as [[[i st] f]|err] eqn:E; cbn [bind]; [|discriminate].
  apply scan_keeps in E. subst f.
  destruct i, st as [s|]; cbn [bind].
  - destruct (close_period _ _ _ _ _ _) as [f|err] eqn:Ec; cbn [bind];
      [|discriminate].
    apply close_period_keeps in Ec. subst f.
    intros [= <- <-]. repeat split.
  - intros [= <- <-]. repeat split.
  - intros [= <- <-]. repeat split.
  - intros [= <- <-]. repeat split.
Qed.

Lemma identify_stress_periods_returns_nothing_witness :
  exists self',
    identify_stress_periods stress_test_globals new_analyzer
      Samples.steady_days 5 3 = Ok ([], self')
    /\ self_stress_periods self' = [].
Proof.
  eexists. split; [vm_compute; reflexivity|].
  exact (proj1 (proj2 (@identify_stress_periods_returns_nothing new_analyzer
                         _ Samples.steady_days 5 3 [] eq_refl))).
Defined.

(** X2.  On a series with at least one row and no extreme day the detector
    returns the empty list and stores it.  A day is extreme when the spot
    price has moved by more than the threshold, in percent, from the last
    price known before it. *)
Theorem identify_stress_periods_calm (self : Analyzer)
    (aligned_data : AlignedSeries) (thr : float) (mcd : Z) :
  aligned_data <> [] ->
  Forall (fun r => col_is_extreme r = false) (with_extremes aligned_data thr) ->
  identify_stress_periods stress_test_globals self aligned_data thr mcd
  = Ok ([], {| self_stress_periods := [];
               self_stress_results := self_stress_results self |}).
Proof.
  intros Hne Hcalm. unfold identify_stress_periods.
  destruct aligned_data as [|p l]; [congruence|].
  set (data := with_extremes (p :: l) thr) in *.
  pose proof (@StressFacts.scan_calm stress_test_globals data data [] mcd
                None [] Hcalm) as Hscan.
  rewrite app_nil_r in Hscan. rewrite Hscan. reflexivity.
Qed.

Lemma identify_stress_periods_calm_witness :
  Samples.steady_days <> []
  /\ Forall (fun r => col_is_extreme r = false)
       (with_extremes Samples.steady_days 5)
  /\ identify_stress_periods stress_test_globals new_analyzer
       Samples.steady_days 5 3 = Ok ([], new_analyzer).
Proof.
  assert (H1 : Samples.steady_days <> []) by discriminate.
  assert (H2 : Forall (fun r => col_is_extreme r = false)
                 (with_extremes Samples.steady_days 5))
    by (repeat constructor).
  split; [exact H1|]. split; [exact H2|].
  exact (@identify_stress_periods_calm new_analyzer Samples.steady_days 5 3
           H1 H2).
Defined.

(** A missing price is passed over, not a break: the day after it is
    compared with the last price known, so a move of 20 percent across the
    gap is an extreme day, and the run of one day reaches the summary. *)
Lemma gap_is_filled :
  Pd.pct_change [100; nan; 120] = [nan; 0; 120 / 100 - 1]
  /\ identify_stress_periods stress_test_globals new_analyzer
       [Samples.day 0 100 50; Samples.day 1 nan 50; Samples.day 2 120 50] 5 1
     = Raise (NameError "price_change_threshold").
Proof. split; vm_compute; reflexivity. Qed.

(** The first row has no previous price: it is never an extreme day. *)
Lemma first_day_not_extreme (p : PricePoint) (rest : AlignedSeries)
    (thr : float) :
  option_map col_is_extreme (hd_error (with_extremes (p :: rest) thr))
  = Some false.
Proof.
  unfold with_extremes. cbn [length seq combine map hd_error option_map
    Pd.pct_change nth fst col_is_extreme].
  f_equal. rewrite ltb_spec.
  replace (Prim2SF (abs (nan * 100))) with S754_nan by reflexivity.
  now destruct (Prim2SF thr) as [[]|[]| |[] m e].
Qed.

(** ** The runner *)

Lemma period_performance_none (data : list BacktestEngine.BacktestRecord) :
  forall perf, _calculate_period_performance data = Ok perf ->
               (perf = None <-> data = []).
Proof.
  intros perf H. destruct data as [|r l].
  - cbn in H. injection H as <-. split; reflexivity.
  - destruct (@StressFacts.period_performance_ok (r :: l)) as [x Hx];
      [discriminate|].
    rewrite Hx in H. injection H as <-. split; discriminate.
Qed.

(** [_test_specific_periods] never raises; a period has no performance
    exactly when it selects no row. *)
Lemma test_specific_periods_total
    (data : list BacktestEngine.BacktestRecord) (periods : list StressPeriod) :
  exists results,
    _test_specific_periods data periods = Ok (results, identified_periods_test)
    /\ Forall2 (fun p r => performance r = None <-> period_rows data p = [])
         periods results.
Proof.
  unfold _test_specific_periods. induction periods as [|p ps IH].
  - exists []. split; [reflexivity|constructor].
  - destruct IH as (results & Hres & Hall).
    destruct (StressFacts.period_performance_total (period_rows data p))
      as [perf Hperf].
    cbn [mapM]. rewrite Hperf. cbn [bind].
    destruct (mapM _ ps) as [rs|e]; cbn [bind] in Hres; [|discriminate].
    injection Hres as <-. eexists. split; [reflexivity|].
    constructor; [|assumption]. cbn [performance].
    now apply period_performance_none.
Qed.

Lemma normal_analysis_total (self : Analyzer)
    (data : list BacktestEngine.BacktestRecord) :
  exists normal, _get_normal_period_analysis self data = Ok normal.
Proof.
  unfold _get_normal_period_analysis.
  match goal with
  | |- context [_calculate_period_performance ?d] =>
      destruct (StressFacts.period_performance_total d) as [perf ->]
  end.
  eexists. reflexivity.
Qed.

Lemma mapM_get_key_raises (key : string) (results : list PeriodResult) :
  Exists (fun r => performance r = None) results ->
  mapM (get_key key) results = Raise (KeyError key).
Proof.
  induction results as [|r rs IH]; intros H; [inversion H|].
  cbn [mapM]. unfold get_key at 1.
  destruct (performance r) as [perf|] eqn:E; [|reflexivity].
  inversion H as [? ? Hr|? ? Hrs]; subst; [congruence|].
  rewrite (IH Hrs). reflexivity.
Qed.

(** X3.  A period that selects no row of the record set (one that lies
    outside it, say) is not skipped: with no custom period,
    [run_stress_test] raises KeyError on the key days when it sums up the
    periods it was given. *)
Theorem run_stress_test_empty_period (self : Analyzer)
    (bt : BacktestEngine.BacktestResult) (periods : list StressPeriod)
    (p : StressPeriod) :
  In p periods ->
  period_rows (BacktestEngine.data bt) p = [] ->
  run_stress_test stress_test_globals self (Some bt) (Some periods) None
  = Raise (KeyError "days").
Proof.
  intros Hin Hempty. unfold run_stress_test.
  destruct periods as [|p0 ps]; [contradiction|].
  destruct (test_specific_periods_total (BacktestEngine.data bt) (p0 :: ps))
    as (results & -> & Hall).
  cbn [bind fst snd].
  destruct (normal_analysis_total self (BacktestEngine.data bt))
    as [normal ->].
  cbn [bind].
  assert (Hex : Exists (fun r => performance r = None) results).
  { clear -Hin Hempty Hall. induction Hall as [|q r qs rs Hqr _ IH];
      [contradiction|].
    destruct Hin as [->|Hin].
    - left. now apply Hqr.
    - right. now apply IH. }
  unfold _calculate_stress_summary.
  destruct results as [|r rs]; [inversion Hex|].
  rewrite (mapM_get_key_raises "days" Hex). reflexivity.
Qed.

(** The sample backtest has eight rows; a period at positions 20 to 24 lies
    beyond them and makes the run fail, although the sample period before it
    selects five rows. *)
Lemma run_stress_test_empty_period_witness :
  exists bt,
    BacktestEngine.run_backtest Samples.stress_days 0.5 10
      BacktestEngine.SHORT_HEDGE 1 = Ok bt
    /\ In (Samples.period_at 20 24)
         [Samples.stress_period; Samples.period_at 20 24]
    /\ period_rows (BacktestEngine.data bt) (Samples.period_at 20 24) = []
    /\ run_stress_test stress_test_globals new_analyzer (Some bt)
         (Some [Samples.stress_period; Samples.period_at 20 24]) None
       = Raise (KeyError "days").
Proof.
  assert (Hbt : exists bt,
            BacktestEngine.run_backtest Samples.stress_days 0.5 10
              BacktestEngine.SHORT_HEDGE 1 = Ok bt)
    by (eexists; vm_compute; reflexivity).
  destruct Hbt as [bt Hbt]. exists bt. split; [exact Hbt|].
  assert (H1 : In (Samples.period_at 20 24)
                 [Samples.stress_period; Samples.period_at 20 24])
    by (right; left; reflexivity).
  assert (H2 : period_rows (BacktestEngine.data bt) (Samples.period_at 20 24)
               = []).
  { vm_compute in Hbt. injection Hbt as <-. vm_compute. reflexivity. }
  split; [exact H1|]. split; [exact H2|].
  exact (@run_stress_test_empty_period new_analyzer bt
           [Samples.stress_period; Samples.period_at 20 24]
           (Samples.period_at 20 24) H1 H2).
Defined.

(** X4.  A custom period wins over the periods passed and over the stored
    ones; when no row of the record set has its date inside it (an end date
    before the start date, say), [run_stress_test] raises the ValueError of
    [_test_custom_period] and nothing is scored. *)
Theorem run_stress_test_custom_period_without_rows (self : Analyzer)
    (bt : BacktestEngine.BacktestResult)
    (periods : option (list StressPeriod)) (start_date end_date : Z) :
  (forall r, In r (BacktestEngine.data bt) ->
     (date (BacktestEngine.point r) < start_date
      \/ end_date < date (BacktestEngine.point r))%Z) ->
  run_stress_test stress_test_globals self (Some bt) periods
    (Some (start_date, end_date))
  = Raise (ValueError NoDataInPeriod).
Proof.
  intros Hout. unfold run_stress_test, _test_custom_period. cbn [fst snd].
  assert (E : between_dates (BacktestEngine.data bt) start_date end_date = []).
  { unfold between_dates.
    induction (BacktestEngine.data bt) as [|r l IH]; [reflexivity|].
    cbn [filter].
    replace ((start_date <=? date (BacktestEngine.point r))%Z
             && (date (BacktestEngine.point r) <=? end_date)%Z) with false.
    - apply IH. intros r' Hr'. apply Hout. now right.
    - symmetry. apply andb_false_iff.
      destruct (Hout r (or_introl eq_refl)) as [H|H];
        [left; apply Z.leb_gt|right; apply Z.leb_gt]; exact H. }
  rewrite E. reflexivity.
Qed.

Lemma run_stress_test_custom_period_without_rows_witness :
  exists bt,
    BacktestEngine.run_backtest Samples.stress_days 0.5 10
      BacktestEngine.SHORT_HEDGE 1 = Ok bt
    /\ (forall r, In r (BacktestEngine.data bt) ->
          (date (BacktestEngine.point r) < 19006
           \/ 19002 < date (BacktestEngine.point r))%Z)
    /\ run_stress_test stress_test_globals new_analyzer (Some bt)
         (Some [Samples.stress_period]) (Some (19006, 19002)%Z)
       = Raise (ValueError NoDataInPeriod).
Proof.
  assert (Hbt : exists bt,
            BacktestEngine.run_backtest Samples.stress_days 0.5 10
              BacktestEngine.SHORT_HEDGE 1 = Ok bt)
    by (eexists; vm_compute; reflexivity).
  destruct Hbt as [bt Hbt]. exists bt. split; [exact Hbt|].
  assert (H : forall r, In r (BacktestEngine.data bt) ->
                (date (BacktestEngine.point r) < 19006
                 \/ 19002 < date (BacktestEngine.point r))%Z)
    by (intros r _; lia).
  split; [exact H|].
  exact (@run_stress_test_custom_period_without_rows new_analyzer bt
           (Some [Samples.stress_period]) 19006%Z 19002%Z H).
Defined.

(** What the detector stores when it returns is the empty list. *)
Lemma identify_stores_empty (self self' : Analyzer)
    (aligned_data : AlignedSeries) (thr : float) (mcd : Z)
    (found : list StressPeriod) :
  identify_stress_periods stress_test_globals self aligned_data thr mcd
  = Ok (found, self') ->
  self_stress_periods self' = [].
Proof.
  unfold identify_stress_periods. destruct aligned_data as [|p l];
    [discriminate|].
  set (data := with_extremes (p :: l) thr).
  destruct (scan stress_test_globals data data mcd false None [])
    as [[[i st] f]|err] eqn:E; cbn [bind]; [|discriminate].
  apply scan_keeps in E. subst f.
  destruct i, st as [s|]; cbn [bind];
    try (intros [= <- <-]; reflexivity).
  destruct (close_period _ _ _ _ _ _) as [f|err] eqn:Ec; cbn [bind];
    [|discriminate].
  apply close_period_keeps in Ec. subst f.
  intros [= <- <-]. reflexivity.
Qed.

Lemma normal_analysis_same_periods (self1 self2 : Analyzer)
    (data : list BacktestEngine.BacktestRecord) :
  self_stress_periods self1 = self_stress_periods self2 ->
  _get_normal_period_analysis self1 data
  = _get_normal_period_analysis self2 data.
Proof. unfold _get_normal_period_analysis. now intros ->. Qed.

(** X5.  Whatever is tested, the normal-period comparison comes from the
    analyzer alone: whenever [run_stress_test] returns, the comparison is
    [_get_normal_period_analysis] on the list of periods the analyzer held
    before the call, the call leaves that list as it was, and it stores the
    results it returns.  The periods and the custom period passed as
    arguments never enter the comparison. *)
Theorem run_stress_test_normal_comparison (self self' : Analyzer)
    (bt : BacktestEngine.BacktestResult)
    (periods : option (list StressPeriod)) (custom : option (Z * Z))
    (out : StressResults) :
  run_stress_test stress_test_globals self (Some bt) periods custom
  = Ok (out, self') ->
  _get_normal_period_analysis self (BacktestEngine.data bt)
  = Ok (normal_period_comparison out)
  /\ self_stress_periods self' = self_stress_periods self
  /\ self_stress_results self' = Some out.
Proof.
  unfold run_stress_test.
  set (data := BacktestEngine.data bt).
  assert (Hkept : forall tested,
    (normal_results <- _get_normal_period_analysis self data ;;
     summary <- _calculate_stress_summary (fst tested) normal_results ;;
     let stress_results :=
       {| stress_periods := fst tested;
          test_type := snd tested;
          normal_period_comparison := normal_results;
          summary := summary |} in
     Ok (stress_results,
         {| self_stress_periods := self_stress_periods self;
            self_stress_results := Some stress_results |}))%result
    = Ok (out, self') ->
    _get_normal_period_analysis self data = Ok (normal_period_comparison out)
    /\ self_stress_periods self' = self_stress_periods self
    /\ self_stress_results self' = Some out).
  { intros tested H.
    destruct (_get_normal_period_analysis self data) as [normal|e];
      cbn [bind] in H; [|discriminate].
    destruct (_calculate_stress_summary _ _) as [s|e]; cbn [bind] in H;
      [|discriminate].
    injection H as <- <-. repeat split. }
  assert (Hstored :
    ('(tested, self0) <-
       (self0 <-
          match self_stress_periods self with
          | [] =>
              '(_, self0) <-
                identify_stress_periods stress_test_globals self
                  (map BacktestEngine.point data) 5 3 ;;
              Ok self0
          | _ => Ok self
          end ;;
        tested <- _test_specific_periods data (self_stress_periods self0) ;;
        Ok (tested, self0)) ;;
     normal_results <- _get_normal_period_analysis self0 data ;;
     summary <- _calculate_stress_summary (fst tested) normal_results ;;
     let stress_results :=
       {| stress_periods := fst tested;
          test_type := snd tested;
          normal_period_comparison := normal_results;
          summary := summary |} in
     Ok (stress_results,
         {| self_stress_periods := self_stress_periods self0;
            self_stress_results := Some stress_results |}))%result
    = Ok (out, self') ->
    _get_normal_period_analysis self data = Ok (normal_period_comparison out)
    /\ self_stress_periods self' = self_stress_periods self
    /\ self_stress_results self' = Some out).
  { intros H.
    destruct (self_stress_periods self) as [|q qs] eqn:Eself.
    - destruct (identify_stress_periods _ _ _ _ _) as [[found self0]|e]
        eqn:Eid; cbn [bind] in H; [|discriminate].
      apply identify_stores_empty in Eid.
      destruct (_test_specific_periods data (self_stress_periods self0))
        as [tested|e]; cbn [bind] in H; [|discriminate].
      rewrite (@normal_analysis_same_periods self self0 data)
        by (rewrite Eself, Eid; reflexivity).
      destruct (_get_normal_period_analysis self0 data) as [normal|e];
        cbn [bind] in H; [|discriminate].
      destruct (_calculate_stress_summary _ _) as [s|e]; cbn [bind] in H;
        [|discriminate].
      injection H as <- <-. cbn [normal_period_comparison
        self_stress_periods self_stress_results]. rewrite Eid.
      repeat split.
    - cbn [bind self_stress_periods] in H.
      destruct (_test_specific_periods data _) as [tested|e];
        cbn [bind] in H; [|discriminate].
      destruct (_get_normal_period_analysis self data) as [normal|e];
        cbn [bind] in H; [|discriminate].
      destruct (_calculate_stress_summary _ _) as [s|e]; cbn [bind] in H;
        [|discriminate].
      injection H as <- <-. cbn [normal_period_comparison
        self_stress_periods self_stress_results]. rewrite Eself.
      repeat split. }
  destruct custom as [c|].
  - destruct (_test_custom_period data c) as [tested|e]; cbn [bind];
      [|discriminate].
    apply Hkept.
  - destruct periods as [[|p ps]|].
    + exact Hstored.
    + destruct (_test_specific_periods data (p :: ps)) as [tested|e];
        cbn [bind]; [|discriminate].
      apply Hkept.
    + exact Hstored.
Qed.

(** An analyzer that holds the sample period, asked to test the first two
    rows of the sample backtest: the comparison leaves out the five rows of
    the stored period, not the two rows tested. *)
Lemma run_stress_test_normal_comparison_witness :
  let self := {| self_stress_periods := [Samples.stress_period];
                 self_stress_results := None |} in
  exists bt out self',
    BacktestEngine.run_backtest Samples.stress_days 0.5 10
      BacktestEngine.SHORT_HEDGE 1 = Ok bt
    /\ run_stress_test stress_test_globals self (Some bt)
         (Some [Samples.period_at 0 1]) None = Ok (out, self')
    /\ _get_normal_period_analysis self (BacktestEngine.data bt)
       = Ok (normal_period_comparison out)
    /\ period_info (normal_period_comparison out) = NormalPeriod 3.
Proof.
  intros self.
  assert (Hbt : exists bt,
            BacktestEngine.run_backtest Samples.stress_days 0.5 10
              BacktestEngine.SHORT_HEDGE 1 = Ok bt)
    by (eexists; vm_compute; reflexivity).
  destruct Hbt as [bt Hbt]. exists bt.
  assert (Hrun : exists out self',
            run_stress_test stress_test_globals self (Some bt)
              (Some [Samples.period_at 0 1]) None = Ok (out, self')).
  { vm_compute in Hbt. injection Hbt as <-.
    eexists. eexists. vm_compute. reflexivity. }
  destruct Hrun as (out & self' & Hrun). exists out, self'.
  split; [exact Hbt|]. split; [exact Hrun|].
  pose proof (proj1 (@run_stress_test_normal_comparison self self' bt
                       (Some [Samples.period_at 0 1]) None out Hrun))
    as Hnormal.
  split; [exact Hnormal|].
  vm_compute in Hbt. injection Hbt as <-.
  match type of Hnormal with
  | ?run = _ =>
      assert (Hc : match run with
                   | Ok r => period_info r = NormalPeriod 3
                   | Raise _ => False
                   end) by (vm_compute; reflexivity)
  end.
  rewrite Hnormal in Hc. exact Hc.
Defined.

(** ** Dropping a period from the normal set *)

Section DropByLabel.

Variable A : Type.
Variable label : A -> Z.

Local Abbreviation kept labels :=
  (fun r => negb (existsb (Z.eqb (label r)) labels)).

Lemma filter_keeps_others (labels : list Z) (l : list A) :
  (forall r, In r l -> ~ In (label r) labels) ->
  filter (kept labels) l = l.
Proof.
  intros H. induction l as [|r l IH]; [reflexivity|].
  cbn [filter]. destruct (existsb (Z.eqb (label r)) labels) eqn:E.
  - apply existsb_exists in E. destruct E as (z & Hz & Heq).
    apply Z.eqb_eq in Heq. subst z.
    exfalso. exact (H r (or_introl eq_refl) Hz).
  - cbn [negb]. f_equal. apply IH. intros r' Hr'. apply H. now right.
Qed.

Lemma filter_drops_labelled (labels : list Z) (l : list A) :
  (forall r, In r l -> In (label r) labels) ->
  filter (kept labels) l = [].
Proof.
  intros H. induction l as [|r l IH]; [reflexivity|].
  cbn [filter]. destruct (existsb (Z.eqb (label r)) labels) eqn:E.
  - cbn [negb]. apply IH. intros r' Hr'. apply H. now right.
  - exfalso. apply not_true_iff_false in E. apply E, existsb_exists.
    exists (label r). split; [apply H; now left|apply Z.eqb_refl].
Qed.

Lemma NoDup_app_disjoint (m1 m2 : list Z) :
  NoDup (m1 ++ m2) -> forall z, In z m1 -> ~ In z m2.
Proof.
  induction m1 as [|y m1 IH]; intros Hnd z Hz Hz2; [contradiction|].
  cbn [app] in Hnd. apply NoDup_cons_iff in Hnd. destruct Hnd as [Hy Hnd].
  destruct Hz as [->|Hz]; [|exact (IH Hnd z Hz Hz2)].
  apply Hy, in_or_app. now right.
Qed.

Lemma filter_middle_labels (l1 l2 l3 : list A) :
  NoDup (map label (l1 ++ l2 ++ l3)) ->
  filter (kept (map label l2)) (l1 ++ l2 ++ l3) = l1 ++ l3.
Proof.
  intros Hnd. rewrite !filter_app. rewrite !map_app in Hnd.
  rewrite (@filter_drops_labelled (map label l2) l2)
    by (intros r Hr; now apply in_map).
  rewrite (@filter_keeps_others (map label l2) l1).
  - rewrite (@filter_keeps_others (map label l2) l3); [reflexivity|].
    intros r Hr Hin. apply NoDup_app_remove_l in Hnd.
    apply (@NoDup_app_disjoint _ _ Hnd _ Hin). now apply in_map.
  - intros r Hr Hin.
    apply (@NoDup_app_disjoint _ _ Hnd (label r)); [now apply in_map|].
    apply in_or_app. now left.
Qed.

End DropByLabel.

(** X6.  When the rows of the frame carry distinct labels, dropping a
    period from the normal set removes the rows at positions
    [start_index] to [end_index] of the frame as it stands, whatever their
    labels, and keeps every other row in order. *)
Theorem drop_period_positions (data : list BacktestEngine.BacktestRecord)
    (p : StressPeriod) :
  NoDup (map (fun r => index (BacktestEngine.point r)) data) ->
  (0 <= start_index p <= end_index p + 1)%Z ->
  drop_period data p
  = (firstn (Z.to_nat (start_index p)) data
     ++ skipn (Z.to_nat (end_index p + 1)) data)%list.
Proof.
  intros Hnd [Hs He]. unfold drop_period, iloc_slice, slice_bound.
  replace (start_index p <? 0)%Z with false by (symmetry; apply Z.ltb_ge; lia).
  replace (end_index p + 1 <? 0)%Z with false
    by (symmetry; apply Z.ltb_ge; lia).
  set (n := Z.of_nat (length data)).
  set (a := Z.to_nat (Z.min (start_index p) n)).
  set (b := Z.to_nat (Z.min (end_index p + 1) n)).
  replace (Z.to_nat (Z.min (end_index p + 1) n - Z.min (start_index p) n))
    with (b - a)%nat by (unfold a, b; lia).
  assert (Hab : (a <= b)%nat) by (unfold a, b; lia).
  assert (Hfirst : firstn (Z.to_nat (start_index p)) data = firstn a data).
  { unfold a. destruct (Z.le_gt_cases (start_index p) n) as [H|H].
    - now rewrite Z.min_l.
    - rewrite Z.min_r by lia. unfold n. rewrite Nat2Z.id.
      rewrite firstn_all. apply firstn_all2. lia. }
  assert (Hskip : skipn (Z.to_nat (end_index p + 1)) data = skipn b data).
  { unfold b. destruct (Z.le_gt_cases (end_index p + 1) n) as [H|H].
    - now rewrite Z.min_l.
    - rewrite Z.min_r by lia. unfold n. rewrite Nat2Z.id.
      rewrite skipn_all. apply skipn_all2. lia. }
  rewrite Hfirst, Hskip.
  assert (Hsplit : data
    = (firstn a data ++ firstn (b - a) (skipn a data) ++ skipn b data)%list).
  { rewrite <- (firstn_skipn a data) at 1. f_equal.
    rewrite <- (firstn_skipn (b - a) (skipn a data)) at 1. f_equal.
    rewrite skipn_skipn. f_equal. lia. }
  rewrite Hsplit in Hnd.
  set (pre := firstn a data) in *.
  set (mid := firstn (b - a) (skipn a data)) in *.
  set (post := skipn b data) in *.
  rewrite Hsplit.
  exact (@filter_middle_labels _ (fun r => index (BacktestEngine.point r))
           pre mid post Hnd).
Qed.

Lemma drop_period_positions_witness :
  exists bt,
    BacktestEngine.run_backtest Samples.stress_days 0.5 10
      BacktestEngine.SHORT_HEDGE 1 = Ok bt
    /\ NoDup (map (fun r => index (BacktestEngine.point r))
                (BacktestEngine.data bt))
    /\ (0 <= start_index Samples.stress_period
           <= end_index Samples.stress_period + 1)%Z
    /\ map (fun r => index (BacktestEngine.point r))
         (drop_period (BacktestEngine.data bt) Samples.stress_period)
       = [1; 2; 8]%Z.
Proof.
  assert (Hbt : exists bt,
            BacktestEngine.run_backtest Samples.stress_days 0.5 10
              BacktestEngine.SHORT_HEDGE 1 = Ok bt)
    by (eexists; vm_compute; reflexivity).
  destruct Hbt as [bt Hbt]. exists bt. split; [exact Hbt|].
  assert (H1 : NoDup (map (fun r => index (BacktestEngine.point r))
                        (BacktestEngine.data bt))).
  { vm_compute in Hbt. injection Hbt as <-. cbn.
    repeat (constructor; [cbn; intuition discriminate|]). constructor. }
  assert (H2 : (0 <= start_index Samples.stress_period
                <= end_index Samples.stress_period + 1)%Z) by (cbn; lia).
  split; [exact H1|]. split; [exact H2|].
  rewrite (@drop_period_positions (BacktestEngine.data bt)
             Samples.stress_period H1 H2).
  vm_compute in Hbt. injection Hbt as <-. reflexivity.
Defined.

(** ** A run without periods *)

(** X22.  On an analyzer that holds no period, [run_stress_test] without
    a list of periods (or with an empty one) and without a custom period
    runs the detector and then scores nothing: whenever it returns, the
    list of scored periods is empty, there is no summary, and the analyzer
    still holds no period. *)
Theorem run_stress_test_without_periods (self self' : Analyzer)
    (bt : BacktestEngine.BacktestResult)
    (periods : option (list StressPeriod)) (out : StressResults) :
  self_stress_periods self = [] ->
  periods = None \/ periods = Some [] ->
  run_stress_test stress_test_globals self (Some bt) periods None
  = Ok (out, self') ->
  stress_periods out = []
  /\ summary out = None
  /\ test_type out = identified_periods_test
  /\ self_stress_periods self' = [].
Proof.
  intros Hself Hperiods. unfold run_stress_test.
  assert (Hbranch :
    ('(tested, self0) <-
       (self0 <-
          match self_stress_periods self with
          | [] =>
              '(_, self0) <-
                identify_stress_periods stress_test_globals self
                  (map BacktestEngine.point (BacktestEngine.data bt)) 5 3 ;;
              Ok self0
          | _ => Ok self
          end ;;
        tested <- _test_specific_periods (BacktestEngine.data bt)
                    (self_stress_periods self0) ;;
        Ok (tested, self0)) ;;
     normal_results <-
       _get_normal_period_analysis self0 (BacktestEngine.data bt) ;;
     summary <- _calculate_stress_summary (fst tested) normal_results ;;
     let stress_results :=
       {| stress_periods := fst tested;
          test_type := snd tested;
          normal_period_comparison := normal_results;
          summary := summary |} in
     Ok (stress_results,
         {| self_stress_periods := self_stress_periods self0;
            self_stress_results := Some stress_results |}))%result
    = Ok (out, self') ->
    stress_periods out = [] /\ summary out = None
    /\ test_type out = identified_periods_test
    /\ self_stress_periods self' = []).
  { rewrite Hself.
    destruct (identify_stress_periods _ _ _ _ _) as [[found self0]|e]
      eqn:Eid; cbn [bind]; [|discriminate].
    apply identify_stores_empty in Eid. rewrite Eid.
    cbn [_test_specific_periods mapM bind fst snd].
    destruct (_get_normal_period_analysis self0 (BacktestEngine.data bt))
      as [normal|e]; cbn [bind _calculate_stress_summary]; [|discriminate].
    intros [= <- <-]. cbn [stress_periods summary test_type
      self_stress_periods]. repeat split. exact Eid. }
  destruct Hperiods as [->| ->]; exact Hbranch.
Qed.

Lemma run_stress_test_without_periods_witness :
  exists bt out self',
    BacktestEngine.run_backtest Samples.steady_days 0.5 10
      BacktestEngine.SHORT_HEDGE 1 = Ok bt
    /\ run_stress_test stress_test_globals new_analyzer (Some bt) None None
       = Ok (out, self')
    /\ stress_periods out = []
    /\ summary out = None.
Proof.
  assert (Hbt : exists bt,
            BacktestEngine.run_backtest Samples.steady_days 0.5 10
              BacktestEngine.SHORT_HEDGE 1 = Ok bt)
    by (eexists; vm_compute; reflexivity).
  destruct Hbt as [bt Hbt]. exists bt.
  assert (Hrun : exists out self',
            run_stress_test stress_test_globals new_analyzer (Some bt)
              None None = Ok (out, self')).
  { vm_compute in Hbt. injection Hbt as <-.
    eexists. eexists. vm_compute. reflexivity. }
  destruct Hrun as (out & self' & Hrun). exists out, self'.
  split; [exact Hbt|]. split; [exact Hrun|].
  destruct (@run_stress_test_without_periods new_analyzer self' bt None out
              eq_refl (or_introl eq_refl) Hrun) as (H1 & H2 & _).
  split; [exact H1|exact H2].
Defined.

End StressEdgeFacts.

(** ** backtest_engine.py: the result of a backtest and the queries on it *)

Module BacktestEdgeFacts.

Import BacktestEngine.
Open Scope float_scope.

Lemma fold_min_le (l : list Z) :
  forall d, (fold_left Z.min l d <= d)%Z
            /\ forall x, In x l -> (fold_left Z.min l d <= x)%Z.
Proof.
  induction l as [|y l IH]; intros d; cbn [fold_left].
  - split; [lia|contradiction].
  - destruct (IH (Z.min d y)) as [H1 H2]. split; [lia|].
    intros x [<-|Hx]; [lia|now apply H2].
Qed.

Lemma fold_max_ge (l : list Z) :
  forall d, (d <= fold_left Z.max l d)%Z
            /\ forall x, In x l -> (x <= fold_left Z.max l d)%Z.
Proof.
  induction l as [|y l IH]; intros d; cbn [fold_left].
  - split; [lia|contradiction].
  - destruct (IH (Z.max d y)) as [H1 H2]. split; [lia|].
    intros x [<-|Hx]; [lia|now apply H2].
Qed.

(** What [_calculate_performance_metrics] puts in the dictionary it returns.
    It returns on a frame with rows only: the percentile of an empty column
    raises. *)
Lemma performance_metrics_fields (data : list BacktestRecord)
    (dir : HedgeDirection) (q fq : float) (m : PerformanceMetrics) :
  _calculate_performance_metrics data dir q fq = Ok m ->
  data <> []
  /\ total_days m = length data
  /\ total_hedged_pnl m = Pd.sum (map total_pnl data)
  /\ total_unhedged_pnl m = Pd.sum (map unhedged_pnl data)
  /\ total_spot_pnl m = Pd.sum (map spot_pnl data)
  /\ avg_daily_hedged_pnl m = Pd.mean (map total_pnl data)
  /\ avg_daily_unhedged_pnl m = Pd.mean (map unhedged_pnl data)
  /\ hedged_volatility m = Pd.std (map total_pnl data)
  /\ unhedged_volatility m = Pd.std (map unhedged_pnl data)
  /\ max_daily_loss_hedged m = Pd.min (map total_pnl data)
  /\ max_daily_loss_unhedged m = Pd.min (map unhedged_pnl data)
  /\ profitable_days_hedged m = Pd.count_positive (map total_pnl data)
  /\ profitable_days_unhedged m = Pd.count_positive (map unhedged_pnl data)
  /\ sharpe_ratio_hedged m
     = sharpe_ratio (Pd.mean (map total_pnl data))
         (Pd.std (map total_pnl data))
  /\ sharpe_ratio_unhedged m
     = sharpe_ratio (Pd.mean (map unhedged_pnl data))
         (Pd.std (map unhedged_pnl data))
  /\ hedging_effectiveness m
     = (Pd.var (map unhedged_pnl data) - Pd.var (map total_pnl data))
       / Pd.var (map unhedged_pnl data)
  /\ date_min (map (fun r => date (point r)) data) = Some (start_date m)
  /\ date_max (map (fun r => date (point r)) data) = Some (end_date m).
Proof.
  unfold _calculate_performance_metrics. intros H.
  destruct data as [|r data]; [discriminate|].
  split; [discriminate|].
  destruct (Np.percentile (map total_pnl (r :: data)) 5) as [v1|e];
    cbn [bind] in H; [|discriminate].
  destruct (Np.percentile (map unhedged_pnl (r :: data)) 5) as [v2|e];
    cbn [bind] in H; [|discriminate].
  cbn [map date_min date_max strftime bind] in H.
  injection H as <-. cbn. repeat split.
Qed.

(** What [run_backtest] returns: the rows that survive [dropna], at least
    one of them, and their metrics. *)
Lemma run_backtest_returns (aligned_data : AlignedSeries) (h q cs : float)
    (dir : HedgeDirection) (bt : BacktestResult) :
  run_backtest aligned_data h q dir cs = Ok bt ->
  data bt = dropna (backtest_columns aligned_data h q dir)
  /\ _calculate_performance_metrics (data bt) dir q (q * h)
     = Ok (performance_metrics bt).
Proof.
  unfold run_backtest. destruct aligned_data as [|p rest]; [discriminate|].
  destruct (_calculate_performance_metrics _ dir q (q * h)) as [m|e] eqn:E;
    cbn [bind]; [|discriminate].
  intros [= <-]. cbn [data performance_metrics]. split; [reflexivity|exact E].
Qed.

Lemma filter_all {A : Type} (f : A -> bool) (l : list A) :
  (forall x, In x l -> f x = true) -> filter f l = l.
Proof.
  intros H. induction l as [|x l IH]; [reflexivity|].
  cbn [filter]. rewrite (H x (or_introl eq_refl)). f_equal.
  apply IH. intros y Hy. apply H. now right.
Qed.

(** X7.  After a backtest, the period from the [start_date] to the
    [end_date] of its metrics is the whole backtest: [get_period_analysis]
    returns every record, and its day count, totals, averages, volatilities,
    largest daily losses and counts of profitable days are those of the
    performance metrics. *)
Theorem period_analysis_of_whole_backtest (self eng : BacktestQueries.Engine)
    (aligned_data : AlignedSeries) (h q cs : float) (dir : HedgeDirection)
    (bt : BacktestResult) :
  BacktestQueries.run_backtest_method self aligned_data h q dir cs
  = Ok (bt, eng) ->
  let m := performance_metrics bt in
  exists pa,
    BacktestQueries.get_period_analysis eng (start_date m) (end_date m)
    = Ok pa
    /\ BacktestQueries.period_data pa = data bt
    /\ let pm := BacktestQueries.period_metrics pa in
       BacktestQueries.days pm = total_days m
       /\ BacktestQueries.total_hedged_pnl pm = total_hedged_pnl m
       /\ BacktestQueries.total_unhedged_pnl pm = total_unhedged_pnl m
       /\ BacktestQueries.avg_daily_hedged_pnl pm = avg_daily_hedged_pnl m
       /\ BacktestQueries.avg_daily_unhedged_pnl pm = avg_daily_unhedged_pnl m
       /\ BacktestQueries.hedged_volatility pm = hedged_volatility m
       /\ BacktestQueries.unhedged_volatility pm = unhedged_volatility m
       /\ BacktestQueries.max_daily_loss_hedged pm = max_daily_loss_hedged m
       /\ BacktestQueries.max_daily_loss_unhedged pm
          = max_daily_loss_unhedged m
       /\ BacktestQueries.profitable_days_hedged pm
          = profitable_days_hedged m
       /\ BacktestQueries.profitable_days_unhedged pm
          = profitable_days_unhedged m.
Proof.
  unfold BacktestQueries.run_backtest_method.
  destruct (run_backtest aligned_data h q dir cs) as [res|e] eqn:Hrun;
    cbn [bind]; [|discriminate].
  intros [= <- <-]. set (m := performance_metrics res).
  apply run_backtest_returns in Hrun as [_ Hm].
  apply performance_metrics_fields in Hm.
  destruct Hm as (Hne & Hdays & Hth & Htu & _ & Hah & Hau & Hvh & Hvu & Hlh
                  & Hlu & Hph & Hpu & _ & _ & _ & Hmin & Hmax).
  fold m in Hdays, Hth, Htu, Hah, Hau, Hvh, Hvu, Hlh, Hlu, Hph, Hpu, Hmin,
    Hmax.
  unfold BacktestQueries.get_period_analysis.
  cbn [BacktestQueries.backtest_results].
  assert (Hall : filter
            (fun r => (start_date m <=? date (point r))%Z
                      && (date (point r) <=? end_date m)%Z) (data res)
          = data res).
  { apply filter_all. intros r Hr.
    assert (Hd : In (date (point r))
                   (map (fun r => date (point r)) (data res)))
      by (apply in_map_iff; now exists r).
    destruct (map (fun r => date (point r)) (data res)) as [|d ds];
      [contradiction|].
    cbn [date_min date_max] in Hmin, Hmax.
    injection Hmin as Hmin. injection Hmax as Hmax.
    destruct (fold_min_le ds d) as [Hm1 Hm2].
    destruct (fold_max_ge ds d) as [HM1 HM2].
    apply andb_true_iff. split; apply Z.leb_le.
    - rewrite <- Hmin. destruct Hd as [<-|Hd]; [exact Hm1|now apply Hm2].
    - rewrite <- Hmax. destruct Hd as [<-|Hd]; [exact HM1|now apply HM2]. }
  rewrite Hall. destruct (data res) as [|r0 rows] eqn:Hdata; [congruence|].
  eexists. split; [reflexivity|].
  cbn [BacktestQueries.period_data BacktestQueries.period_metrics
       BacktestQueries.days BacktestQueries.total_hedged_pnl
       BacktestQueries.total_unhedged_pnl BacktestQueries.avg_daily_hedged_pnl
       BacktestQueries.avg_daily_unhedged_pnl
       BacktestQueries.hedged_volatility BacktestQueries.unhedged_volatility
       BacktestQueries.max_daily_loss_hedged
       BacktestQueries.max_daily_loss_unhedged
       BacktestQueries.profitable_days_hedged
       BacktestQueries.profitable_days_unhedged].
  repeat split; symmetry; assumption.
Qed.

Lemma period_analysis_of_whole_backtest_witness :
  exists bt eng pa,
    BacktestQueries.run_backtest_method BacktestQueries.new_engine
      Samples.four_days 0.5 10 SHORT_HEDGE 1 = Ok (bt, eng)
    /\ BacktestQueries.get_period_analysis eng 19001 19003 = Ok pa
    /\ BacktestQueries.period_data pa = data bt
    /\ BacktestQueries.days (BacktestQueries.period_metrics pa) = 3%nat.
Proof.
  assert (Hrun : exists bt eng,
            BacktestQueries.run_backtest_method BacktestQueries.new_engine
              Samples.four_days 0.5 10 SHORT_HEDGE 1 = Ok (bt, eng))
    by (eexists; eexists; vm_compute; reflexivity).
  destruct Hrun as (bt & eng & Hrun).
  destruct (@period_analysis_of_whole_backtest BacktestQueries.new_engine eng
              Samples.four_days 0.5 10 1 SHORT_HEDGE bt Hrun)
    as (pa & Hpa & Hdata & Hdays & _).
  exists bt, eng, pa. split; [exact Hrun|].
  vm_compute in Hrun. injection Hrun as <- <-.
  split; [exact Hpa|]. split; [exact Hdata|]. exact Hdays.
Defined.

(** X8.  [get_period_analysis] never returns an empty period: when no
    record has its date between the two dates (an end date before the start
    date, say) it raises ValueError, and it raises ValueError before that
    when no backtest has been run. *)
Theorem period_analysis_without_rows (self : BacktestQueries.Engine)
    (start end_ : Z) :
  (forall bt r, BacktestQueries.backtest_results self = Some bt ->
     In r (data bt) ->
     (date (point r) < start \/ end_ < date (point r))%Z) ->
  BacktestQueries.get_period_analysis self start end_
  = Raise (ValueError
             match BacktestQueries.backtest_results self with
             | None => BacktestNotRun
             | Some _ => NoDataInPeriod
             end).
Proof.
  intros Hout. unfold BacktestQueries.get_period_analysis.
  destruct (BacktestQueries.backtest_results self) as [bt|]; [|reflexivity].
  assert (E : filter (fun r => (start <=? date (point r))%Z
                               && (date (point r) <=? end_)%Z) (data bt)
              = []).
  { specialize (Hout bt).
    induction (data bt) as [|r l IH]; [reflexivity|].
    cbn [filter].
    replace ((start <=? date (point r))%Z && (date (point r) <=? end_)%Z)
      with false.
    - apply IH. intros r' E' Hr'. apply Hout; [exact E'|now right].
    - symmetry. apply andb_false_iff.
      destruct (Hout r eq_refl (or_introl eq_refl)) as [H|H];
        [left; apply Z.leb_gt|right; apply Z.leb_gt]; exact H. }
  rewrite E. reflexivity.
Qed.

Lemma period_analysis_without_rows_witness :
  exists bt eng,
    BacktestQueries.run_backtest_method BacktestQueries.new_engine
      Samples.four_days 0.5 10 SHORT_HEDGE 1 = Ok (bt, eng)
    /\ (forall bt r, BacktestQueries.backtest_results eng = Some bt ->
          In r (data bt) ->
          (date (point r) < 19003 \/ 19001 < date (point r))%Z)
    /\ BacktestQueries.get_period_analysis eng 19003 19001
       = Raise (ValueError NoDataInPeriod).
Proof.
  assert (Hrun : exists bt eng,
            BacktestQueries.run_backtest_method BacktestQueries.new_engine
              Samples.four_days 0.5 10 SHORT_HEDGE 1 = Ok (bt, eng))
    by (eexists; eexists; vm_compute; reflexivity).
  destruct Hrun as (bt & eng & Hrun). exists bt, eng.
  split; [exact Hrun|].
  assert (H : forall bt r, BacktestQueries.backtest_results eng = Some bt ->
                In r (data bt) ->
                (date (point r) < 19003 \/ 19001 < date (point r))%Z)
    by (intros ? r _ _; lia).
  split; [exact H|].
  pose proof (@period_analysis_without_rows eng 19003%Z 19001%Z H) as Hraise.
  vm_compute in Hrun. injection Hrun as _ <-. exact Hraise.
Defined.

(** ** The unhedged leg *)

Lemma backtest_columns_unhedged (aligned_data : AlignedSeries) (h q : float)
    (dir : HedgeDirection) (r : BacktestRecord) :
  In r (backtest_columns aligned_data h q dir) ->
  unhedged_pnl r = spot_pnl r
  /\ unhedged_pnl_cumulative r = spot_pnl_cumulative r.
Proof.
  unfold backtest_columns. intros H.
  apply in_map_iff in H as [[k p] [<- _]].
  cbn [unhedged_pnl spot_pnl unhedged_pnl_cumulative spot_pnl_cumulative].
  destruct dir; split; reflexivity.
Qed.

(** X9.  In every backtest the unhedged result is the spot leg of the
    hedged one: on each record [unhedged_pnl] is [spot_pnl] and the two
    running totals agree, and in the metrics the total unhedged result is
    the total spot result. *)
Theorem run_backtest_unhedged_is_spot_leg (aligned_data : AlignedSeries)
    (h q cs : float) (dir : HedgeDirection) (bt : BacktestResult) :
  run_backtest aligned_data h q dir cs = Ok bt ->
  Forall (fun r => unhedged_pnl r = spot_pnl r
                   /\ unhedged_pnl_cumulative r = spot_pnl_cumulative r)
    (data bt)
  /\ total_unhedged_pnl (performance_metrics bt)
     = total_spot_pnl (performance_metrics bt).
Proof.
  intros Hrun. apply run_backtest_returns in Hrun as [Hdata Hm].
  assert (Hrows : Forall (fun r => unhedged_pnl r = spot_pnl r
                     /\ unhedged_pnl_cumulative r = spot_pnl_cumulative r)
                    (data bt)).
  { apply Forall_forall. intros r Hr. rewrite Hdata in Hr.
    apply filter_In in Hr as [Hr _].
    exact (@backtest_columns_unhedged aligned_data h q dir r Hr). }
  split; [exact Hrows|].
  apply performance_metrics_fields in Hm.
  destruct Hm as (_ & _ & _ & -> & -> & _).
  f_equal. apply map_ext_in. intros r Hr.
  rewrite Forall_forall in Hrows. exact (proj1 (Hrows r Hr)).
Qed.

Lemma run_backtest_unhedged_is_spot_leg_witness :
  exists bt,
    run_backtest Samples.four_days 0.5 10 LONG_HEDGE 1 = Ok bt
    /\ total_unhedged_pnl (performance_metrics bt)
       = total_spot_pnl (performance_metrics bt).
Proof.
  assert (Hrun : exists bt,
            run_backtest Samples.four_days 0.5 10 LONG_HEDGE 1 = Ok bt)
    by (eexists; vm_compute; reflexivity).
  destruct Hrun as (bt & Hrun). exists bt. split; [exact Hrun|].
  exact (proj2 (@run_backtest_unhedged_is_spot_leg Samples.four_days
                  0.5 10 1 LONG_HEDGE bt Hrun)).
Defined.

(** ** Short backtests *)

Lemma var_of_one (xs : list float) : length xs = 1%nat -> Pd.var xs = nan.
Proof.
  intros H. unfold Pd.var, Pd.count, Pd.notna.
  pose proof (filter_length_le (fun x => negb (is_nan x)) xs) as Hle.
  replace (length (filter (fun x => negb (is_nan x)) xs) <=? 1)%nat
    with true; [reflexivity|].
  symmetry. apply Nat.leb_le. lia.
Qed.

(** X10.  A backtest that keeps one record (two days of prices) has no
    spread to measure: both volatilities are NaN, both Sharpe ratios are 0
    and the hedging effectiveness is NaN. *)
Theorem run_backtest_one_record (aligned_data : AlignedSeries)
    (h q cs : float) (dir : HedgeDirection) (bt : BacktestResult) :
  run_backtest aligned_data h q dir cs = Ok bt ->
  length (data bt) = 1%nat ->
  let m := performance_metrics bt in
  is_nan (hedged_volatility m) = true
  /\ is_nan (unhedged_volatility m) = true
  /\ sharpe_ratio_hedged m = 0
  /\ sharpe_ratio_unhedged m = 0
  /\ is_nan (hedging_effectiveness m) = true
  /\ total_days m = 1%nat.
Proof.
  intros Hrun Hone m. apply run_backtest_returns in Hrun as [_ Hm].
  apply performance_metrics_fields in Hm. fold m in Hm.
  destruct Hm as (_ & Hdays & _ & _ & _ & _ & _ & Hvh & Hvu & _ & _ & _ & _
                  & Hsh & Hsu & Heff & _).
  rewrite Hvh, Hvu, Hsh, Hsu, Heff, Hdays. unfold Pd.std.
  rewrite !var_of_one by (rewrite length_map; exact Hone).
  unfold sharpe_ratio. repeat split; try reflexivity. exact Hone.
Qed.

Lemma run_backtest_one_record_witness :
  exists bt,
    run_backtest [Samples.day 0 100 50; Samples.day 1 105 54] 0.5 10
      SHORT_HEDGE 1 = Ok bt
    /\ length (data bt) = 1%nat
    /\ is_nan (hedged_volatility (performance_metrics bt)) = true
    /\ sharpe_ratio_hedged (performance_metrics bt) = 0.
Proof.
  assert (Hrun : exists bt,
            run_backtest [Samples.day 0 100 50; Samples.day 1 105 54] 0.5 10
              SHORT_HEDGE 1 = Ok bt)
    by (eexists; vm_compute; reflexivity).
  destruct Hrun as (bt & Hrun). exists bt. split; [exact Hrun|].
  assert (Hone : length (data bt) = 1%nat).
  { vm_compute in Hrun. injection Hrun as <-. reflexivity. }
  split; [exact Hone|].
  destruct (@run_backtest_one_record _ 0.5 10 1 SHORT_HEDGE bt Hrun Hone)
    as (H1 & _ & H3 & _).
  split; [exact H1|exact H3].
Defined.

(** X11.  The first day has no change and is never scored: a backtest
    that returns keeps at least one record and fewer records than there are
    days, [total_days] counts them, and every record is a day after the
    first. *)
Theorem run_backtest_record_count (aligned_data : AlignedSeries)
    (h q cs : float) (dir : HedgeDirection) (bt : BacktestResult) :
  run_backtest aligned_data h q dir cs = Ok bt ->
  total_days (performance_metrics bt) = length (data bt)
  /\ (1 <= length (data bt) < length aligned_data)%nat
  /\ incl (map point (data bt)) (tl aligned_data).
Proof.
  intros Hrun. apply run_backtest_returns in Hrun as [Hdata Hm].
  apply performance_metrics_fields in Hm.
  destruct Hm as (Hne & Hdays & _).
  split; [exact Hdays|]. split.
  - split; [destruct (data bt); [congruence|cbn; lia]|].
    rewrite Hdata. destruct aligned_data as [|p rest].
    + rewrite Hdata in Hne. now contradiction Hne.
    + destruct (BacktestFacts.first_row_missing p rest h q dir)
        as (c0 & cols & -> & Hlen & Hsp & _).
      unfold dropna. cbn [filter].
      rewrite (BacktestFacts.row_has_nan_spot_pnl _ Hsp). cbn [negb length].
      pose proof (filter_length_le (fun r => negb (row_has_nan r)) cols).
      lia.
  - intros pt Hpt. apply in_map_iff in Hpt as (r & <- & Hr).
    rewrite Hdata in Hr.
    apply BacktestFacts.retained_row_changes in Hr
      as (k & prev & _ & Hk & _).
    destruct aligned_data as [|p rest]; [destruct k; discriminate|].
    cbn [tl]. cbn [nth_error] in Hk. now apply nth_error_In in Hk.
Qed.

Lemma run_backtest_record_count_witness :
  exists bt,
    run_backtest Samples.four_days 0.5 10 SHORT_HEDGE 1 = Ok bt
    /\ total_days (performance_metrics bt) = 3%nat.
Proof.
  assert (Hrun : exists bt,
            run_backtest Samples.four_days 0.5 10 SHORT_HEDGE 1 = Ok bt)
    by (eexists; vm_compute; reflexivity).
  destruct Hrun as (bt & Hrun). exists bt. split; [exact Hrun|].
  rewrite (proj1 (@run_backtest_record_count Samples.four_days 0.5 10 1
                    SHORT_HEDGE bt Hrun)).
  vm_compute in Hrun. injection Hrun as <-. reflexivity.
Defined.

(** ** The stress analyzer on the whole record set *)

(** Every figure of the engine's metrics, read on the columns. *)
Lemma performance_metrics_all (data : list BacktestRecord)
    (dir : HedgeDirection) (q fq : float) (m : PerformanceMetrics) :
  _calculate_performance_metrics data dir q fq = Ok m ->
  data <> []
  /\ Np.percentile (map total_pnl data) 5 = Ok (var_95_hedged m)
  /\ Np.percentile (map unhedged_pnl data) 5 = Ok (var_95_unhedged m)
  /\ total_days m = length data
  /\ total_hedged_pnl m = Pd.sum (map total_pnl data)
  /\ total_unhedged_pnl m = Pd.sum (map unhedged_pnl data)
  /\ total_spot_pnl m = Pd.sum (map spot_pnl data)
  /\ total_future_pnl m = Pd.sum (map future_pnl data)
  /\ avg_daily_hedged_pnl m = Pd.mean (map total_pnl data)
  /\ avg_daily_unhedged_pnl m = Pd.mean (map unhedged_pnl data)
  /\ hedged_volatility m = Pd.std (map total_pnl data)
  /\ unhedged_volatility m = Pd.std (map unhedged_pnl data)
  /\ max_daily_loss_hedged m = Pd.min (map total_pnl data)
  /\ max_daily_loss_unhedged m = Pd.min (map unhedged_pnl data)
  /\ profitable_days_hedged m = Pd.count_positive (map total_pnl data)
  /\ profitable_days_unhedged m = Pd.count_positive (map unhedged_pnl data)
  /\ profitable_days_ratio_hedged m
     = Py.float_of_nat (Pd.count_positive (map total_pnl data))
       / Py.float_of_nat (length data)
  /\ profitable_days_ratio_unhedged m
     = Py.float_of_nat (Pd.count_positive (map unhedged_pnl data))
       / Py.float_of_nat (length data)
  /\ max_drawdown_hedged m
     = _calculate_max_drawdown (map total_pnl_cumulative data)
  /\ max_drawdown_unhedged m
     = _calculate_max_drawdown (map unhedged_pnl_cumulative data)
  /\ volatility_reduction_rate m
     = (Pd.std (map unhedged_pnl data) - Pd.std (map total_pnl data))
       / Pd.std (map unhedged_pnl data).
Proof.
  unfold _calculate_performance_metrics. intros H.
  assert (Hne : data <> []) by (intros ->; discriminate).
  split; [exact Hne|].
  destruct (Np.percentile (map total_pnl data) 5) as [v1|e];
    cbn [bind] in H; [|discriminate].
  destruct (Np.percentile (map unhedged_pnl data) 5) as [v2|e];
    cbn [bind] in H; [|discriminate].
  destruct (strftime (date_min _)) as [d1|e]; cbn [bind] in H;
    [|discriminate].
  destruct (strftime (date_max _)) as [d2|e]; cbn [bind] in H;
    [|discriminate].
  injection H as <-.
  cbn [var_95_hedged var_95_unhedged total_days total_hedged_pnl
       total_unhedged_pnl total_spot_pnl total_future_pnl
       avg_daily_hedged_pnl avg_daily_unhedged_pnl hedged_volatility
       unhedged_volatility max_daily_loss_hedged max_daily_loss_unhedged
       profitable_days_hedged profitable_days_unhedged
       profitable_days_ratio_hedged profitable_days_ratio_unhedged
       max_drawdown_hedged max_drawdown_unhedged volatility_reduction_rate].
  repeat split.
Qed.

(** The figures of the analyzer's period performance, read on the columns
    of a slice with rows. *)
Lemma period_performance_fields (data : list BacktestRecord)
    (perf : StressTestAnalyzer.PeriodPerformance) :
  StressTestAnalyzer._calculate_period_performance data = Ok (Some perf) ->
  Np.percentile (map total_pnl data) 5
  = Ok (StressTestAnalyzer.var_95_hedged perf)
  /\ Np.percentile (map unhedged_pnl data) 5
     = Ok (StressTestAnalyzer.var_95_unhedged perf)
  /\ StressTestAnalyzer.days perf = length data
  /\ StressTestAnalyzer.total_hedged_pnl perf = Pd.sum (map total_pnl data)
  /\ StressTestAnalyzer.total_unhedged_pnl perf
     = Pd.sum (map unhedged_pnl data)
  /\ StressTestAnalyzer.total_spot_pnl perf = Pd.sum (map spot_pnl data)
  /\ StressTestAnalyzer.total_future_pnl perf
     = Pd.sum (map future_pnl data)
  /\ StressTestAnalyzer.avg_daily_hedged_pnl perf
     = Pd.mean (map total_pnl data)
  /\ StressTestAnalyzer.avg_daily_unhedged_pnl perf
     = Pd.mean (map unhedged_pnl data)
  /\ StressTestAnalyzer.hedged_volatility perf = Pd.std (map total_pnl data)
  /\ StressTestAnalyzer.unhedged_volatility perf
     = Pd.std (map unhedged_pnl data)
  /\ StressTestAnalyzer.max_daily_loss_hedged perf
     = Pd.min (map total_pnl data)
  /\ StressTestAnalyzer.max_daily_loss_unhedged perf
     = Pd.min (map unhedged_pnl data)
  /\ StressTestAnalyzer.profitable_days_hedged perf
     = Pd.count_positive (map total_pnl data)
  /\ StressTestAnalyzer.profitable_days_unhedged perf
     = Pd.count_positive (map unhedged_pnl data)
  /\ StressTestAnalyzer.profitable_days_ratio_hedged perf
     = Py.float_of_nat (Pd.count_positive (map total_pnl data))
       / Py.float_of_nat (length data)
  /\ StressTestAnalyzer.profitable_days_ratio_unhedged perf
     = Py.float_of_nat (Pd.count_positive (map unhedged_pnl data))
       / Py.float_of_nat (length data)
  /\ StressTestAnalyzer.max_drawdown_hedged perf
     = _calculate_max_drawdown (map total_pnl_cumulative data)
  /\ StressTestAnalyzer.max_drawdown_unhedged perf
     = _calculate_max_drawdown (map unhedged_pnl_cumulative data)
  /\ StressTestAnalyzer.risk_reduction_rate perf
     = if 0 <? Pd.std (map unhedged_pnl data)
       then (Pd.std (map unhedged_pnl data) - Pd.std (map total_pnl data))
            / Pd.std (map unhedged_pnl data)
       else 0.
Proof.
  unfold StressTestAnalyzer._calculate_period_performance. intros H.
  destruct data as [|r rows]; [discriminate|].
  set (l := r :: rows) in *.
  destruct (Np.percentile (map total_pnl l) 5) as [v1|e];
    cbn [bind] in H; [|discriminate].
  destruct (Np.percentile (map unhedged_pnl l) 5) as [v2|e];
    cbn [bind] in H; [|discriminate].
  injection H as <-.
  cbn [StressTestAnalyzer.var_95_hedged StressTestAnalyzer.var_95_unhedged
       StressTestAnalyzer.days StressTestAnalyzer.total_hedged_pnl
       StressTestAnalyzer.total_unhedged_pnl
       StressTestAnalyzer.total_spot_pnl StressTestAnalyzer.total_future_pnl
       StressTestAnalyzer.avg_daily_hedged_pnl
       StressTestAnalyzer.avg_daily_unhedged_pnl
       StressTestAnalyzer.hedged_volatility
       StressTestAnalyzer.unhedged_volatility
       StressTestAnalyzer.max_daily_loss_hedged
       StressTestAnalyzer.max_daily_loss_unhedged
       StressTestAnalyzer.profitable_days_hedged
       StressTestAnalyzer.profitable_days_unhedged
       StressTestAnalyzer.profitable_days_ratio_hedged
       StressTestAnalyzer.profitable_days_ratio_unhedged
       StressTestAnalyzer.max_drawdown_hedged
       StressTestAnalyzer.max_drawdown_unhedged
       StressTestAnalyzer.risk_reduction_rate].
  repeat split.
Qed.

(** X23.  Scored as one period, the whole record set of a backtest gets
    the figures of the backtest's own metrics: the day count, the totals,
    the averages, the volatilities, the largest daily losses, the
    profitable days and their ratios, the 5 percent quantiles and the
    drawdowns agree.  The risk reduction rate is the volatility reduction
    rate when the unhedged volatility is positive, and 0 where the metrics
    have a NaN or an infinity. *)
Theorem whole_set_period_performance (aligned_data : AlignedSeries)
    (h q cs : float) (dir : HedgeDirection) (bt : BacktestResult) :
  run_backtest aligned_data h q dir cs = Ok bt ->
  let m := performance_metrics bt in
  exists perf,
    StressTestAnalyzer._calculate_period_performance (data bt)
    = Ok (Some perf)
    /\ StressTestAnalyzer.days perf = total_days m
    /\ StressTestAnalyzer.total_hedged_pnl perf = total_hedged_pnl m
    /\ StressTestAnalyzer.total_unhedged_pnl perf = total_unhedged_pnl m
    /\ StressTestAnalyzer.total_spot_pnl perf = total_spot_pnl m
    /\ StressTestAnalyzer.total_future_pnl perf = total_future_pnl m
    /\ StressTestAnalyzer.avg_daily_hedged_pnl perf = avg_daily_hedged_pnl m
    /\ StressTestAnalyzer.avg_daily_unhedged_pnl perf
       = avg_daily_unhedged_pnl m
    /\ StressTestAnalyzer.hedged_volatility perf = hedged_volatility m
    /\ StressTestAnalyzer.unhedged_volatility perf = unhedged_volatility m
    /\ StressTestAnalyzer.max_daily_loss_hedged perf
       = max_daily_loss_hedged m
    /\ StressTestAnalyzer.max_daily_loss_unhedged perf
       = max_daily_loss_unhedged m
    /\ StressTestAnalyzer.profitable_days_hedged perf
       = profitable_days_hedged m
    /\ StressTestAnalyzer.profitable_days_unhedged perf
       = profitable_days_unhedged m
    /\ StressTestAnalyzer.profitable_days_ratio_hedged perf
       = profitable_days_ratio_hedged m
    /\ StressTestAnalyzer.profitable_days_ratio_unhedged perf
       = profitable_days_ratio_unhedged m
    /\ StressTestAnalyzer.var_95_hedged perf = var_95_hedged m
    /\ StressTestAnalyzer.var_95_unhedged perf = var_95_unhedged m
    /\ StressTestAnalyzer.max_drawdown_hedged perf = max_drawdown_hedged m
    /\ StressTestAnalyzer.max_drawdown_unhedged perf
       = max_drawdown_unhedged m
    /\ StressTestAnalyzer.risk_reduction_rate perf
       = if 0 <? unhedged_volatility m then volatility_reduction_rate m
         else 0.
Proof.
  intros Hrun m. apply run_backtest_returns in Hrun as [_ Hm].
  fold m in Hm. apply performance_metrics_all in Hm.
  destruct Hm as (Hne & Hv1 & Hv2 & Hm).
  destruct (StressFacts.period_performance_ok Hne) as [perf Hperf].
  exists perf. split; [exact Hperf|].
  apply period_performance_fields in Hperf.
  destruct Hperf as (Hw1 & Hw2 & Hperf).
  rewrite Hv1 in Hw1. injection Hw1 as Hw1.
  rewrite Hv2 in Hw2. injection Hw2 as Hw2.
  repeat match type of Hperf with
         | _ /\ _ => let H := fresh "Hp" in destruct Hperf as [H Hperf]
         end.
  repeat match type of Hm with
         | _ /\ _ => let H := fresh "Hq" in destruct Hm as [H Hm]
         end.
  repeat split; try congruence.
  replace (unhedged_volatility m) with (Pd.std (map unhedged_pnl (data bt)))
    by (symmetry; assumption).
  rewrite Hm. assumption.
Qed.

Lemma whole_set_period_performance_witness :
  exists bt perf,
    run_backtest Samples.four_days 0.5 10 SHORT_HEDGE 1 = Ok bt
    /\ StressTestAnalyzer._calculate_period_performance (data bt)
       = Ok (Some perf)
    /\ StressTestAnalyzer.total_hedged_pnl perf
       = total_hedged_pnl (performance_metrics bt).
Proof.
  assert (Hrun : exists bt,
            run_backtest Samples.four_days 0.5 10 SHORT_HEDGE 1 = Ok bt)
    by (eexists; vm_compute; reflexivity).
  destruct Hrun as (bt & Hrun). exists bt.
  destruct (@whole_set_period_performance Samples.four_days 0.5 10 1
              SHORT_HEDGE bt Hrun) as (perf & Hperf & _ & Htotal & _).
  exists perf. split; [exact Hrun|]. split; [exact Hperf|exact Htotal].
Defined.

End BacktestEdgeFacts.

(** ** hedge_ratio_calculator.py: short series, windows, sensitivity and
    validation *)

Module HedgeEdgeFacts.

Import HedgeRatioCalculator.
Open Scope float_scope.

(** The first row of the frame with changes has no change: any filter that
    drops the rows with a missing change leaves fewer rows than there are
    days. *)
Lemma changes_kept_length (data : AlignedSeries)
    (keep : ChangeRow -> bool) :
  (forall r, keep r = true -> change_row_has_nan r = false) ->
  (length (filter keep (with_changes data)) <= length data - 1)%nat.
Proof.
  intros Hkeep. destruct data as [|p rest]; [cbn; lia|].
  unfold with_changes. cbn [length seq combine map Pd.diff nth fst snd filter].
  match goal with
  | |- context [keep ?r0] => destruct (keep r0) eqn:E
  end.
  - apply Hkeep in E. unfold change_row_has_nan in E.
    cbn [spot_change] in E. change (is_nan nan) with true in E.
    rewrite orb_true_r in E. discriminate.
  - match goal with
    | |- (length (filter keep ?l) <= _)%nat =>
        pose proof (filter_length_le keep l) as Hle;
        assert (Hl : length l = length rest)
          by (rewrite length_map, length_combine, length_seq;
              apply Nat.min_id)
    end.
    lia.
Qed.

Lemma dropna_length (data : AlignedSeries) :
  (length (dropna (with_changes data)) <= length data - 1)%nat.
Proof.
  apply changes_kept_length. intros r H. now apply negb_true_iff in H.
Qed.

Lemma tail_length {A : Type} (w : Z) (l : list A) :
  (length (tail w l) <= length l)%nat
  /\ ((0 <= w)%Z -> (length (tail w l) <= Z.to_nat w)%nat).
Proof.
  unfold tail. destruct (w <? 0)%Z eqn:E; rewrite length_skipn.
  - split; [lia|]. apply Z.ltb_lt in E. lia.
  - split; lia.
Qed.

(** X12.  The minimum-variance ratio needs three rows: on a series of one
    or two rows, and with a window of one or two rows on any series,
    [calculate_optimal_hedge_ratio] raises the ValueError for too little
    data. *)
Theorem optimal_hedge_ratio_needs_three_rows (aligned_data : AlignedSeries)
    (window_size : option Z) :
  aligned_data <> [] ->
  (length aligned_data <= 2)%nat
  \/ (exists w, window_size = Some w /\ (0 < w <= 2)%Z) ->
  calculate_optimal_hedge_ratio aligned_data window_size
  = Raise (ValueError InsufficientData).
Proof.
  intros Hne Hshort. unfold calculate_optimal_hedge_ratio.
  destruct aligned_data as [|p rest]; [congruence|].
  set (aligned := p :: rest) in *.
  match goal with
  | |- (if (length (dropna (with_changes ?d)) <? 2)%nat then _ else _) = _ =>
      assert (Hd : (length d <= 2)%nat)
  end.
  { destruct Hshort as [Hlen|(w & -> & Hw)].
    - destruct window_size as [w|]; [|exact Hlen].
      destruct (negb (w =? 0)%Z && (w <? Z.of_nat (length aligned))%Z);
        [|exact Hlen].
      pose proof (proj1 (tail_length w aligned)). lia.
    - destruct (negb (w =? 0)%Z && (w <? Z.of_nat (length aligned))%Z)
        eqn:E.
      + pose proof (proj2 (tail_length w aligned)). lia.
      + apply andb_false_iff in E as [E|E].
        * apply negb_false_iff, Z.eqb_eq in E. lia.
        * apply Z.ltb_ge in E. lia. }
  match goal with
  | |- (if (length (dropna (with_changes ?d)) <? 2)%nat then _ else _) = _ =>
      pose proof (dropna_length d) as Hk
  end.
  match goal with
  | |- (if ?c then _ else _) = _ => replace c with true; [reflexivity|]
  end.
  symmetry. apply Nat.ltb_lt. lia.
Qed.

Lemma optimal_hedge_ratio_needs_three_rows_witness :
  Samples.lockstep_days <> []
  /\ ((length Samples.lockstep_days <= 2)%nat
      \/ (exists w, Some 2%Z = Some w /\ (0 < w <= 2)%Z))
  /\ calculate_optimal_hedge_ratio Samples.lockstep_days (Some 2%Z)
     = Raise (ValueError InsufficientData).
Proof.
  assert (H1 : Samples.lockstep_days <> []) by discriminate.
  assert (H2 : (length Samples.lockstep_days <= 2)%nat
               \/ (exists w, Some 2%Z = Some w /\ (0 < w <= 2)%Z))
    by (right; exists 2%Z; split; [reflexivity|lia]).
  split; [exact H1|]. split; [exact H2|].
  exact (@optimal_hedge_ratio_needs_three_rows Samples.lockstep_days
           (Some 2%Z) H1 H2).
Defined.

(** X13.  The effectiveness of a hedge needs three rows as well: on a
    series of one or two rows [calculate_hedge_effectiveness] raises the
    ValueError for too little data, whatever the ratio. *)
Theorem hedge_effectiveness_needs_three_rows (aligned_data : AlignedSeries)
    (ratio : float) :
  aligned_data <> [] ->
  (length aligned_data <= 2)%nat ->
  calculate_hedge_effectiveness aligned_data ratio
  = Raise (ValueError InsufficientData).
Proof.
  intros Hne Hlen. unfold calculate_hedge_effectiveness.
  destruct aligned_data as [|p rest]; [congruence|].
  match goal with
  | |- (if (length (filter ?keep (with_changes ?d)) <? 2)%nat
        then _ else _) = _ =>
      pose proof (@changes_kept_length d keep) as Hk
  end.
  match goal with
  | |- (if ?c then _ else _) = _ => replace c with true; [reflexivity|]
  end.
  symmetry. apply Nat.ltb_lt.
  assert (Hk' := Hk ltac:(intros r H; apply negb_true_iff in H;
                          now apply orb_false_elim in H as [H _])).
  lia.
Qed.

Lemma hedge_effectiveness_needs_three_rows_witness :
  [Samples.day 0 100 50; Samples.day 1 105 54] <> []
  /\ (length [Samples.day 0 100 50; Samples.day 1 105 54] <= 2)%nat
  /\ calculate_hedge_effectiveness
       [Samples.day 0 100 50; Samples.day 1 105 54] 0.5
     = Raise (ValueError InsufficientData).
Proof.
  assert (H1 : [Samples.day 0 100 50; Samples.day 1 105 54] <> [])
    by discriminate.
  assert (H2 : (length [Samples.day 0 100 50; Samples.day 1 105 54]
                <= 2)%nat) by (cbn; lia).
  split; [exact H1|]. split; [exact H2|].
  exact (@hedge_effectiveness_needs_three_rows _ 0.5 H1 H2).
Defined.

(** ** Sensitivity *)

Import HedgeRatioAnalysis.

(** [np.linspace] with a count that is not negative: that many points, the
    last of which is the stop value itself when there are two or more. *)
Lemma linspace_points (start stop : float) (num : Z) :
  (0 <= num)%Z ->
  exists ys,
    linspace start stop num = Ok ys
    /\ length ys = Z.to_nat num
    /\ ((1 < num)%Z -> exists front, ys = (front ++ [stop])%list).
Proof.
  intros Hnum. unfold linspace.
  replace (num <? 0)%Z with false by (symmetry; apply Z.ltb_ge; lia).
  match goal with
  | |- context [map (fun v => v + start) ?y0] =>
      set (y := map (fun v => v + start) y0);
      assert (Hy : length y = Z.to_nat num)
  end.
  { unfold y. rewrite length_map.
    destruct (0 <? num - 1)%Z;
      [destruct (_ =? 0)|]; rewrite !length_map, length_seq; reflexivity. }
  clearbody y. eexists. split; [reflexivity|].
  destruct (1 <? num)%Z eqn:E.
  - apply Z.ltb_lt in E. split.
    + rewrite length_app, removelast_firstn_len, length_firstn, Hy.
      cbn [length]. lia.
    + intros _. eexists. reflexivity.
  - apply Z.ltb_ge in E. split; [exact Hy|]. intros H. lia.
Qed.

(** X14.  [sensitivity_analysis] on a series with rows returns one row per
    step, and with two steps or more the last row is the one at exactly
    [base_ratio * (1 + ratio_range)]; a negative number of steps raises the
    ValueError of [np.linspace].  The number of rows of the series is not
    checked. *)
Theorem sensitivity_analysis_rows (aligned_data : AlignedSeries)
    (base_ratio ratio_range : float) (steps : Z) :
  aligned_data <> [] ->
  ((steps < 0)%Z ->
   sensitivity_analysis aligned_data base_ratio ratio_range steps
   = Raise (ValueError NegativeSamples))
  /\ ((0 <= steps)%Z ->
      exists rows,
        sensitivity_analysis aligned_data base_ratio ratio_range steps
        = Ok rows
        /\ length rows = Z.to_nat steps
        /\ ((1 < steps)%Z ->
            exists front,
              map HedgeRatioAnalysis.hedge_ratio rows
              = (front ++ [base_ratio * (1 + ratio_range)])%list)).
Proof.
  intros Hne. destruct aligned_data as [|p rest]; [congruence|].
  unfold sensitivity_analysis. split.
  - intros Hneg. unfold linspace.
    replace (steps <? 0)%Z with true by (symmetry; apply Z.ltb_lt; lia).
    reflexivity.
  - intros Hsteps.
    destruct (@linspace_points (base_ratio * (1 - ratio_range))
                (base_ratio * (1 + ratio_range)) steps Hsteps)
      as (ys & -> & Hlen & Hlast).
    cbn [bind]. eexists. split; [reflexivity|].
    split; [now rewrite length_map|].
    intros Hmany. destruct (Hlast Hmany) as [front ->].
    exists front. rewrite map_map. cbn [HedgeRatioAnalysis.hedge_ratio
      sensitivity_row]. now rewrite map_id.
Qed.

Lemma sensitivity_analysis_rows_witness :
  Samples.lockstep_days <> []
  /\ exists rows,
       sensitivity_analysis Samples.lockstep_days 2 0.2 5 = Ok rows
       /\ length rows = 5%nat
       /\ exists front,
            map HedgeRatioAnalysis.hedge_ratio rows
            = (front ++ [2 * (1 + 0.2)])%list.
Proof.
  assert (H1 : Samples.lockstep_days <> []) by discriminate.
  split; [exact H1|].
  destruct (proj2 (@sensitivity_analysis_rows Samples.lockstep_days 2 0.2 5
                     H1)) as (rows & Hrows & Hlen & Hlast); [lia|].
  exists rows. split; [exact Hrows|]. split; [exact Hlen|].
  apply Hlast. lia.
Defined.

Lemma var_of_few (xs : list float) :
  (length xs <= 1)%nat -> Pd.var xs = nan.
Proof.
  intros H. unfold Pd.var, Pd.count, Pd.notna.
  pose proof (filter_length_le (fun x => negb (is_nan x)) xs) as Hle.
  replace (length (filter (fun x => negb (is_nan x)) xs) <=? 1)%nat
    with true; [reflexivity|].
  symmetry. apply Nat.leb_le. lia.
Qed.

(** X15.  On the series for which [calculate_hedge_effectiveness] raises
    (one or two rows), [sensitivity_analysis] returns all the same, and
    every row of its table has NaN for the variance, the volatility, the
    effectiveness and the risk reduction. *)
Theorem sensitivity_analysis_short_series (aligned_data : AlignedSeries)
    (base_ratio ratio_range : float) (steps : Z)
    (rows : list SensitivityRow) :
  (length aligned_data <= 2)%nat ->
  sensitivity_analysis aligned_data base_ratio ratio_range steps = Ok rows ->
  Forall (fun row => variance row = nan /\ volatility row = nan
                     /\ effectiveness row = nan
                     /\ risk_reduction row = nan) rows.
Proof.
  intros Hlen. unfold sensitivity_analysis.
  destruct aligned_data as [|p rest]; [discriminate|].
  pose proof (dropna_length (p :: rest)) as Hk.
  set (data := dropna (with_changes (p :: rest))) in *.
  assert (Hfew : (length data <= 1)%nat) by lia. clearbody data.
  destruct (linspace _ _ steps) as [ys|e]; cbn [bind]; [|discriminate].
  intros [= <-]. apply Forall_forall. intros row Hrow.
  apply in_map_iff in Hrow as (ratio & <- & _).
  unfold sensitivity_row. cbn [variance volatility effectiveness
    risk_reduction].
  rewrite !var_of_few by (rewrite length_map; lia).
  repeat split; reflexivity.
Qed.

Lemma sensitivity_analysis_short_series_witness :
  exists rows,
    (length [Samples.day 0 100 50; Samples.day 1 105 54] <= 2)%nat
    /\ sensitivity_analysis [Samples.day 0 100 50; Samples.day 1 105 54]
         0.5 0.2 3 = Ok rows
    /\ length rows = 3%nat
    /\ Forall (fun row => variance row = nan /\ volatility row = nan
                          /\ effectiveness row = nan
                          /\ risk_reduction row = nan) rows.
Proof.
  assert (Hrun : exists rows,
            sensitivity_analysis [Samples.day 0 100 50; Samples.day 1 105 54]
              0.5 0.2 3 = Ok rows /\ length rows = 3%nat)
    by (eexists; split; vm_compute; reflexivity).
  destruct Hrun as (rows & Hrun & Hlen). exists rows.
  assert (H : (length [Samples.day 0 100 50; Samples.day 1 105 54]
               <= 2)%nat) by (cbn; lia).
  split; [exact H|]. split; [exact Hrun|]. split; [exact Hlen|].
  exact (@sensitivity_analysis_short_series _ 0.5 0.2 3 rows H Hrun).
Defined.

(** ** Validation *)

Lemma abs_opp (r : float) : abs (- r) = abs r.
Proof.
  apply Prim2SF_inj. rewrite !abs_spec, opp_spec.
  now destruct (Prim2SF r).
Qed.

Lemma is_nan_opp (r : float) : is_nan (- r) = is_nan r.
Proof.
  unfold is_nan. rewrite !FloatAxioms.eqb_spec, opp_spec.
  destruct (Prim2SF r) as [s|s| |s m e] eqn:E; cbn [SFopp];
    try reflexivity; rewrite !SFeqb_refl by discriminate; reflexivity.
Qed.

(** X16.  [validate_hedge_ratio] looks at the size of the ratio only: a
    ratio and its opposite get the same verdict and the same advice (the
    advice for a ratio that is too large quotes the ratio it was given). *)
Theorem validate_hedge_ratio_sign (ratio : float) :
  validate_hedge_ratio (- ratio)
  = (fst (validate_hedge_ratio ratio),
     match snd (validate_hedge_ratio ratio) with
     | TooLarge r => TooLarge (- r)
     | advice => advice
     end).
Proof.
  unfold validate_hedge_ratio, is_infinity.
  rewrite is_nan_opp, abs_opp.
  destruct (is_nan ratio); [reflexivity|].
  destruct (abs ratio =? infinity); [reflexivity|].
  destruct (10 <? abs ratio); [reflexivity|].
  destruct (abs ratio <? 0.01); [reflexivity|].
  destruct (5 <? abs ratio); reflexivity.
Qed.

(** ** The number of contracts *)

(** [round] returns on the finite floats and on no other. *)
Lemma round_returns (c : float) :
  (exists n, Py.round c = Ok n) <-> is_finite c = true.
Proof.
  split.
  - intros [n H]. unfold Py.round in H.
    unfold is_finite, is_nan, is_infinity.
    rewrite !FloatAxioms.eqb_spec, abs_spec.
    replace (Prim2SF infinity) with (S754_infinity false) by reflexivity.
    destruct (Prim2SF c) as [s|s| |s m e]; try discriminate.
    + reflexivity.
    + rewrite SFeqb_refl by discriminate. reflexivity.
  - intros H.
    destruct (HedgeRatioFacts.is_finite_cases c H) as [[s E]|(s & m & e & E)];
      unfold Py.round; rewrite E; eexists; reflexivity.
Qed.

(** X17.  [calculate_hedge_quantity] returns exactly when the contract
    size is not zero, the number of contracts is finite and the spot
    quantity is not zero; in every other case it raises
    ZeroDivisionError, ValueError (a NaN count) or OverflowError (an
    infinite count). *)
Theorem hedge_quantity_returns (spot_quantity hedge_ratio
    future_contract_size : float) :
  ((exists q,
      calculate_hedge_quantity spot_quantity hedge_ratio future_contract_size
      = Ok q)
   <-> (future_contract_size =? 0) = false
       /\ is_finite (spot_quantity * hedge_ratio / future_contract_size)
          = true
       /\ (spot_quantity =? 0) = false)
  /\ (forall e,
        calculate_hedge_quantity spot_quantity hedge_ratio
          future_contract_size = Raise e ->
        e = ZeroDivisionError \/ e = ValueError NaNToInteger
        \/ e = OverflowError).
Proof.
  unfold calculate_hedge_quantity, Py.div.
  destruct (future_contract_size =? 0).
  { split; [split|].
    - intros [q H]. discriminate.
    - intros [H _]. discriminate.
    - intros e [= <-]. now left. }
  cbn [bind].
  set (c := spot_quantity * hedge_ratio / future_contract_size).
  pose proof (round_returns c) as Hround.
  destruct (Py.round c) as [n|err] eqn:E; cbn [bind].
  - assert (Hfin : is_finite c = true) by (apply Hround; now exists n).
    destruct (spot_quantity =? 0); cbn [bind].
    + split; [split|].
      * intros [q H]. discriminate.
      * intros (_ & _ & H). discriminate.
      * intros e [= <-]. now left.
    + split; [split|].
      * intros _. repeat split. exact Hfin.
      * intros _. eexists. reflexivity.
      * intros e H. discriminate.
  - split; [split|].
    + intros [q H]. discriminate.
    + intros (_ & Hfin & _). apply Hround in Hfin as [n Hn]. discriminate.
    + intros e [= <-]. unfold Py.round in E.
      destruct (Prim2SF c); inversion E; auto.
Qed.

(** ** Windows *)

Lemma ratios_of_changes_fields (sc fc : list float) (ws : option Z)
    (r : float) (res : HedgeRatioResult) :
  ratios_of_changes sc fc ws = Ok (r, res) ->
  r = optimal_hedge_ratio res
  /\ data_points res = length sc
  /\ window_used res = ws
  /\ forall ws', exists res',
       ratios_of_changes sc fc ws' = Ok (r, res')
       /\ optimal_hedge_ratio res' = optimal_hedge_ratio res
       /\ hedge_ratio_ols res' = hedge_ratio_ols res
       /\ hedge_ratio_corr res' = hedge_ratio_corr res
       /\ data_points res' = data_points res.
Proof.
  unfold ratios_of_changes.
  destruct (Sm.ols sc fc) as [model|e]; cbn [bind]; [|discriminate].
  intros [= <- <-]. cbn [optimal_hedge_ratio data_points window_used].
  repeat split. intros ws'. eexists. split; [reflexivity|].
  repeat split.
Qed.

Lemma whole_series_ratio (data : AlignedSeries) :
  data <> [] ->
  calculate_optimal_hedge_ratio data None
  = if (length (dropna (with_changes data)) <? 2)%nat
    then Raise (ValueError InsufficientData)
    else ratios_of_changes (map spot_change (dropna (with_changes data)))
           (map future_change (dropna (with_changes data))) None.
Proof. destruct data; [congruence|reflexivity]. Qed.

(** X18.  A window of [w] rows, shorter than the series, gives the
    estimate of the last [w] rows taken alone: the same three ratios, from
    at most [w - 1] changes, the first row of the window serving only as
    the base of the first change.  The result records the window. *)
Theorem windowed_hedge_ratio (aligned_data : AlignedSeries) (w : Z)
    (r : float) (res : HedgeRatioResult) :
  (0 < w < Z.of_nat (length aligned_data))%Z ->
  calculate_optimal_hedge_ratio aligned_data (Some w) = Ok (r, res) ->
  r = optimal_hedge_ratio res
  /\ window_used res = Some w
  /\ (Z.of_nat (data_points res) <= w - 1)%Z
  /\ exists res',
       calculate_optimal_hedge_ratio (tail w aligned_data) None
       = Ok (r, res')
       /\ hedge_ratio_ols res' = hedge_ratio_ols res
       /\ hedge_ratio_corr res' = hedge_ratio_corr res
       /\ data_points res' = data_points res
       /\ window_used res' = None.
Proof.
  intros Hw Hres. unfold calculate_optimal_hedge_ratio in Hres.
  destruct aligned_data as [|p rest]; [discriminate|].
  set (aligned := p :: rest) in *.
  replace (w =? 0)%Z with false in Hres by (symmetry; apply Z.eqb_neq; lia).
  replace (w <? Z.of_nat (length aligned))%Z with true in Hres
    by (symmetry; apply Z.ltb_lt; lia).
  cbn [negb andb] in Hres.
  pose proof (proj2 (tail_length w aligned)) as Hlen.
  pose proof (dropna_length (tail w aligned)) as Hk.
  assert (Htail : tail w aligned <> []).
  { unfold tail. replace (w <? 0)%Z with false
      by (symmetry; apply Z.ltb_ge; lia).
    intros E. apply (f_equal (@length _)) in E.
    rewrite length_skipn in E. cbn [length] in E. lia. }
  rewrite (@whole_series_ratio (tail w aligned) Htail).
  set (data := dropna (with_changes (tail w aligned))) in *.
  destruct (length data <? 2)%nat eqn:Eshort; [discriminate|].
  apply ratios_of_changes_fields in Hres as (Hr & Hpoints & Hused & Hsame).
  split; [exact Hr|]. split; [exact Hused|]. split.
  { rewrite Hpoints, length_map. lia. }
  destruct (Hsame None) as (res' & Hres' & _ & Hols & Hcorr & Hdp).
  exists res'. split; [exact Hres'|].
  apply ratios_of_changes_fields in Hres' as (_ & _ & Hnone & _).
  repeat split; assumption.
Qed.

Lemma windowed_hedge_ratio_witness :
  exists r res,
    (0 < 4 < Z.of_nat (length Samples.stress_days))%Z
    /\ calculate_optimal_hedge_ratio Samples.stress_days (Some 4%Z)
       = Ok (r, res)
    /\ window_used res = Some 4%Z
    /\ (Z.of_nat (data_points res) <= 4 - 1)%Z.
Proof.
  assert (Hrun : exists r res,
            calculate_optimal_hedge_ratio Samples.stress_days (Some 4%Z)
            = Ok (r, res))
    by (eexists; eexists; vm_compute; reflexivity).
  destruct Hrun as (r & res & Hrun). exists r, res.
  assert (Hw : (0 < 4 < Z.of_nat (length Samples.stress_days))%Z)
    by (cbn; lia).
  split; [exact Hw|]. split; [exact Hrun|].
  destruct (@windowed_hedge_ratio Samples.stress_days 4 r res Hw Hrun)
    as (_ & Hused & Hpoints & _).
  split; [exact Hused|exact Hpoints].
Defined.

(** X25.  A window of 0, or one that is not smaller than the series, is
    not applied: the estimate is the one of the whole series.  The result
    still records the window asked for, except for 0, which it records as
    no window. *)
Theorem unused_window (aligned_data : AlignedSeries) (w : Z) (r : float)
    (res : HedgeRatioResult) :
  (w = 0 \/ Z.of_nat (length aligned_data) <= w)%Z ->
  calculate_optimal_hedge_ratio aligned_data (Some w) = Ok (r, res) ->
  window_used res = (if (w =? 0)%Z then None else Some w)
  /\ exists res',
       calculate_optimal_hedge_ratio aligned_data None = Ok (r, res')
       /\ hedge_ratio_ols res' = hedge_ratio_ols res
       /\ hedge_ratio_corr res' = hedge_ratio_corr res
       /\ data_points res' = data_points res.
Proof.
  intros Hw Hres. unfold calculate_optimal_hedge_ratio in Hres.
  destruct aligned_data as [|p rest]; [discriminate|].
  set (aligned := p :: rest) in *.
  replace (negb (w =? 0)%Z && (w <? Z.of_nat (length aligned))%Z)
    with false in Hres.
  2:{ symmetry. apply andb_false_iff. destruct Hw as [->|Hw].
      - now left.
      - right. apply Z.ltb_ge. exact Hw. }
  assert (Hne : aligned <> []) by discriminate.
  rewrite (@whole_series_ratio aligned Hne).
  set (data := dropna (with_changes aligned)) in *.
  destruct (length data <? 2)%nat; [discriminate|].
  apply ratios_of_changes_fields in Hres as (_ & _ & Hused & Hsame).
  split; [exact Hused|].
  destruct (Hsame None) as (res' & Hres' & _ & Hols & Hcorr & Hdp).
  exists res'. repeat split; assumption.
Qed.

Lemma unused_window_witness :
  exists r res,
    (30 = 0 \/ Z.of_nat (length Samples.lockstep_days) <= 30)%Z
    /\ calculate_optimal_hedge_ratio Samples.lockstep_days (Some 30%Z)
       = Ok (r, res)
    /\ window_used res = Some 30%Z
    /\ exists res',
         calculate_optimal_hedge_ratio Samples.lockstep_days None
         = Ok (r, res').
Proof.
  assert (Hrun : exists r res,
            calculate_optimal_hedge_ratio Samples.lockstep_days (Some 30%Z)
            = Ok (r, res))
    by (eexists; eexists; vm_compute; reflexivity).
  destruct Hrun as (r & res & Hrun). exists r, res.
  assert (Hw : (30 = 0 \/ Z.of_nat (length Samples.lockstep_days) <= 30)%Z)
    by (right; cbn; lia).
  split; [exact Hw|]. split; [exact Hrun|].
  destruct (@unused_window Samples.lockstep_days 30 r res Hw Hrun)
    as (Hused & res' & Hres' & _).
  split; [exact Hused|]. exists res'. exact Hres'.
Defined.

End HedgeEdgeFacts.

(** ** data_processor.py: what [align_data] returns on any two frames *)

Module AlignFacts.

Import DataProcessor.

Local Open Scope Z_scope.

Lemma insert_by_date_in (r x : Z * list float) (l : list (Z * list float)) :
  In x (insert_by_date r l) <-> x = r \/ In x l.
Proof.
  induction l as [|y l IH]; cbn [insert_by_date].
  - cbn. intuition.
  - destruct (fst r <=? fst y); cbn [In]; [intuition|].
    rewrite IH. intuition.
Qed.

Lemma sort_values_date_in (x : Z * list float) (l : list (Z * list float)) :
  In x (sort_values_date l) <-> In x l.
Proof.
  unfold sort_values_date. induction l as [|y l IH]; [reflexivity|].
  cbn [fold_right In]. rewrite insert_by_date_in, IH. intuition.
Qed.

Lemma insert_by_date_sorted (r : Z * list float)
    (l : list (Z * list float)) :
  StronglySorted Z.le (dates l) ->
  StronglySorted Z.le (dates (insert_by_date r l)).
Proof.
  unfold dates. induction l as [|y l IH]; intros Hs.
  - cbn. repeat constructor.
  - cbn [map] in Hs. apply StronglySorted_inv in Hs as [Hs Hy].
    cbn [insert_by_date].
    destruct (Z.leb_spec (fst r) (fst y)) as [Hle|Hgt]; cbn [map].
    + constructor; [constructor; assumption|].
      constructor; [exact Hle|].
      apply Forall_forall. intros z Hz. rewrite Forall_forall in Hy.
      specialize (Hy z Hz). lia.
    + constructor; [now apply IH|].
      apply Forall_forall. intros z Hz.
      apply in_map_iff in Hz as (x & <- & Hx).
      apply insert_by_date_in in Hx as [->|Hx]; [lia|].
      rewrite Forall_forall in Hy. apply Hy. now apply in_map.
Qed.

Lemma sort_values_date_is_sorted (l : list (Z * list float)) :
  StronglySorted Z.le (dates (sort_values_date l)).
Proof.
  unfold sort_values_date. induction l as [|y l IH]; [constructor|].
  cbn [fold_right]. now apply insert_by_date_sorted.
Qed.

Lemma merge_rows_dates (left right : list (Z * list float)) (d : Z) :
  In d (dates (merge_rows left right))
  <-> In d (dates left) /\ In d (dates right).
Proof.
  unfold dates, merge_rows. split.
  - intros H. apply in_map_iff in H as (x & <- & Hx).
    apply in_flat_map in Hx as (l & Hl & Hx).
    apply in_map_iff in Hx as (r & <- & Hr).
    apply filter_In in Hr as [Hr E]. apply Z.eqb_eq in E.
    cbn [fst]. split; [now apply in_map|].
    rewrite <- E. now apply in_map.
  - intros [Hl Hr].
    apply in_map_iff in Hl as (l & <- & Hl).
    apply in_map_iff in Hr as (r & E & Hr).
    apply in_map_iff. exists (fst l, (snd l ++ snd r)%list).
    split; [reflexivity|]. apply in_flat_map. exists l. split; [exact Hl|].
    apply in_map_iff. exists r. split; [reflexivity|].
    apply filter_In. split; [exact Hr|]. now apply Z.eqb_eq.
Qed.

(** What [align_data] returns, when it returns. *)
Lemma align_data_returns (spot_df future_df out : DataFrame) :
  align_data spot_df future_df = Ok out ->
  columns out = merge_columns (columns spot_df) (columns future_df)
  /\ rows out = sort_values_date (merge_rows (rows spot_df) (rows future_df))
  /\ merge_rows (rows spot_df) (rows future_df) <> [].
Proof.
  unfold align_data, merge. cbn [rows columns].
  destruct (merge_rows (rows spot_df) (rows future_df)) as [|r l];
    [discriminate|].
  intros [= <-]. cbn [rows columns]. repeat split. discriminate.
Qed.

(** X19.  The frame [align_data] returns is in date order, has at least
    one row, and its dates are the dates found in both frames, whatever the
    order and the dates of the two frames. *)
Theorem align_data_common_dates (spot_df future_df out : DataFrame) :
  align_data spot_df future_df = Ok out ->
  StronglySorted Z.le (dates (rows out))
  /\ rows out <> []
  /\ forall d, In d (dates (rows out))
               <-> In d (dates (rows spot_df))
                   /\ In d (dates (rows future_df)).
Proof.
  intros H. apply align_data_returns in H as (_ & Hrows & Hne).
  rewrite Hrows. split; [apply sort_values_date_is_sorted|]. split.
  - destruct (merge_rows _ _) as [|r l] eqn:E; [congruence|].
    intros Hnil.
    assert (Hin : In r (sort_values_date (r :: l)))
      by (apply sort_values_date_in; now left).
    rewrite Hnil in Hin. contradiction.
  - intros d. rewrite <- merge_rows_dates. unfold dates. split.
    + intros Hd. apply in_map_iff in Hd as (x & <- & Hx).
      apply in_map. now apply sort_values_date_in.
    + intros Hd. apply in_map_iff in Hd as (x & <- & Hx).
      apply in_map. now apply sort_values_date_in.
Qed.

Lemma align_data_common_dates_witness :
  exists out,
    align_data Samples.spot_frame Samples.future_frame = Ok out
    /\ dates (rows out) = [19001; 19001; 19002]
    /\ StronglySorted Z.le (dates (rows out)).
Proof.
  assert (Hrun : exists out,
            align_data Samples.spot_frame Samples.future_frame = Ok out)
    by (eexists; vm_compute; reflexivity).
  destruct Hrun as [out Hrun]. exists out. split; [exact Hrun|].
  destruct (@align_data_common_dates Samples.spot_frame Samples.future_frame
              out Hrun) as (Hsorted & _ & _).
  split; [|exact Hsorted].
  vm_compute in Hrun. injection Hrun as <-. reflexivity.
Defined.


(** ** Repeated dates *)

Lemma count_same_date (d : Z) (right : list (Z * list float)) :
  length (filter (fun r => fst r =? d) right)
  = count_occ Z.eq_dec (dates right) d.
Proof.
  unfold dates. induction right as [|r right IH]; [reflexivity|].
  cbn [filter map count_occ].
  destruct (Z.eqb_spec (fst r) d) as [E|E];
    destruct (Z.eq_dec (fst r) d); try congruence.
  cbn [length]. now rewrite IH.
Qed.

Lemma count_one_date (a d : Z) (v : list float)
    (l : list (Z * list float)) :
  count_occ Z.eq_dec
    (dates (map (fun r => (a, (v ++ snd r)%list)) l)) d
  = if a =? d then length l else 0%nat.
Proof.
  unfold dates. induction l as [|r l IH].
  - now destruct (a =? d).
  - cbn [map fst count_occ length]. rewrite IH.
    destruct (Z.eqb_spec a d); destruct (Z.eq_dec a d); congruence.
Qed.

Lemma merge_rows_count (left right : list (Z * list float)) (d : Z) :
  count_occ Z.eq_dec (dates (merge_rows left right)) d
  = (count_occ Z.eq_dec (dates left) d
     * count_occ Z.eq_dec (dates right) d)%nat.
Proof.
  unfold merge_rows. induction left as [|l left IH]; [reflexivity|].
  cbn [flat_map]. unfold dates in *. rewrite map_app, count_occ_app, IH.
  pose proof (count_one_date (fst l) d (snd l)
                (filter (fun r => fst r =? fst l) right)) as Hone.
  unfold dates in Hone. rewrite Hone. cbn [map count_occ].
  destruct (Z.eqb_spec (fst l) d) as [E|E];
    destruct (Z.eq_dec (fst l) d); try congruence.
  - rewrite E, count_same_date. unfold dates. lia.
  - lia.
Qed.

Lemma insert_by_date_count (r : Z * list float)
    (l : list (Z * list float)) (d : Z) :
  count_occ Z.eq_dec (dates (insert_by_date r l)) d
  = count_occ Z.eq_dec (dates (r :: l)) d.
Proof.
  unfold dates. induction l as [|y l IH]; [reflexivity|].
  cbn [insert_by_date]. destruct (fst r <=? fst y); [reflexivity|].
  cbn [map count_occ] in *. rewrite IH.
  destruct (Z.eq_dec (fst y) d); destruct (Z.eq_dec (fst r) d); reflexivity.
Qed.

Lemma sort_values_date_count (l : list (Z * list float)) (d : Z) :
  count_occ Z.eq_dec (dates (sort_values_date l)) d
  = count_occ Z.eq_dec (dates l) d.
Proof.
  unfold sort_values_date. induction l as [|y l IH]; [reflexivity|].
  cbn [fold_right]. rewrite insert_by_date_count.
  unfold dates in *. cbn [map count_occ]. now rewrite IH.
Qed.

(** X21.  Repeated dates are not merged: a date found [m] times in the spot
    frame and [n] times in the futures frame is found [m * n] times in the
    frame [align_data] returns, one row per pair. *)
Theorem align_data_repeated_dates (spot_df future_df out : DataFrame)
    (d : Z) :
  align_data spot_df future_df = Ok out ->
  count_occ Z.eq_dec (dates (rows out)) d
  = (count_occ Z.eq_dec (dates (rows spot_df)) d
     * count_occ Z.eq_dec (dates (rows future_df)) d)%nat.
Proof.
  intros H. apply align_data_returns in H as (_ & -> & _).
  now rewrite sort_values_date_count, merge_rows_count.
Qed.

Lemma align_data_repeated_dates_witness :
  exists out,
    align_data Samples.spot_frame Samples.future_frame = Ok out
    /\ count_occ Z.eq_dec (dates (rows out)) 19001 = 2%nat
    /\ length (rows out) = 3%nat.
Proof.
  assert (Hrun : exists out,
            align_data Samples.spot_frame Samples.future_frame = Ok out)
    by (eexists; vm_compute; reflexivity).
  destruct Hrun as [out Hrun]. exists out. split; [exact Hrun|].
  split.
  - rewrite (@align_data_repeated_dates Samples.spot_frame
               Samples.future_frame out 19001 Hrun).
    reflexivity.
  - vm_compute in Hrun. injection Hrun as <-. reflexivity.
Defined.

End AlignFacts.

(** ** stress_test.py: what the summary counts *)

Module StressSummaryFacts.

Import StressTestAnalyzer.
Open Scope float_scope.

Lemma test_specific_periods_each
    (data : list BacktestEngine.BacktestRecord) (periods : list StressPeriod)
    (results : list PeriodResult) (kind : TestType) :
  _test_specific_periods data periods = Ok (results, kind) ->
  Forall2 (fun p r => _calculate_period_performance (period_rows data p)
                      = Ok (performance r))
    periods results.
Proof.
  unfold _test_specific_periods. revert results.
  induction periods as [|p ps IH]; intros results H.
  - cbn in H. injection H as <- _. constructor.
  - cbn [mapM] in H.
    destruct (_calculate_period_performance (period_rows data p))
      as [perf|e] eqn:Ep; cbn [bind] in H; [|discriminate].
    destruct (mapM _ ps) as [rs|e] eqn:Em; cbn [bind] in H; [|discriminate].
    injection H as <- <-. constructor; [exact Ep|].
    apply IH. reflexivity.
Qed.

Lemma mapM_get_key_some (key : string) (results : list PeriodResult)
    (perfs : list PeriodPerformance) :
  mapM (get_key key) results = Ok perfs ->
  map performance results = map Some perfs.
Proof.
  revert perfs. induction results as [|r rs IH]; intros perfs H.
  - cbn in H. now injection H as <-.
  - cbn [mapM] in H. unfold get_key at 1 in H.
    destruct (performance r) as [perf|] eqn:E; [|discriminate].
    destruct (mapM (get_key key) rs) as [ps|e]; [|discriminate].
    injection H as <-. cbn [map]. rewrite E. f_equal. now apply IH.
Qed.

Lemma stress_summary_counts (results : list PeriodResult)
    (normal : PeriodResult) (s : option StressSummary) :
  results <> [] ->
  _calculate_stress_summary results normal = Ok s ->
  exists sm perfs,
    s = Some sm
    /\ map performance results = map Some perfs
    /\ total_stress_periods sm = length results
    /\ total_stress_days sm = fold_left Nat.add (map days perfs) O.
Proof.
  intros Hne. unfold _calculate_stress_summary.
  destruct results as [|r rs]; [congruence|].
  destruct (mapM (get_key "days") (r :: rs)) as [perfs|e] eqn:Em;
    cbn [bind]; [|discriminate].
  destruct (Py.min (map max_daily_loss_hedged perfs)) as [m1|e];
    cbn [bind]; [|discriminate].
  destruct (Py.min (map max_daily_loss_unhedged perfs)) as [m2|e];
    cbn [bind]; [|discriminate].
  destruct (get_key "avg_daily_hedged_pnl" normal) as [n|e];
    cbn [bind]; [|discriminate].
  intros [= <-]. eexists. exists perfs.
  split; [reflexivity|]. split; [now apply mapM_get_key_some in Em|].
  split; reflexivity.
Qed.

(** X24.  When [run_stress_test] returns on a list of periods it was
    given, every period selects at least one row, the summary counts the
    periods passed, and its number of stress days is the sum of the numbers
    of rows the periods select: a row that two periods share is counted
    twice, and a period that reaches beyond the frame counts the rows
    inside it. *)
Theorem run_stress_test_summary_counts (self self' : Analyzer)
    (bt : BacktestEngine.BacktestResult) (periods : list StressPeriod)
    (out : StressResults) :
  periods <> [] ->
  run_stress_test stress_test_globals self (Some bt) (Some periods) None
  = Ok (out, self') ->
  Forall (fun p => period_rows (BacktestEngine.data bt) p <> []) periods
  /\ exists sm,
       summary out = Some sm
       /\ total_stress_periods sm = length periods
       /\ total_stress_days sm
          = fold_left Nat.add
              (map (fun p => length (period_rows (BacktestEngine.data bt) p))
                 periods) O.
Proof.
  intros Hne. unfold run_stress_test.
  destruct periods as [|p0 ps]; [congruence|].
  set (data := BacktestEngine.data bt).
  destruct (_test_specific_periods data (p0 :: ps)) as [[results kind]|e]
    eqn:Et; cbn [bind fst snd]; [|discriminate].
  destruct (_get_normal_period_analysis self data) as [normal|e];
    cbn [bind]; [|discriminate].
  destruct (_calculate_stress_summary results normal) as [s|e] eqn:Es;
    cbn [bind]; [|discriminate].
  intros [= <- _]. cbn [summary].
  apply test_specific_periods_each in Et.
  assert (Hres : results <> []) by (inversion Et; discriminate).
  destruct (@stress_summary_counts results normal s Hres Es)
    as (sm & perfs & -> & Hperfs & Hcount & Hdays).
  assert (Hrows : Forall2 (fun p perf =>
                    period_rows data p <> []
                    /\ days perf = length (period_rows data p))
                    (p0 :: ps) perfs).
  { clear -Et Hperfs. revert perfs Hperfs.
    induction Et as [|p r ps' rs Hp _ IH]; intros perfs Hperfs.
    - destruct perfs; [constructor|discriminate].
    - destruct perfs as [|perf perfs]; [discriminate|].
      cbn [map] in Hperfs. injection Hperfs as Hperf Hperfs.
      rewrite Hperf in Hp. constructor; [|now apply IH].
      split.
      + intros E. rewrite E in Hp. discriminate.
      + apply BacktestEdgeFacts.period_performance_fields in Hp.
        exact (proj1 (proj2 (proj2 Hp))). }
  split.
  - clear -Hrows. induction Hrows as [|p perf ps' perfs [H _] _ IH];
      constructor; assumption.
  - exists sm. split; [reflexivity|]. split.
    + rewrite Hcount. symmetry. exact (Forall2_length Et).
    + rewrite Hdays. f_equal. clear -Hrows.
      induction Hrows as [|p perf ps' perfs [_ H] _ IH]; [reflexivity|].
      cbn [map]. now rewrite H, IH.
Qed.

Lemma run_stress_test_summary_counts_witness :
  exists bt out self' sm,
    BacktestEngine.run_backtest Samples.stress_days 0.5 10
      BacktestEngine.SHORT_HEDGE 1 = Ok bt
    /\ [Samples.stress_period; Samples.period_at 5 20] <> []
    /\ run_stress_test stress_test_globals new_analyzer (Some bt)
         (Some [Samples.stress_period; Samples.period_at 5 20]) None
       = Ok (out, self')
    /\ summary out = Some sm
    /\ total_stress_periods sm = 2%nat
    /\ total_stress_days sm = 8%nat.
Proof.
  assert (Hbt : exists bt,
            BacktestEngine.run_backtest Samples.stress_days 0.5 10
              BacktestEngine.SHORT_HEDGE 1 = Ok bt)
    by (eexists; vm_compute; reflexivity).
  destruct Hbt as [bt Hbt]. exists bt.
  assert (Hrun : exists out self',
            run_stress_test stress_test_globals new_analyzer (Some bt)
              (Some [Samples.stress_period; Samples.period_at 5 20]) None
            = Ok (out, self')).
  { vm_compute in Hbt. injection Hbt as <-.
    eexists. eexists. vm_compute. reflexivity. }
  destruct Hrun as (out & self' & Hrun). exists out, self'.
  assert (Hne : [Samples.stress_period; Samples.period_at 5 20] <> [])
    by discriminate.
  destruct (@run_stress_test_summary_counts new_analyzer self' bt
              [Samples.stress_period; Samples.period_at 5 20] out Hne Hrun)
    as (_ & sm & Hsm & Hcount & Hdays).
  exists sm. split; [exact Hbt|]. split; [exact Hne|]. split; [exact Hrun|].
  split; [exact Hsm|]. split; [exact Hcount|].
  rewrite Hdays. vm_compute in Hbt. injection Hbt as <-. reflexivity.
Defined.

End StressSummaryFacts.
